(** * Scoring engine of the Signal Rating server ([server.js])

    A shallow embedding of [calculateScores], [formatMetricValue] and
    [detectPatterns], followed by the properties the specification states
    about them.

    JavaScript numbers.  The functions are written once, over an interface
    [Number] of the arithmetic that the source uses, and read at two
    instances:
    - [Binary64]: IEEE 754 binary64 (the kernel's primitive floats), which is
      what the JavaScript engine computes;
    - [Exact]: rational arithmetic extended with [NaN], in which the algebraic
      facts (the sum of the weights, the rounding of a score, the effect of
      the default challenge) are proved with rounding left out.

    The metric table ([wizard_questions.json]) is read from disk by the
    server; it is an argument of every function here.

    The code around the engine is embedded after it: the handlers that store
    and list submissions ([saveSubmissionData], [POST /wizard_submit],
    [GET /api/submissions]), the helpers of the report page
    ([report_simple.js]) and [selectFixesForPDF].  All definitions come
    first; the properties of the engine, of the store and of the report
    follow in that order. *)

From Stdlib Require Import ZArith QArith Qround Qabs Qpower String Ascii.
From Stdlib Require Import List Bool.
From Stdlib Require Import Lia Lqa Floats DecimalString Sorted Permutation.
Import ListNotations.

Local Open Scope string_scope.
Local Open Scope Z_scope.

(** ** Completions: a call returns a value or throws *)

Inductive error : Type :=
| TypeError (reading : string).
  (* "Cannot read properties of undefined (reading '...')" *)

Inductive completion (A : Type) : Type :=
| Return (a : A)
| Throw (e : error).

Arguments Return {A} a.
Arguments Throw {A} e.

Definition bind {A B : Type} (c : completion A) (k : A -> completion B)
  : completion B :=
  match c with
  | Return a => k a
  | Throw e => Throw e
  end.

Notation "x <- c ;; k" := (bind c (fun x => k))
  (at level 61, c at next level, right associativity).

(** ** The arithmetic of JavaScript numbers *)

Class Number (num : Type) : Type := {
  lit : Q -> num;               (* a decimal literal of the source or of JSON *)
  NaN : num;                    (* ToNumber(undefined) *)
  nadd : num -> num -> num;
  nsub : num -> num -> num;
  nmul : num -> num -> num;
  ndiv : num -> num -> num;
  nlt : num -> num -> bool;     (* a < b, false when either side is NaN *)
  Math_max : num -> num -> num;
  Math_min : num -> num -> num;
  Math_round : num -> num
}.

Arguments lit {num _} q%_Q.

Declare Scope js_scope.
Delimit Scope js_scope with js.
Infix "+" := nadd : js_scope.
Infix "-" := nsub : js_scope.
Infix "*" := nmul : js_scope.
Infix "/" := ndiv : js_scope.
Infix "<?" := nlt : js_scope.

(** *** Exact instance: rationals with NaN *)

Module Exact.

Definition num : Type := option Q.

Definition lift2 (f : Q -> Q -> Q) (a b : num) : num :=
  match a, b with
  | Some x, Some y => Some (f x y)
  | _, _ => None
  end.

Definition div (a b : num) : num :=
  match a, b with
  | Some x, Some y => if Qeq_bool y 0 then None else Some (x / y)%Q
  | _, _ => None
  end.

Definition lt (a b : num) : bool :=
  match a, b with
  | Some x, Some y => negb (Qle_bool y x)
  | _, _ => false
  end.

Definition max (a b : num) : num :=
  lift2 (fun x y => if Qle_bool x y then y else x) a b.

Definition min (a b : num) : num :=
  lift2 (fun x y => if Qle_bool x y then x else y) a b.

(* Math.round: the nearest integer, ties towards +infinity. *)
Definition round (a : num) : num :=
  match a with
  | Some x => Some (inject_Z (Qfloor (x + (1 # 2))%Q))
  | None => None
  end.

End Exact.

#[export] Instance ExactNumber : Number Exact.num := {
  lit q := Some q;
  NaN := None;
  nadd := Exact.lift2 Qplus;
  nsub := Exact.lift2 Qminus;
  nmul := Exact.lift2 Qmult;
  ndiv := Exact.div;
  nlt := Exact.lt;
  Math_max := Exact.max;
  Math_min := Exact.min;
  Math_round := Exact.round
}.

(** *** Binary64 instance: IEEE 754 doubles *)

Module Binary64.

Definition num : Type := float.

(* An integer below 2^53 in magnitude is a double. *)
Definition of_Z (z : Z) : float :=
  if z <? 0 then PrimFloat.opp (PrimFloat.of_uint63 (Uint63.of_Z (- z)))
  else PrimFloat.of_uint63 (Uint63.of_Z z).

(* A decimal literal n/d denotes the double nearest to it; as n and d are
   doubles and IEEE division rounds correctly, that double is n / d. *)
Definition literal (q : Q) : float :=
  PrimFloat.div (of_Z (Qnum q)) (of_Z (Zpos (Qden q))).

(* The rational a finite double stands for. *)
Definition to_Q (x : float) : option Q :=
  match Prim2SF x with
  | S754_zero _ => Some 0%Q
  | S754_finite s m e =>
      Some ((if s then -1 else 1) * inject_Z (Zpos m) * Qpower 2 e)%Q
  | S754_infinity _ | S754_nan => None
  end.

Definition is_neg_zero (x : float) : bool :=
  PrimFloat.is_zero x && PrimFloat.get_sign x.

(* Math.max and Math.min: NaN if an argument is NaN, and +0 above -0. *)
Definition max (a b : float) : float :=
  if PrimFloat.is_nan a || PrimFloat.is_nan b then PrimFloat.nan
  else if PrimFloat.ltb a b then b
  else if PrimFloat.ltb b a then a
  else if is_neg_zero a then b else a.

Definition min (a b : float) : float :=
  if PrimFloat.is_nan a || PrimFloat.is_nan b then PrimFloat.nan
  else if PrimFloat.ltb a b then a
  else if PrimFloat.ltb b a then b
  else if is_neg_zero a then a else b.

(* Math.round: floor(x + 1/2) computed exactly; -0 for results in [-0.5, 0). *)
Definition round (x : float) : float :=
  match Prim2SF x with
  | S754_finite s m e =>
      let q := ((if s then -1 else 1) * inject_Z (Zpos m) * Qpower 2 e)%Q in
      let z := Qfloor (q + (1 # 2))%Q in
      if z =? 0 then (if s then PrimFloat.neg_zero else PrimFloat.zero)
      else if Z.abs z <? 2 ^ 53 then of_Z z
      else x
  | _ => x
  end.

End Binary64.

#[export] Instance Binary64Number : Number Binary64.num := {
  lit := Binary64.literal;
  NaN := PrimFloat.nan;
  nadd := PrimFloat.add;
  nsub := PrimFloat.sub;
  nmul := PrimFloat.mul;
  ndiv := PrimFloat.div;
  nlt := PrimFloat.ltb;
  Math_max := Binary64.max;
  Math_min := Binary64.min;
  Math_round := Binary64.round
}.

(** ** Data model *)

(** The request body.  The code reads a rating field only through
    [parseInt] (lines 58-61, 195-198 and 273-276), so the field is given by
    what [parseInt] makes of it: NaN ([Absent]: the field is undefined or
    null, or its text does not start with an integer) or an integer [n]
    ([Num n]: the JSON number [n], a fraction that truncates to [n], a
    numeric string).  [n] is a safe integer, [|n| < 2^53]: these integers are
    doubles, and [Number.prototype.toString] prints them digit for digit (from
    [2^53] on it prints the shortest digits that round-trip).  A field whose
    conversion to a string throws makes [parseInt] throw before anything is
    scored: the model of the handler has it ([Request.Unreadable]), the
    model of [calculateScores] starts from fields that [parseInt] reads.
    The challenge field is absent or a string. *)

Inductive json_number : Type :=
| Absent
| Num (n : Z).

Record Answers : Type := {
  question_1_pipeline_health : json_number;
  question_2_sales_conversion : json_number;
  question_3_customer_success : json_number;
  question_4_economics_and_efficiency : json_number;
  question_5_top_challenge : option string
}.

(** [wizardConfig.questions.<question>.maps_to_metrics]: an object whose keys
    are the stringified ratings. *)

Definition object (V : Type) : Type := list (string * V).

Fixpoint own {V : Type} (o : object V) (key : string) : option V :=
  match o with
  | [] => None
  | (k, v) :: o' => if String.eqb k key then Some v else own o' key
  end.

Section Scoring.

Context {num : Type} `{Number num}.
Local Open Scope js_scope.

Record PipelineMetrics : Type := {
  lead_velocity_rate : num;
  mql_to_sql_conversion : num;
  marketing_contribution_pipeline : num;
  pipeline_coverage_ratio : num;
  inbound_lead_volume_growth : num;
  lead_response_time : num
}.

Record ConversionMetrics : Type := {
  win_rate : num;
  sales_cycle_length : num;
  sql_acceptance_rate : num;
  demo_to_proposal_rate : num;
  proposal_to_won_rate : num;
  pipeline_conversion_rate : num
}.

Record ExpansionMetrics : Type := {
  nrr : num;
  grr : num;
  churn_rate : num;
  expansion_revenue_growth : num;
  nps : num;
  time_to_first_value : num
}.

Record EconomicsMetrics : Type := {
  cac_payback_period : num;
  ltv_cac : num;
  burn_multiple : num;
  sales_rep_ramp_time : num;
  quota_attainment : num;
  magic_number : num;
  rule_of_40 : num
}.

Record Questions : Type := {
  pipeline_health_maps_to_metrics : object PipelineMetrics;
  sales_conversion_maps_to_metrics : object ConversionMetrics;
  customer_success_maps_to_metrics : object ExpansionMetrics;
  economics_and_efficiency_maps_to_metrics : object EconomicsMetrics
}.

(** *** Ratings: [parseInt(x) || 3] *)

(* [parseInt(x)]: the integer that the field parses to; [None] is NaN. *)
Definition parseInt (x : json_number) : option Z :=
  match x with
  | Absent => None
  | Num n => Some n
  end.

(* [v || d] on a number: NaN and 0 are falsy. *)
Definition or_default (v : option Z) (d : Z) : Z :=
  match v with
  | Some n => if (n =? 0)%Z then d else n
  | None => d
  end.

Definition rating (x : json_number) : Z := or_default (parseInt x) 3.

(* [n.toString()] of a safe integer: its decimal numeral. *)
Definition toString (n : Z) : string := NilZero.string_of_int (Z.to_int n).

(* Reading a property of [o]: a TypeError when [o] is undefined. *)
Definition defined {M : Type} (o : option M) (reading : string)
  : completion M :=
  match o with
  | Some m => Return m
  | None => Throw (TypeError reading)
  end.

(** *** Category scores (lines 72-99 and 126-134) *)

Definition pipelineScore (pipelineMetrics : PipelineMetrics) : num :=
  (lead_velocity_rate pipelineMetrics / lit 0.12) * lit 0.25 +
  (mql_to_sql_conversion pipelineMetrics / lit 0.28) * lit 0.25 +
  (marketing_contribution_pipeline pipelineMetrics / lit 0.38) * lit 0.20 +
  (pipeline_coverage_ratio pipelineMetrics / lit 3.8) * lit 0.15 +
  (inbound_lead_volume_growth pipelineMetrics / lit 0.25) * lit 0.10 +
  (lit 1 - (lead_response_time pipelineMetrics / lit 24)) * lit 0.05.

Definition conversionScore (conversionMetrics : ConversionMetrics) : num :=
  (win_rate conversionMetrics / lit 0.32) * lit 0.30 +
  (lit 1 - (sales_cycle_length conversionMetrics / lit 180)) * lit 0.20 +
  (sql_acceptance_rate conversionMetrics / lit 0.90) * lit 0.15 +
  (demo_to_proposal_rate conversionMetrics / lit 0.72) * lit 0.15 +
  (proposal_to_won_rate conversionMetrics / lit 0.68) * lit 0.10 +
  (pipeline_conversion_rate conversionMetrics / lit 0.42) * lit 0.10.

Definition expansionScore (expansionMetrics : ExpansionMetrics) : num :=
  (nrr expansionMetrics / lit 1.20) * lit 0.30 +
  (grr expansionMetrics / lit 0.98) * lit 0.20 +
  (lit 1 - churn_rate expansionMetrics) * lit 0.20 +
  (expansion_revenue_growth expansionMetrics / lit 0.28) * lit 0.15 +
  (nps expansionMetrics / lit 58) * lit 0.10 +
  (lit 1 - (time_to_first_value expansionMetrics / lit 60)) * lit 0.05.

Definition economicsScore (economicsMetrics : EconomicsMetrics) : num :=
  (lit 1 - (cac_payback_period economicsMetrics / lit 26)) * lit 0.20 +
  (ltv_cac economicsMetrics / lit 5.8) * lit 0.20 +
  (lit 1 - (burn_multiple economicsMetrics / lit 4.0)) * lit 0.15 +
  (lit 1 - (sales_rep_ramp_time economicsMetrics / lit 6.5)) * lit 0.10 +
  (quota_attainment economicsMetrics / lit 0.88) * lit 0.15 +
  (magic_number economicsMetrics / lit 1.25) * lit 0.10 +
  (rule_of_40 economicsMetrics / lit 62) * lit 0.10.

(** *** Weights (lines 103-123)

    [weights] and [challengeWeightMap] are object literals, so a lookup that
    finds no own property continues in [Object.prototype]. *)

Inductive value : Type :=
| Undefined
| Str (s : string)
| Obj (to_string : string).   (* a function or object, with its ToString *)

Definition truthy (v : value) : bool :=
  match v with
  | Undefined => false
  | Str s => negb (String.eqb s "")
  | Obj _ => true
  end.

Definition ToPropertyKey (v : value) : string :=
  match v with
  | Undefined => "undefined"
  | Str s => s
  | Obj s => s
  end.

Definition native (name : string) : value :=
  Obj ("function " ++ name ++ "() { [native code] }").

Definition Object_prototype : object value := [
  ("constructor", native "Object");
  ("__defineGetter__", native "__defineGetter__");
  ("__defineSetter__", native "__defineSetter__");
  ("hasOwnProperty", native "hasOwnProperty");
  ("__lookupGetter__", native "__lookupGetter__");
  ("__lookupSetter__", native "__lookupSetter__");
  ("isPrototypeOf", native "isPrototypeOf");
  ("propertyIsEnumerable", native "propertyIsEnumerable");
  ("toString", native "toString");
  ("valueOf", native "valueOf");
  ("__proto__", Obj "[object Object]");
  ("toLocaleString", native "toLocaleString")
].

(* [o[key]] for an object literal [o] of values. *)
Definition get (o : object value) (key : string) : value :=
  match own o key with
  | Some v => v
  | None =>
      match own Object_prototype key with
      | Some v => v
      | None => Undefined
      end
  end.

(* [o[key]] read as a number: a property that is not an own number of [o]
   is undefined or an inherited object, and ToNumber of either is NaN. *)
Definition get_number (o : object num) (key : string) : num :=
  match own o key with
  | Some v => v
  | None => NaN
  end.

(* [o[key] = v]: overwrite the own property, or append a new one. *)
Fixpoint set (o : object num) (key : string) (v : num) : object num :=
  match o with
  | [] => [(key, v)]
  | (k, w) :: o' =>
      if String.eqb k key then (k, v) :: o' else (k, w) :: set o' key v
  end.

Definition Object_values (o : object num) : list num := map snd o.

Definition base_weights : object num := [
  ("pipeline", lit 0.30);
  ("conversion", lit 0.30);
  ("expansion", lit 0.25);
  ("economics", lit 0.15)
].

Definition challengeWeightMap : object value := [
  ("pipeline", Str "pipeline");
  ("conversion", Str "conversion");
  ("retention", Str "expansion")
].

Definition adjust_weights (topChallenge : string) : object num :=
  let weights := base_weights in
  if truthy (get challengeWeightMap topChallenge) then
    let focusArea := ToPropertyKey (get challengeWeightMap topChallenge) in
    let weights :=
      set weights focusArea (get_number weights focusArea * lit 1.15) in
    let totalWeight :=
      fold_left (fun a b => a + b) (Object_values weights) (lit 0) in
    map (fun kv => (fst kv, snd kv / totalWeight)) weights
  else weights.

Definition overallSSI (weights : object num)
    (pipelineScore conversionScore expansionScore economicsScore : num)
  : num :=
  pipelineScore * get_number weights "pipeline" +
  conversionScore * get_number weights "conversion" +
  expansionScore * get_number weights "expansion" +
  economicsScore * get_number weights "economics".

End Scoring.

Section Ranking.

Context {num : Type} `{Number num}.
Local Open Scope js_scope.

(** *** Priority recommendations (lines 144-166) *)

Record Metric : Type := {
  name : string;
  score : num;
  loop : string;
  value_of : num        (* the field [value] *)
}.

Definition allMetrics (pipelineMetrics : PipelineMetrics)
    (conversionMetrics : ConversionMetrics)
    (expansionMetrics : ExpansionMetrics)
    (economicsMetrics : EconomicsMetrics) : list Metric := [
  {| name := "Lead Velocity Rate";
     score := lead_velocity_rate pipelineMetrics / lit 0.12;
     loop := "Pipeline";
     value_of := lead_velocity_rate pipelineMetrics |};
  {| name := "MQL to SQL Conversion";
     score := mql_to_sql_conversion pipelineMetrics / lit 0.28;
     loop := "Pipeline";
     value_of := mql_to_sql_conversion pipelineMetrics |};
  {| name := "Lead Response Time";
     score := lit 1 - (lead_response_time pipelineMetrics / lit 24);
     loop := "Pipeline";
     value_of := lead_response_time pipelineMetrics |};
  {| name := "Win Rate";
     score := win_rate conversionMetrics / lit 0.32;
     loop := "Conversion";
     value_of := win_rate conversionMetrics |};
  {| name := "Sales Cycle Length";
     score := lit 1 - (sales_cycle_length conversionMetrics / lit 180);
     loop := "Conversion";
     value_of := sales_cycle_length conversionMetrics |};
  {| name := "Net Revenue Retention";
     score := nrr expansionMetrics / lit 1.20;
     loop := "Expansion";
     value_of := nrr expansionMetrics |};
  {| name := "Churn Rate";
     score := lit 1 - churn_rate expansionMetrics;
     loop := "Expansion";
     value_of := churn_rate expansionMetrics |};
  {| name := "CAC Payback Period";
     score := lit 1 - (cac_payback_period economicsMetrics / lit 26);
     loop := "Economics";
     value_of := cac_payback_period economicsMetrics |};
  {| name := "LTV:CAC Ratio";
     score := ltv_cac economicsMetrics / lit 5.8;
     loop := "Economics";
     value_of := ltv_cac economicsMetrics |}
].

(** [Array.prototype.sort] is stable and, for a comparator that is a
    consistent order, its result is the one of any stable sort; it is
    modelled by insertion from the left.  [x] is placed before [y] when
    [comparefn x y < 0]. *)

Fixpoint insert {A : Type} (comparefn : A -> A -> num) (x : A) (l : list A)
  : list A :=
  match l with
  | [] => [x]
  | y :: l' =>
      if comparefn x y <? lit 0 then x :: y :: l'
      else y :: insert comparefn x l'
  end.

Definition sort {A : Type} (comparefn : A -> A -> num) (l : list A)
  : list A :=
  fold_left (fun sorted x => insert comparefn x sorted) l [].

Definition slice {A : Type} (from to : nat) (l : list A) : list A :=
  firstn (to - from) (skipn from l).

(** [formatMetricValue] (lines 181-190).  The branch taken and the number
    that is printed are kept; the digits are not rendered. *)

Inductive formatted : Type :=
| Percent (rounded : num)     (* `${Math.round(value * 100)}%` *)
| Days (rounded : num)        (* `${Math.round(value)} days` *)
| RatioToOne (value : num)    (* `${value.toFixed(1)}:1` *)
| Fixed2 (value : num).       (* value.toFixed(2) *)

Definition includes (s sub : string) : bool :=
  match String.index 0 sub s with
  | Some _ => true
  | None => false
  end.

Definition formatMetricValue (metricName : string) (value : num)
  : formatted :=
  if includes metricName "Rate" || includes metricName "Conversion"
     || includes metricName "Retention"
  then Percent (Math_round (value * lit 100))
  else if includes metricName "Time" || includes metricName "Length"
          || includes metricName "Period"
  then Days (Math_round value)
  else if includes metricName "Ratio" then RatioToOne value
  else Fixed2 value.

Record Recommendation : Type := {
  rec_name : string;
  rec_score : num;
  rec_loop : string;
  rec_description : formatted   (* `Current value: ${...}` *)
}.

Definition recommend (metric : Metric) : Recommendation :=
  {| rec_name := name metric;
     rec_score := Math_round (score metric * lit 100);
     rec_loop := loop metric;
     rec_description := formatMetricValue (name metric) (value_of metric) |}.

Definition priorityRecommendations (metrics : list Metric)
  : list Recommendation :=
  map recommend
    (slice 0 5 (sort (fun a b => score a - score b) metrics)).

(** *** Pattern detection (lines 193-238) *)

Record Pattern : Type := {
  pattern : string;
  description : string;
  priority : string
}.

Definition push_if {A : Type} (cond : bool) (x : A) (l : list A) : list A :=
  if cond then l ++ [x] else l.

Definition detectPatterns (answers : Answers)
    (pipelineScore conversionScore expansionScore : num) : list Pattern :=
  let patterns := [] in
  let pipelineRating := rating (question_1_pipeline_health answers) in
  let conversionRating := rating (question_2_sales_conversion answers) in
  let expansionRating := rating (question_3_customer_success answers) in
  let economicsRating :=
    rating (question_4_economics_and_efficiency answers) in
  let patterns :=
    push_if ((pipelineRating >=? 4)%Z && (conversionRating <=? 2)%Z)
      {| pattern := "pipeline_conversion_gap";
         description :=
           "Strong pipeline but weak conversion - focus on sales enablement";
         priority := "high" |} patterns in
  let patterns :=
    push_if ((conversionRating >=? 4)%Z && (expansionRating <=? 2)%Z)
      {| pattern := "leaky_bucket";
         description :=
           "Acquiring customers but losing them - prioritize customer success";
         priority := "critical" |} patterns in
  let patterns :=
    push_if ((pipelineRating <=? 2)%Z && (conversionRating <=? 2)%Z
             && (expansionRating <=? 2)%Z)
      {| pattern := "systematic_issues";
         description :=
           "Multiple weak areas suggest fundamental GTM challenges";
         priority := "critical" |} patterns in
  let patterns :=
    push_if ((economicsRating <=? 2)%Z
             && ((pipelineRating >=? 3)%Z || (conversionRating >=? 3)%Z))
      {| pattern := "unit_economics_problem";
         description := "Operations functional but economics unsustainable";
         priority := "high" |} patterns in
  patterns.

(** *** [calculateScores] (lines 54-178) *)

Record LoopScores : Type := {
  Pipeline : num;
  Conversion : num;
  Expansion : num
}.

Record ScoreResult : Type := {
  overall_ssi : num;
  loop_scores : LoopScores;
  priority_recommendations : list Recommendation;
  detected_patterns : list Pattern
}.

(* [s || d] on an optional string: undefined and the empty string are
   falsy. *)
Definition or_string (s : option string) (d : string) : string :=
  match s with
  | Some s => if String.eqb s "" then d else s
  | None => d
  end.

Definition clamp (x : num) : num := Math_max (lit 0) (Math_min (lit 1) x).

Definition calculateScores (questions : Questions) (answers : Answers)
  : completion ScoreResult :=
  let pipelineRating := rating (question_1_pipeline_health answers) in
  let conversionRating := rating (question_2_sales_conversion answers) in
  let expansionRating := rating (question_3_customer_success answers) in
  let economicsRating :=
    rating (question_4_economics_and_efficiency answers) in
  let topChallenge :=
    or_string (question_5_top_challenge answers) "pipeline" in
  (* the keys are decimal numerals, none of which Object.prototype has *)
  let pipelineMetrics :=
    own (pipeline_health_maps_to_metrics questions)
      (toString pipelineRating) in
  let conversionMetrics :=
    own (sales_conversion_maps_to_metrics questions)
      (toString conversionRating) in
  let expansionMetrics :=
    own (customer_success_maps_to_metrics questions)
      (toString expansionRating) in
  let economicsMetrics :=
    own (economics_and_efficiency_maps_to_metrics questions)
      (toString economicsRating) in
  pipelineMetrics <- defined pipelineMetrics "lead_velocity_rate" ;;
  let pipelineScore := pipelineScore pipelineMetrics in
  conversionMetrics <- defined conversionMetrics "win_rate" ;;
  let conversionScore := conversionScore conversionMetrics in
  expansionMetrics <- defined expansionMetrics "nrr" ;;
  let expansionScore := expansionScore expansionMetrics in
  let weights := adjust_weights topChallenge in
  economicsMetrics <- defined economicsMetrics "cac_payback_period" ;;
  let economicsScore := economicsScore economicsMetrics in
  let overallSSI :=
    overallSSI weights
      pipelineScore conversionScore expansionScore economicsScore in
  let priorityRecommendations :=
    priorityRecommendations
      (allMetrics pipelineMetrics conversionMetrics expansionMetrics
         economicsMetrics) in
  Return
    {| overall_ssi := clamp overallSSI;
       loop_scores :=
         {| Pipeline := clamp pipelineScore;
            Conversion := clamp conversionScore;
            Expansion := clamp expansionScore |};
       priority_recommendations := priorityRecommendations;
       detected_patterns :=
         detectPatterns answers pipelineScore conversionScore
           expansionScore |}.

End Ranking.

(** ** A sample metric table *)

Section Sample.

Context {num : Type} `{Number num}.

Definition pipeline_entry (a b c d e f : Q) : PipelineMetrics :=
  {| lead_velocity_rate := lit a;
     mql_to_sql_conversion := lit b;
     marketing_contribution_pipeline := lit c;
     pipeline_coverage_ratio := lit d;
     inbound_lead_volume_growth := lit e;
     lead_response_time := lit f |}.

Definition conversion_entry (a b c d e f : Q) : ConversionMetrics :=
  {| win_rate := lit a;
     sales_cycle_length := lit b;
     sql_acceptance_rate := lit c;
     demo_to_proposal_rate := lit d;
     proposal_to_won_rate := lit e;
     pipeline_conversion_rate := lit f |}.

Definition expansion_entry (a b c d e f : Q) : ExpansionMetrics :=
  {| nrr := lit a;
     grr := lit b;
     churn_rate := lit c;
     expansion_revenue_growth := lit d;
     nps := lit e;
     time_to_first_value := lit f |}.

Definition economics_entry (a b c d e f g : Q) : EconomicsMetrics :=
  {| cac_payback_period := lit a;
     ltv_cac := lit b;
     burn_multiple := lit c;
     sales_rep_ramp_time := lit d;
     quota_attainment := lit e;
     magic_number := lit f;
     rule_of_40 := lit g |}.

(** Modelled from the spec: the metric table [wizard_questions.json], which
    the server loads at start, is data outside the code.  The functions above
    take the table as an argument; [sampleQuestions] is one table of the
    shape the specification gives (section 6: every bundle keyed "1" to "5",
    the named metrics), used to run them.  Its numbers are an illustration:
    rating 5 slightly exceeds the benchmark constants of the score formulas
    and rating 1 is a poorly performing company (leads wait 48 hours, deals
    take 200 days). *)
Definition sampleQuestions : Questions :=
  {| pipeline_health_maps_to_metrics := [
       ("1", pipeline_entry 0.02 0.08 0.10 1.5 0.02 48);
       ("2", pipeline_entry 0.04 0.12 0.18 2.0 0.06 24);
       ("3", pipeline_entry 0.07 0.18 0.25 2.8 0.12 8);
       ("4", pipeline_entry 0.10 0.24 0.32 3.4 0.20 2);
       ("5", pipeline_entry 0.13 0.30 0.40 4.0 0.28 0.5) ];
     sales_conversion_maps_to_metrics := [
       ("1", conversion_entry 0.10 200 0.50 0.35 0.30 0.15);
       ("2", conversion_entry 0.15 150 0.62 0.45 0.40 0.22);
       ("3", conversion_entry 0.22 110 0.75 0.55 0.50 0.30);
       ("4", conversion_entry 0.28 80 0.85 0.65 0.60 0.38);
       ("5", conversion_entry 0.36 45 0.95 0.80 0.75 0.48) ];
     customer_success_maps_to_metrics := [
       ("1", expansion_entry 0.85 0.75 0.25 0.02 5 90);
       ("2", expansion_entry 0.95 0.82 0.18 0.08 20 60);
       ("3", expansion_entry 1.05 0.88 0.12 0.15 35 40);
       ("4", expansion_entry 1.15 0.94 0.06 0.22 50 20);
       ("5", expansion_entry 1.30 0.99 0.01 0.35 70 7) ];
     economics_and_efficiency_maps_to_metrics := [
       ("1", economics_entry 30 1.5 4.5 7 0.45 0.4 5);
       ("2", economics_entry 24 2.5 3.0 6 0.60 0.6 20);
       ("3", economics_entry 18 3.5 2.0 5 0.72 0.8 35);
       ("4", economics_entry 12 4.8 1.4 4 0.82 1.0 50);
       ("5", economics_entry 6 7 0.8 2 1.0 1.5 70) ] |}.

End Sample.

Definition answers_of (p c e ec : Z) (topChallenge : option string) : Answers :=
  {| question_1_pipeline_health := Num p;
     question_2_sales_conversion := Num c;
     question_3_customer_success := Num e;
     question_4_economics_and_efficiency := Num ec;
     question_5_top_challenge := topChallenge |}.

(** ** Vocabulary of the statements *)

Definition valid_rating (n : Z) : Prop := 1 <= n <= 5.

Definition rating_keys : list string := ["1"; "2"; "3"; "4"; "5"].

Definition has_rating_keys {V : Type} (o : object V) : Prop :=
  forall k, In k rating_keys -> exists v, own o k = Some v.

(* Every bundle of the table has an entry for each of the ratings 1 to 5. *)
Definition complete {num : Type} (questions : @Questions num) : Prop :=
  has_rating_keys (pipeline_health_maps_to_metrics questions) /\
  has_rating_keys (sales_conversion_maps_to_metrics questions) /\
  has_rating_keys (customer_success_maps_to_metrics questions) /\
  has_rating_keys (economics_and_efficiency_maps_to_metrics questions).

Definition with_challenge (answers : Answers) (topChallenge : option string)
  : Answers :=
  {| question_1_pipeline_health := question_1_pipeline_health answers;
     question_2_sales_conversion := question_2_sales_conversion answers;
     question_3_customer_success := question_3_customer_success answers;
     question_4_economics_and_efficiency :=
       question_4_economics_and_efficiency answers;
     question_5_top_challenge := topChallenge |}.

Definition pattern_names {num : Type} (r : @ScoreResult num) : list string :=
  map pattern (detected_patterns r).

(* The weight a category has in the overall score, given the challenge. *)
Definition weight {num : Type} `{Number num} (topChallenge category : string)
  : num :=
  get_number (adjust_weights topChallenge) category.

Definition four_weights {num : Type} `{Number num} (topChallenge : string)
  : list num :=
  [ weight topChallenge "pipeline"; weight topChallenge "conversion";
    weight topChallenge "expansion"; weight topChallenge "economics" ].

(* The exact sum of a list of doubles; [None] if one of them is not finite. *)
Definition sum_Q (l : list Binary64.num) : option Q :=
  fold_right
    (fun x acc =>
       match Binary64.to_Q x, acc with
       | Some a, Some b => Some (a + b)%Q
       | _, _ => None
       end)
    (Some 0%Q) l.

(* A double lies in the interval [0, 1]. *)
Definition within_unit (x : Binary64.num) : Prop :=
  PrimFloat.leb 0 x = true /\ PrimFloat.leb x 1 = true.

(** *** Tables of numbers and the order of the scores *)

(* A number of the exact arithmetic, as opposed to NaN. *)
Definition is_number (x : Exact.num) : Prop := exists q, x = Some q.

(* A double that is not NaN. *)
Definition not_NaN (x : Binary64.num) : Prop := PrimFloat.is_nan x = false.

Section Tables.

Context {num : Type}.
Variable P : num -> Prop.

Definition numeric_pipeline (m : @PipelineMetrics num) : Prop :=
  P (lead_velocity_rate m) /\ P (mql_to_sql_conversion m) /\
  P (marketing_contribution_pipeline m) /\ P (pipeline_coverage_ratio m) /\
  P (inbound_lead_volume_growth m) /\ P (lead_response_time m).

Definition numeric_conversion (m : @ConversionMetrics num) : Prop :=
  P (win_rate m) /\ P (sales_cycle_length m) /\
  P (sql_acceptance_rate m) /\ P (demo_to_proposal_rate m) /\
  P (proposal_to_won_rate m) /\ P (pipeline_conversion_rate m).

Definition numeric_expansion (m : @ExpansionMetrics num) : Prop :=
  P (nrr m) /\ P (grr m) /\ P (churn_rate m) /\
  P (expansion_revenue_growth m) /\ P (nps m) /\
  P (time_to_first_value m).

Definition numeric_economics (m : @EconomicsMetrics num) : Prop :=
  P (cac_payback_period m) /\ P (ltv_cac m) /\ P (burn_multiple m) /\
  P (sales_rep_ramp_time m) /\ P (quota_attainment m) /\
  P (magic_number m) /\ P (rule_of_40 m).

(* Every metric of every entry of the table satisfies [P]: it is a number
   ([is_number], [not_NaN]), as every number of a JSON file is. *)
Definition numeric (questions : @Questions num) : Prop :=
  (forall k m, own (pipeline_health_maps_to_metrics questions) k = Some m ->
               numeric_pipeline m) /\
  (forall k m, own (sales_conversion_maps_to_metrics questions) k = Some m ->
               numeric_conversion m) /\
  (forall k m, own (customer_success_maps_to_metrics questions) k = Some m ->
               numeric_expansion m) /\
  (forall k m,
     own (economics_and_efficiency_maps_to_metrics questions) k = Some m ->
     numeric_economics m).

(* The score of the metric satisfies [P]. *)
Definition scored (m : @Metric num) : Prop := P (score m).

End Tables.

(* The comparator of the source, [(a, b) => a.score - b.score]. *)
Definition byScore {num : Type} `{Number num} (a b : @Metric num) : num :=
  (score a - score b)%js.

(** The place of a number on the rational line.  For a double it is read off
    its sign, mantissa and exponent: [m * 2^e] is scaled by [2^1074] to an
    integer, and the infinities lie beyond every finite double. *)

Definition exact_rank (x : Exact.num) : Q :=
  match x with
  | Some q => q
  | None => 0
  end.

Definition magnitude (m : positive) (e : Z) : Z := Zpos m * 2 ^ (e + 1074).

Definition key (X : spec_float) : Z :=
  match X with
  | S754_zero _ | S754_nan => 0
  | S754_infinity s => cond_Zopp s (2 ^ 2100)
  | S754_finite s m e => cond_Zopp s (magnitude m e)
  end.

Definition float_key (x : Binary64.num) : Z := key (Prim2SF x).

Definition binary64_rank (x : Binary64.num) : Q := inject_Z (float_key x).

(* The result of rounding a nonzero number: finite or infinite, of sign [s]. *)
Definition signed (s : bool) (X : spec_float) : Prop :=
  (exists m e, X = S754_finite s m e) \/ X = S754_infinity s.

(* A finite double other than zero. *)
Definition finite_nonzero (c : Binary64.num) : Prop :=
  match Prim2SF c with
  | S754_finite _ _ _ => True
  | _ => False
  end.

Section Order.

Context {num : Type}.
Variable rank : num -> Q.

(* [a] scores at most as [b]. *)
Definition score_le (a b : @Metric num) : Prop :=
  (rank (score a) <= rank (score b))%Q.

(* [m] has a score of rank [q]. *)
Definition has_score (q : Q) (m : @Metric num) : bool :=
  Qeq_bool (rank (score m)) q.

End Order.

(* The order and the equality of doubles, on the scores of two metrics. *)
Definition float_le (a b : @Metric Binary64.num) : Prop :=
  PrimFloat.leb (score a) (score b) = true.

Definition float_same (q : Binary64.num) (m : @Metric Binary64.num) : bool :=
  PrimFloat.eqb (score m) q.

(* A double lies in the interval [0, 100]. *)
Definition within_percent (x : Binary64.num) : Prop :=
  PrimFloat.leb 0 x = true /\ PrimFloat.leb x 100 = true.

(* A finite double whose value is an integer. *)
Definition integer_valued (x : Binary64.num) : Prop :=
  exists z : Z,
    match Binary64.to_Q x with
    | Some q => (q == inject_Z z)%Q
    | None => False
    end.

(** *** The sample table over all ratings *)

(* The overall score of a call, if it returns. *)
Definition overall_of (c : completion (@ScoreResult Binary64.num))
  : option Binary64.num :=
  match c with
  | Return r => Some (overall_ssi r)
  | Throw _ => None
  end.

(* The 625 vectors of ratings from 1 to 5. *)
Definition rating_vectors : list (Z * Z * Z * Z) :=
  let ratings := [1; 2; 3; 4; 5] in
  flat_map
    (fun p =>
       flat_map
         (fun c =>
            flat_map (fun e => map (fun ec => (p, c, e, ec)) ratings) ratings)
         ratings)
    ratings.

(* The overall scores on the sample table without a challenge and with the
   challenge "other". *)
Definition overall_missing (v : Z * Z * Z * Z) : option Binary64.num :=
  let '(p, c, e, ec) := v in
  overall_of (calculateScores sampleQuestions (answers_of p c e ec None)).

Definition overall_other (v : Z * Z * Z * Z) : option Binary64.num :=
  let '(p, c, e, ec) := v in
  overall_of
    (calculateScores sampleQuestions (answers_of p c e ec (Some "other"))).

(* The two overall scores are equal doubles. *)
Definition same_overall (v : Z * Z * Z * Z) : bool :=
  match overall_missing v, overall_other v with
  | Some a, Some b => PrimFloat.eqb a b
  | _, _ => false
  end.

(** ** Vocabulary of the further properties of [calculateScores] *)

(* The entries that [calculateScores] looks up for the four ratings. *)
Definition pipeline_lookup {num : Type} (questions : @Questions num)
    (answers : Answers) : option PipelineMetrics :=
  own (pipeline_health_maps_to_metrics questions)
    (toString (rating (question_1_pipeline_health answers))).

Definition conversion_lookup {num : Type} (questions : @Questions num)
    (answers : Answers) : option ConversionMetrics :=
  own (sales_conversion_maps_to_metrics questions)
    (toString (rating (question_2_sales_conversion answers))).

Definition expansion_lookup {num : Type} (questions : @Questions num)
    (answers : Answers) : option ExpansionMetrics :=
  own (customer_success_maps_to_metrics questions)
    (toString (rating (question_3_customer_success answers))).

Definition economics_lookup {num : Type} (questions : @Questions num)
    (answers : Answers) : option EconomicsMetrics :=
  own (economics_and_efficiency_maps_to_metrics questions)
    (toString (rating (question_4_economics_and_efficiency answers))).

(* The request with every default written out: each rating replaced by
   [parseInt(x) || 3] and the challenge by [topChallenge || 'pipeline']. *)
Definition with_defaults (answers : Answers) : Answers :=
  {| question_1_pipeline_health :=
       Num (rating (question_1_pipeline_health answers));
     question_2_sales_conversion :=
       Num (rating (question_2_sales_conversion answers));
     question_3_customer_success :=
       Num (rating (question_3_customer_success answers));
     question_4_economics_and_efficiency :=
       Num (rating (question_4_economics_and_efficiency answers));
     question_5_top_challenge :=
       Some (or_string (question_5_top_challenge answers) "pipeline") |}.

(* The name and the loop of a recommendation. *)
Definition label {num : Type} (r : @Recommendation num) : string * string :=
  (rec_name r, rec_loop r).

(* A description that is a bare [toFixed(2)] number, without a unit. *)
Definition unitless {num : Type} (f : @formatted num) : bool :=
  match f with
  | Fixed2 _ => true
  | _ => false
  end.

(* The nine metrics that compete for a recommendation (lines 145-155), by
   name and loop. *)
Definition metric_labels : list (string * string) := [
  ("Lead Velocity Rate", "Pipeline");
  ("MQL to SQL Conversion", "Pipeline");
  ("Lead Response Time", "Pipeline");
  ("Win Rate", "Conversion");
  ("Sales Cycle Length", "Conversion");
  ("Net Revenue Retention", "Expansion");
  ("Churn Rate", "Expansion");
  ("CAC Payback Period", "Economics");
  ("LTV:CAC Ratio", "Economics")
].

(* The unit that follows the number in a formatted value. *)
Definition unit_of {num : Type} (f : @formatted num) : string :=
  match f with
  | Percent _ => "%"
  | Days _ => " days"
  | RatioToOne _ => ":1"
  | Fixed2 _ => ""
  end.

Definition metric_units : list (string * string) := [
  ("Lead Velocity Rate", "%");
  ("MQL to SQL Conversion", "%");
  ("Lead Response Time", " days");
  ("Win Rate", "%");
  ("Sales Cycle Length", " days");
  ("Net Revenue Retention", "%");
  ("Churn Rate", "%");
  ("CAC Payback Period", " days");
  ("LTV:CAC Ratio", ":1")
].

(* The challenges that [challengeWeightMap] recognises, each with the
   category whose weight it boosts. *)
Definition recognised : list (string * string) :=
  [("pipeline", "pipeline"); ("conversion", "conversion");
   ("retention", "expansion")].

(** * Storing and listing submissions

    The handlers of [POST /wizard_submit] and [GET /api/submissions] and
    [saveSubmissionData] ([server.js], lines 241-336 and 435-479).  The server
    computes in binary64.  The data file is a piece of state that the
    handlers read and replace; the clock, the outcome of the write to the
    disk, the metric table and the date parser are arguments.  The
    notification e-mail of a submission is sent after the reply is decided and
    its failure is only logged: it is not modelled. *)

(** A value of a JSON text.  The fields of the body that the handler prints
    can hold any of them. *)
#[local] Unset Elimination Schemes.
Inductive json : Type :=
| JNull
| JBool (b : bool)
| JNumber (x : Binary64.num)
| JString (s : string)
| JArray (l : list json)
| JObject (o : list (string * json)).
#[local] Set Elimination Schemes.

(* The truth value of a JSON value. *)
Definition truthy_json (v : json) : bool :=
  match v with
  | JNull => false
  | JBool b => b
  | JNumber x => negb (PrimFloat.is_zero x || PrimFloat.is_nan x)
  | JString s => negb (String.eqb s "")
  | JArray _ | JObject _ => true
  end.

(* A template literal can print the value: its conversion to a string does
   not throw.  An object parsed from JSON converts by the inherited
   [toString] unless it has a property of that name, which no JSON value can
   make callable; [valueOf] then returns the object, and the conversion ends
   in the TypeError "Cannot convert object to primitive value".  An array
   prints its elements. *)
Fixpoint printable (v : json) : bool :=
  match v with
  | JArray l => forallb printable l
  | JObject o =>
      match own o "toString" with
      | Some _ => false
      | None => true
      end
  | _ => true
  end.

(* [v || d] on an optional value, and [v || w]. *)
Definition or_json (v : option json) (d : json) : json :=
  match v with
  | Some v => if truthy_json v then v else d
  | None => d
  end.

(** [JSON.stringify] of a number: [null] unless the number is finite. *)
Definition JSON_number (x : Binary64.num) : option Binary64.num :=
  if PrimFloat.is_nan x || PrimFloat.is_infinity x then None else Some x.

Module Submission.

(* The field [answers] of a stored submission; [None] is [null]. *)
Record stored_answers : Type := {
  pipeline_health : option Z;
  sales_conversion : option Z;
  customer_success : option Z;
  economics_efficiency : option Z;
  top_challenge : option string
}.

Record stored_scores (number : Type) : Type := {
  overall_ssi : number;
  pipeline : number;
  conversion : number;
  expansion : number
}.

Arguments overall_ssi {number} _.
Arguments pipeline {number} _.
Arguments conversion {number} _.
Arguments expansion {number} _.

(* [submissionData]: with [number := Binary64.num] the object that the
   handler builds, with [number := option Binary64.num] its JSON text. *)
Record t (number : Type) : Type := {
  client_id : option json;     (* an undefined property is left out *)
  timestamp : string;
  client_name : json;
  email : string;
  cohort : string;
  sector : string;
  employees : string;
  answers : stored_answers;
  scores : stored_scores number;
  patterns : list Pattern
}.

Arguments client_id {number} _.
Arguments timestamp {number} _.
Arguments client_name {number} _.
Arguments email {number} _.
Arguments cohort {number} _.
Arguments sector {number} _.
Arguments employees {number} _.
Arguments answers {number} _.
Arguments scores {number} _.
Arguments patterns {number} _.

End Submission.

Module Request.

(* The fields of [answers] that describe the company.  Those that the
   handler stores are strings or absent; those that it prints are any JSON
   value or absent. *)
Record profile : Type := {
  arr : option string;
  sector : option string;
  employees : option string;
  user_email : option json;
  answers_email : option json;     (* the field [email] of [answers] *)
  company_name : option json
}.

(* A rating field as it arrives: a value that [parseInt] reads, or one whose
   conversion to a string throws (an object with a property [toString], an
   array that holds one). *)
Inductive field : Type :=
| Reads (x : json_number)
| Unreadable.

(* The fields of [answers] that [calculateScores] reads. *)
Record ratings : Type := {
  pipeline_health : field;
  sales_conversion : field;
  customer_success : field;
  economics_and_efficiency : field;
  top_challenge : option string
}.

(* [req.body] of a submission, an object.  [answers] is [None] when it is
   missing or falsy; otherwise it is split in its rating fields and its
   profile.
   [client_name] and [client_id], which the handler prints, are any JSON
   value or absent. *)
Record body : Type := {
  answers : option (ratings * profile);
  client_name : option json;
  client_id : option json;
  email : option string
}.

(* The answers as [parseInt] reads them; [None] when [parseInt] throws on
   one of the four rating fields (lines 58-61). *)
Definition read (r : ratings) : option Answers :=
  match pipeline_health r, sales_conversion r, customer_success r,
        economics_and_efficiency r with
  | Reads q1, Reads q2, Reads q3, Reads q4 =>
      Some
        {| question_1_pipeline_health := q1;
           question_2_sales_conversion := q2;
           question_3_customer_success := q3;
           question_4_economics_and_efficiency := q4;
           question_5_top_challenge := top_challenge r |}
  | _, _, _, _ => None
  end.

(* Answers whose rating fields [parseInt] reads. *)
Definition readable (a : Answers) : ratings :=
  {| pipeline_health := Reads (question_1_pipeline_health a);
     sales_conversion := Reads (question_2_sales_conversion a);
     customer_success := Reads (question_3_customer_success a);
     economics_and_efficiency :=
       Reads (question_4_economics_and_efficiency a);
     top_challenge := question_5_top_challenge a |}.

End Request.

Module Query.

(* [req.query] of a listing. *)
Record t : Type := {
  cohort : option string;
  sector : option string;
  start_date : option string;
  end_date : option string
}.

End Query.

Definition stored : Type := Submission.t (option Binary64.num).

(* What [JSON.parse] returns when it is not an array. *)
Inductive non_array : Type :=
| NNull
| NBool (b : bool)
| NNumber (x : Binary64.num)
| NString (s : string)
| NObject (o : list (string * json)).

(** The data file [submissions_data.json]. *)
Inductive file : Type :=
| Missing                        (* [fs.existsSync] is false *)
| Invalid (message : string)     (* the file cannot be read, or [JSON.parse]
                                    rejects its text; the error's message *)
| NotArray (v : non_array)       (* the JSON text of another value *)
| Submissions (l : list stored). (* the JSON text of an array of
                                    submissions *)

(** What [fs.writeFileSync] does with the new text: it writes it, or it
    throws and leaves some file behind. *)
Inductive write : Type :=
| Written
| WriteFails (remains : file).

(* [JSON.stringify] of a submission. *)
Definition stringify (data : Submission.t Binary64.num) : stored :=
  {| Submission.client_id := Submission.client_id data;
     Submission.timestamp := Submission.timestamp data;
     Submission.client_name := Submission.client_name data;
     Submission.email := Submission.email data;
     Submission.cohort := Submission.cohort data;
     Submission.sector := Submission.sector data;
     Submission.employees := Submission.employees data;
     Submission.answers := Submission.answers data;
     Submission.scores :=
       {| Submission.overall_ssi :=
            JSON_number (Submission.overall_ssi (Submission.scores data));
          Submission.pipeline :=
            JSON_number (Submission.pipeline (Submission.scores data));
          Submission.conversion :=
            JSON_number (Submission.conversion (Submission.scores data));
          Submission.expansion :=
            JSON_number (Submission.expansion (Submission.scores data)) |};
     Submission.patterns := Submission.patterns data |}.

(** [saveSubmissionData] (lines 315-336).  Every error is caught and only
    logged: of reading and of [JSON.parse], of [push] on a value that is not
    an array, of writing. *)
Definition saveSubmissionData (data : Submission.t Binary64.num)
    (writeFileSync : write) (dataFile : file) : file :=
  let write_back (submissions : list stored) :=
    match writeFileSync with
    | Written => Submissions submissions
    | WriteFails remains => remains
    end in
  match dataFile with
  | Missing =>
      let submissions := [] in
      write_back (submissions ++ [stringify data])%list
  | Invalid message => Invalid message
  | NotArray v => NotArray v
  | Submissions submissions =>
      write_back (submissions ++ [stringify data])%list
  end.

(* [parseInt(x) || null] *)
Definition or_null (v : option Z) : option Z :=
  match v with
  | Some n => if (n =? 0)%Z then None else Some n
  | None => None
  end.

(* [s || null] on an optional string. *)
Definition string_or_null (s : option string) : option string :=
  match s with
  | Some s => if String.eqb s "" then None else Some s
  | None => None
  end.

(* What the [try] block of the handler can throw: an error of
   [calculateScores] on answers that [parseInt] reads, or the TypeError of
   a value that has no conversion to a string, in a template literal or in
   [parseInt]. *)
Inductive thrown : Type :=
| Scoring (e : error)
| NotPrimitive.

Definition message_of (e : thrown) : string :=
  match e with
  | Scoring (TypeError reading) =>
      "Cannot read properties of undefined (reading '" ++ reading ++ "')"
  | NotPrimitive => "Cannot convert object to primitive value"
  end.

(* [res.status(status).json(body)]; the status is 200 unless set. *)
Inductive response (B : Type) : Type :=
| Respond (status : Z) (body : B).

Arguments Respond {B} status body.

Definition status {B : Type} (r : response B) : Z :=
  match r with
  | Respond s _ => s
  end.

Inductive submit_body : Type :=
| Failure (error : string) (message : option string)
| Success (client_id : option json) (results : @ScoreResult Binary64.num).
  (* { success: true, client_id, ...results } *)

(* The object [submissionData] of the handler (lines 264-286). *)
Definition submissionData (now : string) (body : Request.body)
    (answers : Answers) (profile : Request.profile)
    (results : @ScoreResult Binary64.num) : Submission.t Binary64.num :=
  {| Submission.client_id := Request.client_id body;
     Submission.timestamp := now;
     Submission.client_name :=
       or_json (Request.client_name body) (JString "Unknown");
     Submission.email := or_string (Request.email body) "";
     Submission.cohort := or_string (Request.arr profile) "unknown";
     Submission.sector := or_string (Request.sector profile) "unknown";
     Submission.employees := or_string (Request.employees profile) "unknown";
     Submission.answers :=
       {| Submission.pipeline_health :=
            or_null (parseInt (question_1_pipeline_health answers));
          Submission.sales_conversion :=
            or_null (parseInt (question_2_sales_conversion answers));
          Submission.customer_success :=
            or_null (parseInt (question_3_customer_success answers));
          Submission.economics_efficiency :=
            or_null (parseInt (question_4_economics_and_efficiency answers));
          Submission.top_challenge :=
            string_or_null (question_5_top_challenge answers) |};
     Submission.scores :=
       {| Submission.overall_ssi := overall_ssi results;
          Submission.pipeline := Pipeline (loop_scores results);
          Submission.conversion := Conversion (loop_scores results);
          Submission.expansion := Expansion (loop_scores results) |};
     Submission.patterns := detected_patterns results |}.

(* The four template literals that the handler logs before it scores
   (lines 250-253) can all be printed. *)
Definition logs (body : Request.body) (profile : Request.profile) : bool :=
  printable (or_json (Request.client_name body) (JString "Unknown")) &&
  match Request.client_id body with
  | Some client_id => printable client_id
  | None => true
  end &&
  printable
    (or_json (Request.user_email profile)
       (or_json (Request.answers_email profile) (JString "N/A"))) &&
  printable (or_json (Request.company_name profile) (JString "N/A")).

(** The handler of [POST /wizard_submit] (lines 241-312): the reply and the
    data file it leaves.  [now] is [new Date().toISOString()] and
    [writeFileSync] what the write of [saveSubmissionData] will do. *)
Definition wizard_submit (questions : @Questions Binary64.num) (now : string)
    (writeFileSync : write) (body : Request.body) (dataFile : file)
  : response submit_body * file :=
  match Request.answers body with
  | None => (Respond 400 (Failure "Missing answers data" None), dataFile)
  | Some (ratings, profile) =>
      if negb (logs body profile) then
        (Respond 500
           (Failure "Failed to process submission"
              (Some (message_of NotPrimitive))),
         dataFile)
      else
        match Request.read ratings with
        | None =>
            (Respond 500
               (Failure "Failed to process submission"
                  (Some (message_of NotPrimitive))),
             dataFile)
        | Some answers =>
            match calculateScores questions answers with
            | Throw e =>
                (Respond 500
                   (Failure "Failed to process submission"
                      (Some (message_of (Scoring e)))),
                 dataFile)
            | Return results =>
                let submissionData :=
                  submissionData now body answers profile results in
                (Respond 200 (Success (Request.client_id body) results),
                 saveSubmissionData submissionData writeFileSync dataFile)
            end
        end
  end.

Inductive listing_body : Type :=
| Listing (submissions : list stored) (total : nat) (total_all : option nat)
| Echo (submissions : non_array)
  (* { submissions, total: submissions.length,
       total_all: submissions.length } *)
| ListingFailure (error : string) (message : string).

(* [if (param) filtered = filtered.filter(s => keep(param, s))]: an absent
   and an empty parameter are falsy. *)
Definition filter_by {A : Type} (param : option string)
    (keep : string -> A -> bool) (filtered : list A) : list A :=
  match param with
  | Some p => if String.eqb p "" then filtered else filter (keep p) filtered
  | None => filtered
  end.

(* [a >= b] and [a <= b] on the time values of two dates; the time value of
   an invalid date is NaN, [None] here, and compares false. *)
Definition date_ge (a b : option Z) : bool :=
  match a, b with
  | Some x, Some y => (y <=? x)%Z
  | _, _ => false
  end.

Definition date_le (a b : option Z) : bool :=
  match a, b with
  | Some x, Some y => (x <=? y)%Z
  | _, _ => false
  end.

Section Listing.

(* [new Date(s)], as the time value of the date, [None] if it is invalid. *)
Variable Date_parse : string -> option Z.

(** The handler of [GET /api/submissions] (lines 435-479). *)
Definition api_submissions (query : Query.t) (dataFile : file)
  : response listing_body :=
  match dataFile with
  | Missing => Respond 200 (Listing [] 0 None)
  | Invalid message =>
      Respond 500 (ListingFailure "Failed to read submissions data" message)
  | NotArray submissions =>
      (* no value of a JSON text other than an array has a method
         [filter], and [null] has no properties at all *)
      let given (param : option string) :=
        match string_or_null param with
        | Some _ => true
        | None => false
        end in
      if given (Query.cohort query) || given (Query.sector query)
         || given (Query.start_date query) || given (Query.end_date query)
      then
        Respond 500
          (ListingFailure "Failed to read submissions data"
             match submissions with
             | NNull => "Cannot read properties of null (reading 'filter')"
             | _ => "filtered.filter is not a function"
             end)
      else
        match submissions with
        | NNull =>
            Respond 500
              (ListingFailure "Failed to read submissions data"
                 "Cannot read properties of null (reading 'length')")
        | _ => Respond 200 (Echo submissions)
        end
  | Submissions submissions =>
      let filtered := submissions in
      let filtered :=
        filter_by (Query.cohort query)
          (fun cohort s => String.eqb (Submission.cohort s) cohort)
          filtered in
      let filtered :=
        filter_by (Query.sector query)
          (fun sector s => String.eqb (Submission.sector s) sector)
          filtered in
      let filtered :=
        filter_by (Query.start_date query)
          (fun start_date s =>
             date_ge (Date_parse (Submission.timestamp s))
               (Date_parse start_date))
          filtered in
      let filtered :=
        filter_by (Query.end_date query)
          (fun end_date s =>
             date_le (Date_parse (Submission.timestamp s))
               (Date_parse end_date))
          filtered in
      Respond 200
        (Listing filtered (length filtered) (Some (length submissions)))
  end.

End Listing.

(** *** Vocabulary of the statements about the store *)

(* The submissions that the data file holds. *)
Definition contents (dataFile : file) : list stored :=
  match dataFile with
  | Submissions l => l
  | _ => []
  end.

(* The data file can take a submission: it is missing or holds an array. *)
Definition takes_submissions (dataFile : file) : Prop :=
  dataFile = Missing \/ exists l, dataFile = Submissions l.

(* A submission with its arrival time and the outcome of its write. *)
Definition request : Type := string * write * Request.body.

(* The data file after a series of submissions. *)
Fixpoint after (questions : @Questions Binary64.num)
    (requests : list request) (dataFile : file) : file :=
  match requests with
  | [] => dataFile
  | (now, writeFileSync, body) :: requests' =>
      after questions requests'
        (snd (wizard_submit questions now writeFileSync body dataFile))
  end.

(* Every write of the series succeeds. *)
Definition all_written (requests : list request) : Prop :=
  Forall (fun req : request => snd (fst req) = Written) requests.

(* The number of the submissions that are answered with status 200. *)
Definition accepted (questions : @Questions Binary64.num)
    (requests : list request) : nat :=
  length
    (filter
       (fun req : request =>
          (status
             (fst (wizard_submit questions (fst (fst req)) (snd (fst req))
                     (snd req) Missing))
           =? 200)%Z)
       requests).

(* The request that a stored submission records: [null] read as absent. *)
Definition replay (a : Submission.stored_answers) : Answers :=
  let number (v : option Z) :=
    match v with
    | Some n => Num n
    | None => Absent
    end in
  {| question_1_pipeline_health := number (Submission.pipeline_health a);
     question_2_sales_conversion := number (Submission.sales_conversion a);
     question_3_customer_success := number (Submission.customer_success a);
     question_4_economics_and_efficiency :=
       number (Submission.economics_efficiency a);
     question_5_top_challenge := Submission.top_challenge a |}.

(* A submission passes every filter of the query. *)
Definition selected (Date_parse : string -> option Z) (query : Query.t)
    (s : stored) : bool :=
  let test (param : option string) (keep : string -> bool) :=
    match string_or_null param with
    | Some p => keep p
    | None => true
    end in
  test (Query.cohort query) (String.eqb (Submission.cohort s)) &&
  test (Query.sector query) (String.eqb (Submission.sector s)) &&
  test (Query.start_date query)
    (fun d => date_ge (Date_parse (Submission.timestamp s)) (Date_parse d)) &&
  test (Query.end_date query)
    (fun d => date_le (Date_parse (Submission.timestamp s)) (Date_parse d)).

Definition no_filter : Query.t :=
  {| Query.cohort := None; Query.sector := None;
     Query.start_date := None; Query.end_date := None |}.

(** *** Sample data to run the handlers *)

Definition sample_profile : Request.profile :=
  {| Request.arr := Some "1-5M"; Request.sector := Some "saas";
     Request.employees := None; Request.user_email := None;
     Request.answers_email := Some (JString "cto@acme.example");
     Request.company_name := Some (JString "Acme") |}.

Definition sample_body (answers : option Answers) : Request.body :=
  {| Request.answers :=
       match answers with
       | Some a => Some (Request.readable a, sample_profile)
       | None => None
       end;
     Request.client_name := Some (JString "Acme");
     Request.client_id := Some (JString "c-1");
     Request.email := None |}.

(* A submission whose first rating is the object [{ "toString": 1 }]. *)
Definition unreadable_body : Request.body :=
  {| Request.answers :=
       Some
         ({| Request.pipeline_health := Request.Unreadable;
             Request.sales_conversion := Request.Reads (Num 3);
             Request.customer_success := Request.Reads (Num 3);
             Request.economics_and_efficiency := Request.Reads Absent;
             Request.top_challenge := None |},
          sample_profile);
     Request.client_name := None;
     Request.client_id := None;
     Request.email := None |}.

(* A record as an earlier submission left it in the data file. *)
Definition sample_stored : stored :=
  {| Submission.client_id := Some (JString "c-0");
     Submission.timestamp := "2025-01-01T00:00:00.000Z";
     Submission.client_name := JString "Zenith";
     Submission.email := "";
     Submission.cohort := "5-10M";
     Submission.sector := "fintech";
     Submission.employees := "unknown";
     Submission.answers :=
       {| Submission.pipeline_health := Some 4;
          Submission.sales_conversion := Some 2;
          Submission.customer_success := None;
          Submission.economics_efficiency := Some 3;
          Submission.top_challenge := None |};
     Submission.scores :=
       {| Submission.overall_ssi := Some 0.625%float;
          Submission.pipeline := Some 0.75%float;
          Submission.conversion := Some 0.5%float;
          Submission.expansion := Some 0.625%float |};
     Submission.patterns := [] |}.

(* A date parser that knows the time of the sample record only. *)
Definition sample_Date_parse (s : string) : option Z :=
  if String.eqb s "2025-01-01T00:00:00.000Z" then Some 1735689600000
  else None.

(** * The report page ([report_simple.js]) and the fixes of the PDF report

    [renderReport] and its helpers run in the browser on the result of a
    submission; [selectFixesForPDF] runs in the server on the scores of a
    PDF request.  Scores are doubles.  How a number is printed in a template
    ([Number_toString]) and the fix library are arguments. *)

Module Loop.

(* An element of [loopScoresArray]: { name, score }. *)
Record t : Type := {
  name : string;
  score : Binary64.num
}.

End Loop.

(* [a >= b] and [a < b] on doubles: false when either side is NaN. *)
Definition ge (a b : Binary64.num) : bool := PrimFloat.leb b a.

Definition lt (a b : Binary64.num) : bool := PrimFloat.ltb a b.

(* [Math.round(x * 100)] *)
Definition percent (x : Binary64.num) : Binary64.num :=
  Math_round (x * lit 100)%js.

(* The comparators [(a, b) => b.score - a.score] and
   [(a, b) => a.score - b.score]. *)
Definition descending (a b : Loop.t) : Binary64.num :=
  (Loop.score b - Loop.score a)%js.

Definition ascending (a b : Loop.t) : Binary64.num :=
  (Loop.score a - Loop.score b)%js.

(** [getScoreClass] (lines 244-248). *)
Definition getScoreClass (score : Binary64.num) : string :=
  if ge score (lit 70) then "score-high"
  else if ge score (lit 40) then "score-medium"
  else "score-low".

Record Insights : Type := {
  mainInsight : string;
  loopAnalysis : string;
  actionableOutcome : string
}.

(* The two choices of wording in [generateInsights]. *)
Definition healthDescription (overallScore : Binary64.num) : string :=
  if ge overallScore (lit 80) then
    "indicating exceptional GTM infrastructure health with minimal optimization needs"
  else if ge overallScore (lit 70) then
    "indicating strong GTM infrastructure health with minor optimization opportunities"
  else if ge overallScore (lit 60) then
    "indicating solid GTM infrastructure with notable areas for improvement"
  else if ge overallScore (lit 50) then
    "indicating moderate GTM infrastructure health with significant improvement opportunities"
  else if ge overallScore (lit 40) then
    "indicating concerning GTM infrastructure health requiring immediate attention"
  else
    "indicating critical GTM infrastructure challenges requiring urgent intervention".

Definition concernLevel (weakestLoop : Loop.t) : string :=
  if ge (Loop.score weakestLoop) (lit 70) then
    "minor optimization opportunity"
  else if ge (Loop.score weakestLoop) (lit 60) then
    "area requiring attention"
  else if ge (Loop.score weakestLoop) (lit 50) then
    "primary area of concern"
  else "critical priority".

Record PriorityRecommendation : Type := {
  for_loop : string;                 (* the field [loop] *)
  with_priority : string;            (* the field [priority] *)
  described : option string          (* the field [description] *)
}.

(* The [switch] on the name of a loop; it has no default. *)
Definition loop_description (name : string) : option string :=
  if String.eqb name "Pipeline" then
    Some "Focus on lead generation, qualification, and pipeline coverage to build a healthy sales funnel. Schedule a diagnostic call to see your detailed Pipeline metrics and custom fix roadmap."
  else if String.eqb name "Conversion" then
    Some "Improve win rates, shorten sales cycles, and optimize your deal conversion process. Schedule a diagnostic call to see your detailed Conversion metrics and custom fix roadmap."
  else if String.eqb name "Expansion" then
    Some "Strengthen customer retention, reduce churn, and build expansion revenue streams. Schedule a diagnostic call to see your detailed Expansion metrics and custom fix roadmap."
  else None.

(* [l.forEach((x, index) => out.push(f x index))], from [index] on. *)
Fixpoint forEach {A B : Type} (f : A -> nat -> B) (index : nat) (l : list A)
  : list B :=
  match l with
  | [] => []
  | x :: l' => f x index :: forEach f (S index) l'
  end.

(** [generatePriorityRecommendations] (lines 294-329). *)
Definition generatePriorityRecommendations (loopScoresArray : list Loop.t)
  : list PriorityRecommendation :=
  let sorted := sort ascending loopScoresArray in
  forEach
    (fun loop index =>
       let priority :=
         if Nat.eqb index 0 then
           (if lt (Loop.score loop) (lit 60) then "High" else "Medium")
         else "Medium" in
       {| for_loop := Loop.name loop;
          with_priority := priority;
          described := loop_description (Loop.name loop) |})
    0 sorted.

Section Templates.

(* How a template prints a number: [Number.prototype.toString]. *)
Variable Number_toString : Binary64.num -> string.

(** [generateInsights] (lines 250-292). *)
Definition generateInsights (clientName : string)
    (overallScore : Binary64.num) (strongestLoop weakestLoop : Loop.t)
  : Insights :=
  let healthDescription := healthDescription overallScore in
  let mainInsight :=
    "<strong>" ++ clientName
    ++ "</strong> currently has an overall AIS score of <strong>"
    ++ Number_toString overallScore ++ "</strong>, " ++ healthDescription
    ++ "." in
  let concernLevel := concernLevel weakestLoop in
  let loopAnalysis :=
    "The <strong>" ++ Loop.name weakestLoop ++ "</strong> loop ("
    ++ Number_toString (Loop.score weakestLoop) ++ ") represents the "
    ++ concernLevel
    ++ " and should be the focus of immediate improvement efforts. In contrast, the <strong>"
    ++ Loop.name strongestLoop ++ "</strong> loop ("
    ++ Number_toString (Loop.score strongestLoop)
    ++ ") shows relative strength and can serve as a foundation for broader GTM improvements."
  in
  let actionableOutcome :=
    "By addressing the priority metrics identified below, <strong>"
    ++ clientName
    ++ "</strong> can expect to see measurable improvements in pipeline velocity, conversion rates, and customer expansion within 90 days."
  in
  {| mainInsight := mainInsight;
     loopAnalysis := loopAnalysis;
     actionableOutcome := actionableOutcome |}.

(* What [renderReport] computes and hands to its template: the constants of
   its body and the values of the calls in the template.  The markup of
   the template is not part of the model. *)
Record Report : Type := {
  overallScore : Binary64.num;
  loopScoresArray : list Loop.t;      (* after [sort] *)
  strongestLoop : Loop.t;
  weakestLoop : Loop.t;
  insights : Insights;
  scoreClasses : list string;         (* Pipeline, Conversion, Expansion *)
  recommendations : list PriorityRecommendation
}.

(** [renderReport] (lines 53-242).  [results] is given by its client name
    and its four scores.  [loopScoresArray] is sorted in place, so the
    call of [generatePriorityRecommendations] in the template receives the
    sorted array. *)
Definition renderReport (clientName : string)
    (results : @ScoreResult Binary64.num) : completion Report :=
  let overallScore := percent (overall_ssi results) in
  let pipelineScore := percent (Pipeline (loop_scores results)) in
  let conversionScore := percent (Conversion (loop_scores results)) in
  let expansionScore := percent (Expansion (loop_scores results)) in
  let loopScoresArray := [
    {| Loop.name := "Pipeline"; Loop.score := pipelineScore |};
    {| Loop.name := "Conversion"; Loop.score := conversionScore |};
    {| Loop.name := "Expansion"; Loop.score := expansionScore |}
  ] in
  let loopScoresArray := sort descending loopScoresArray in
  let strongestLoop := nth_error loopScoresArray 0 in
  let weakestLoop := nth_error loopScoresArray 2 in
  weakestLoop <- defined weakestLoop "score" ;;
  strongestLoop <- defined strongestLoop "name" ;;
  let insights :=
    generateInsights clientName overallScore strongestLoop weakestLoop in
  Return
    {| overallScore := overallScore;
       loopScoresArray := loopScoresArray;
       strongestLoop := strongestLoop;
       weakestLoop := weakestLoop;
       insights := insights;
       scoreClasses :=
         [getScoreClass pipelineScore; getScoreClass conversionScore;
          getScoreClass expansionScore];
       recommendations := generatePriorityRecommendations loopScoresArray |}.

End Templates.

(** [selectFixesForPDF] ([server.js], lines 588-623).  [fixLibrary] is the
    file [fix_library.json]; a fix is any value, and an index past the end
    of a list gives [undefined], [None] here. *)

Section Fixes.

Variable Fix : Type.

Record FixLibrary : Type := {
  pipeline_fixes : list Fix;
  conversion_fixes : list Fix;
  expansion_fixes : list Fix
}.

Record SelectedFixes : Type := {
  pipeline_fix : option Fix;        (* the field [pipeline] *)
  conversion_fix : option Fix;      (* the field [conversion] *)
  expansion_fix : option Fix        (* the field [expansion] *)
}.

Definition selectFixesForPDF (fixLibrary : FixLibrary)
    (pipelineScore conversionScore expansionScore : Binary64.num)
  : SelectedFixes :=
  {| pipeline_fix :=
       if lt pipelineScore (lit 50) then
         nth_error (pipeline_fixes fixLibrary) 2
       else if lt pipelineScore (lit 70) then
         nth_error (pipeline_fixes fixLibrary) 0
       else nth_error (pipeline_fixes fixLibrary) 4;
     conversion_fix :=
       if lt conversionScore (lit 50) then
         nth_error (conversion_fixes fixLibrary) 1
       else if lt conversionScore (lit 70) then
         nth_error (conversion_fixes fixLibrary) 0
       else nth_error (conversion_fixes fixLibrary) 3;
     expansion_fix :=
       if lt expansionScore (lit 50) then
         nth_error (expansion_fixes fixLibrary) 0
       else if lt expansionScore (lit 70) then
         nth_error (expansion_fixes fixLibrary) 1
       else nth_error (expansion_fixes fixLibrary) 3 |}.

End Fixes.

(** *** Vocabulary of the statements about the report *)

(* [x] is the only smallest of the three scores. *)
Definition only_lowest (x y z : Binary64.num) : bool :=
  PrimFloat.ltb x y && PrimFloat.ltb x z.

(* One of the three scores lies strictly below the other two. *)
Definition one_lowest (p c e : Binary64.num) : bool :=
  only_lowest p c e || only_lowest c p e || only_lowest e p c.

(* The loop of the first recommendation. *)
Definition first_loop (l : list PriorityRecommendation) : option string :=
  match l with
  | [] => None
  | r :: _ => Some (for_loop r)
  end.

(* Loops in ascending order of their scores. *)
Definition loop_le (a b : Loop.t) : Prop :=
  PrimFloat.leb (Loop.score a) (Loop.score b) = true.

Definition loop_scored (a : Loop.t) : Prop := not_NaN (Loop.score a).

(* The priorities that [generatePriorityRecommendations] gives to loops in
   this order. *)
Definition priorities (sorted : list Loop.t) : list string :=
  match sorted with
  | [] => []
  | first :: rest =>
      (if PrimFloat.ltb (Loop.score first) 60 then "High" else "Medium")
      :: repeat "Medium" (length rest)
  end.

(** ** Lookups and ratings *)

Lemma rating_valid (n : Z) : valid_rating n -> rating (Num n) = n.
Proof.
  unfold valid_rating, rating, or_default, parseInt.
  intros Hn. destruct (Z.eqb_spec n 0); [lia | reflexivity].
Qed.

Lemma toString_valid (n : Z) : valid_rating n -> In (toString n) rating_keys.
Proof.
  unfold valid_rating. intros Hn.
  assert (Hc : n = 1 \/ n = 2 \/ n = 3 \/ n = 4 \/ n = 5) by lia.
  destruct Hc as [-> | [-> | [-> | [-> | ->]]]]; vm_compute; tauto.
Qed.

Lemma lookup_valid {V : Type} (o : object V) (n : Z) :
  has_rating_keys o -> valid_rating n ->
  exists v, own o (toString (rating (Num n))) = Some v.
Proof.
  intros Ho Hn. rewrite (rating_valid n Hn).
  apply Ho, toString_valid, Hn.
Qed.

(** With the four lookups defined, [calculateScores] returns, and the result
    is the one the four metric records determine. *)
Lemma calculateScores_defined {num : Type} `{Number num}
    (questions : Questions) (answers : Answers) pm cm em ecm :
  own (pipeline_health_maps_to_metrics questions)
    (toString (rating (question_1_pipeline_health answers))) = Some pm ->
  own (sales_conversion_maps_to_metrics questions)
    (toString (rating (question_2_sales_conversion answers))) = Some cm ->
  own (customer_success_maps_to_metrics questions)
    (toString (rating (question_3_customer_success answers))) = Some em ->
  own (economics_and_efficiency_maps_to_metrics questions)
    (toString (rating (question_4_economics_and_efficiency answers)))
    = Some ecm ->
  calculateScores questions answers =
  Return
    {| overall_ssi :=
         clamp
           (overallSSI
              (adjust_weights
                 (or_string (question_5_top_challenge answers) "pipeline"))
              (pipelineScore pm) (conversionScore cm) (expansionScore em)
              (economicsScore ecm));
       loop_scores :=
         {| Pipeline := clamp (pipelineScore pm);
            Conversion := clamp (conversionScore cm);
            Expansion := clamp (expansionScore em) |};
       priority_recommendations :=
         priorityRecommendations (allMetrics pm cm em ecm);
       detected_patterns :=
         detectPatterns answers (pipelineScore pm) (conversionScore cm)
           (expansionScore em) |}.
Proof.
  intros H1 H2 H3 H4. unfold calculateScores.
  rewrite H1, H2, H3, H4. reflexivity.
Qed.

Lemma calculateScores_complete {num : Type} `{Number num}
    (questions : Questions) (p c e ec : Z) (topChallenge : option string) :
  complete questions ->
  valid_rating p -> valid_rating c -> valid_rating e -> valid_rating ec ->
  exists pm cm em ecm,
    own (pipeline_health_maps_to_metrics questions) (toString p) = Some pm /\
    own (sales_conversion_maps_to_metrics questions) (toString c) = Some cm /\
    own (customer_success_maps_to_metrics questions) (toString e) = Some em /\
    own (economics_and_efficiency_maps_to_metrics questions) (toString ec)
      = Some ecm /\
    calculateScores questions (answers_of p c e ec topChallenge) =
    Return
      {| overall_ssi :=
           clamp
             (overallSSI (adjust_weights (or_string topChallenge "pipeline"))
                (pipelineScore pm) (conversionScore cm) (expansionScore em)
                (economicsScore ecm));
         loop_scores :=
           {| Pipeline := clamp (pipelineScore pm);
              Conversion := clamp (conversionScore cm);
              Expansion := clamp (expansionScore em) |};
         priority_recommendations :=
           priorityRecommendations (allMetrics pm cm em ecm);
         detected_patterns :=
           detectPatterns (answers_of p c e ec topChallenge)
             (pipelineScore pm) (conversionScore cm) (expansionScore em) |}.
Proof.
  intros (Hp & Hc & He & Hec) Vp Vc Ve Vec.
  destruct (lookup_valid _ p Hp Vp) as [pm Hpm].
  destruct (lookup_valid _ c Hc Vc) as [cm Hcm].
  destruct (lookup_valid _ e He Ve) as [em Hem].
  destruct (lookup_valid _ ec Hec Vec) as [ecm Hecm].
  exists pm, cm, em, ecm.
  rewrite <- (rating_valid p Vp) at 1. rewrite <- (rating_valid c Vc) at 1.
  rewrite <- (rating_valid e Ve) at 1. rewrite <- (rating_valid ec Vec) at 1.
  repeat (split; [assumption |]).
  apply (calculateScores_defined questions (answers_of p c e ec topChallenge));
    assumption.
Qed.

Lemma sample_complete {num : Type} `{Number num} : complete sampleQuestions.
Proof.
  repeat split; intros k Hk; simpl in Hk;
    repeat (destruct Hk as [<- | Hk]; [eexists; reflexivity |]);
    destruct Hk.
Defined.

(** ** Pattern detection *)

Ltac ratings_1_to_5 := unfold valid_rating; lia.

(** C6.  With ratings pipeline 4, conversion 2, expansion 3, economics 3 and
    the challenge "conversion", [calculateScores] returns, and its detected
    patterns contain [pipeline_conversion_gap] and do not contain
    [leaky_bucket]. *)
Theorem pipeline_conversion_gap_detected {num : Type} `{Number num}
    (questions : Questions) :
  complete questions ->
  exists r,
    calculateScores questions (answers_of 4 2 3 3 (Some "conversion"))
      = Return r /\
    In "pipeline_conversion_gap" (pattern_names r) /\
    ~ In "leaky_bucket" (pattern_names r).
Proof.
  intros Hq.
  destruct (calculateScores_complete questions 4 2 3 3 (Some "conversion") Hq)
    as (pm & cm & em & ecm & _ & _ & _ & _ & Hr); try ratings_1_to_5.
  eexists. split; [exact Hr |].
  unfold pattern_names; cbn. split; [left; reflexivity |].
  intros [Hin | []]. discriminate Hin.
Qed.

Lemma pipeline_conversion_gap_detected_witness :
  exists r,
    calculateScores (num := Binary64.num) sampleQuestions
      (answers_of 4 2 3 3 (Some "conversion")) = Return r /\
    In "pipeline_conversion_gap" (pattern_names r) /\
    ~ In "leaky_bucket" (pattern_names r).
Proof.
  apply (pipeline_conversion_gap_detected sampleQuestions).
  apply sample_complete.
Defined.

(** C7.  With all four ratings equal to 3, whatever the challenge,
    [calculateScores] returns and its list of detected patterns is empty. *)
Theorem baseline_has_no_pattern {num : Type} `{Number num}
    (questions : Questions) (topChallenge : option string) :
  complete questions ->
  exists r,
    calculateScores questions (answers_of 3 3 3 3 topChallenge) = Return r /\
    detected_patterns r = [].
Proof.
  intros Hq.
  destruct (calculateScores_complete questions 3 3 3 3 topChallenge Hq)
    as (pm & cm & em & ecm & _ & _ & _ & _ & Hr); try ratings_1_to_5.
  eexists. split; [exact Hr | reflexivity].
Qed.

Lemma baseline_has_no_pattern_witness :
  exists r,
    calculateScores (num := Binary64.num) sampleQuestions
      (answers_of 3 3 3 3 (Some "retention")) = Return r /\
    detected_patterns r = [].
Proof.
  apply (baseline_has_no_pattern sampleQuestions (Some "retention")).
  apply sample_complete.
Defined.

(** ** The challenge only reaches the overall score *)

(** C10.  Two calls of [calculateScores] on the same table and the same four
    ratings (each from 1 to 5) that differ in the challenge alone both return,
    with the same loop scores, the same priority recommendations and the same
    detected patterns. *)
Theorem challenge_noninterference {num : Type} `{Number num}
    (questions : Questions) (p c e ec : Z)
    (topChallenge1 topChallenge2 : option string) :
  complete questions ->
  valid_rating p -> valid_rating c -> valid_rating e -> valid_rating ec ->
  exists r1 r2,
    calculateScores questions (answers_of p c e ec topChallenge1)
      = Return r1 /\
    calculateScores questions (answers_of p c e ec topChallenge2)
      = Return r2 /\
    loop_scores r1 = loop_scores r2 /\
    priority_recommendations r1 = priority_recommendations r2 /\
    detected_patterns r1 = detected_patterns r2.
Proof.
  intros Hq Vp Vc Ve Vec.
  destruct (calculateScores_complete questions p c e ec topChallenge1
              Hq Vp Vc Ve Vec)
    as (pm & cm & em & ecm & Hpm & Hcm & Hem & Hecm & Hr1).
  destruct (calculateScores_complete questions p c e ec topChallenge2
              Hq Vp Vc Ve Vec)
    as (pm' & cm' & em' & ecm' & Hpm' & Hcm' & Hem' & Hecm' & Hr2).
  assert (pm' = pm) by congruence. assert (cm' = cm) by congruence.
  assert (em' = em) by congruence. assert (ecm' = ecm) by congruence.
  subst pm' cm' em' ecm'.
  do 2 eexists. split; [exact Hr1 |]. split; [exact Hr2 |].
  cbn. repeat split.
Qed.

Lemma challenge_noninterference_witness :
  exists r1 r2,
    calculateScores (num := Binary64.num) sampleQuestions
      (answers_of 4 2 5 1 (Some "retention")) = Return r1 /\
    calculateScores (num := Binary64.num) sampleQuestions
      (answers_of 4 2 5 1 (Some "constructor")) = Return r2 /\
    loop_scores r1 = loop_scores r2 /\
    priority_recommendations r1 = priority_recommendations r2 /\
    detected_patterns r1 = detected_patterns r2.
Proof.
  apply (challenge_noninterference sampleQuestions 4 2 5 1
           (Some "retention") (Some "constructor")).
  - apply sample_complete.
  - unfold valid_rating; lia.
  - unfold valid_rating; lia.
  - unfold valid_rating; lia.
  - unfold valid_rating; lia.
Defined.

(** ** Ratings without an entry *)

Lemma rating_nonzero (n : Z) : n <> 0 -> rating (Num n) = n.
Proof.
  unfold rating, or_default, parseInt. intros Hn.
  destruct (Z.eqb_spec n 0); [contradiction | reflexivity].
Qed.

Lemma rating_zero_default : rating (Num 0) = 3 /\ rating Absent = 3.
Proof. split; reflexivity. Qed.

(** C5, as the code has it.  When a rating field holds a nonzero safe
    integer [n] ([|n| < 2^53], the range in which [toString] is the text that
    JavaScript prints) and the bundle of that question has no entry under
    the key [n.toString()], [calculateScores] throws a TypeError and returns
    no score. *)
Theorem missing_entry_throws {num : Type} `{Number num}
    (questions : Questions) (answers : Answers) (n : Z) :
  n <> 0 -> Z.abs n < 2 ^ 53 ->
  (question_1_pipeline_health answers = Num n /\
   own (pipeline_health_maps_to_metrics questions) (toString n) = None) \/
  (question_2_sales_conversion answers = Num n /\
   own (sales_conversion_maps_to_metrics questions) (toString n) = None) \/
  (question_3_customer_success answers = Num n /\
   own (customer_success_maps_to_metrics questions) (toString n) = None) \/
  (question_4_economics_and_efficiency answers = Num n /\
   own (economics_and_efficiency_maps_to_metrics questions) (toString n)
   = None) ->
  exists reading,
    calculateScores questions answers = Throw (TypeError reading).
Proof.
  intros Hn _ Hmiss. unfold calculateScores.
  destruct Hmiss as [[Hf Ho] | [[Hf Ho] | [[Hf Ho] | [Hf Ho]]]];
    rewrite Hf, (rating_nonzero n Hn), Ho;
    repeat match goal with
      | |- context [defined (own ?o ?k) _] =>
          destruct (own o k); cbn [defined bind]
      end;
    eexists; reflexivity.
Qed.

Lemma missing_entry_throws_witness :
  exists reading,
    calculateScores (num := Binary64.num) sampleQuestions
      (answers_of 3 6 3 3 (Some "other")) = Throw (TypeError reading).
Proof.
  apply (missing_entry_throws sampleQuestions
           (answers_of 3 6 3 3 (Some "other")) 6).
  - discriminate.
  - reflexivity.
  - right; left. split; reflexivity.
Defined.

(** C5, as stated, fails: the rating 0 is outside 1..5 and the bundle has no
    entry "0", yet the call returns the very result of the rating 3. *)
Lemma rating_zero_is_scored :
  ~ valid_rating 0 /\
  own (pipeline_health_maps_to_metrics
         (sampleQuestions (num := Binary64.num))) (toString 0) = None /\
  exists r,
    calculateScores (num := Binary64.num) sampleQuestions
      (answers_of 0 3 3 3 (Some "other")) = Return r /\
    calculateScores (num := Binary64.num) sampleQuestions
      (answers_of 3 3 3 3 (Some "other")) = Return r.
Proof.
  split; [unfold valid_rating; lia |].
  split; [reflexivity |].
  eexists. split; vm_compute; reflexivity.
Qed.

(** ** Weights *)

Lemma challenge_cases (topChallenge : string) :
  own Object_prototype topChallenge = None ->
  topChallenge = "pipeline" \/ topChallenge = "conversion" \/
  topChallenge = "retention" \/ get challengeWeightMap topChallenge = Undefined.
Proof.
  intros Hp. unfold get, challengeWeightMap, own at 1.
  destruct (String.eqb_spec "pipeline" topChallenge) as [<- | _]; [tauto |].
  destruct (String.eqb_spec "conversion" topChallenge) as [<- | _]; [tauto |].
  destruct (String.eqb_spec "retention" topChallenge) as [<- | _]; [tauto |].
  rewrite Hp. tauto.
Qed.

Lemma unrecognised_keeps_base_weights {num : Type} `{Number num}
    (topChallenge : string) :
  get challengeWeightMap topChallenge = Undefined ->
  adjust_weights topChallenge = base_weights.
Proof. intros Hg. unfold adjust_weights. rewrite Hg. reflexivity. Qed.

(** What does hold of the weights: unless the challenge names an inherited
    property, the four weights add up to 1, exactly in rational arithmetic
    and within 1e-9 as doubles. *)
Lemma adjusted_weights_sum (topChallenge : string) :
  own Object_prototype topChallenge = None ->
  (exists s,
     fold_left nadd (four_weights (num := Exact.num) topChallenge) (lit 0)
       = Some s /\ (s == 1)%Q) /\
  (exists s,
     sum_Q (four_weights (num := Binary64.num) topChallenge) = Some s /\
     (Qabs (s - 1) <= 1 # 1000000000)%Q).
Proof.
  intros Hp.
  destruct (challenge_cases topChallenge Hp) as [-> | [-> | [-> | Hg]]].
  4: unfold four_weights, weight;
     rewrite !(unrecognised_keeps_base_weights topChallenge Hg).
  all: split; eexists; (split; [vm_compute; reflexivity |]).
  all: vm_compute; first [reflexivity | discriminate].
Qed.

Lemma adjusted_weights_sum_witness :
  (exists s,
     fold_left nadd (four_weights (num := Exact.num) "retention") (lit 0)
       = Some s /\ (s == 1)%Q) /\
  (exists s,
     sum_Q (four_weights (num := Binary64.num) "retention") = Some s /\
     (Qabs (s - 1) <= 1 # 1000000000)%Q).
Proof. apply (adjusted_weights_sum "retention"). reflexivity. Defined.

Lemma weights_of_inherited_challenge_aux :
  adjust_weights (num := Binary64.num) "constructor" =
    [ ("pipeline", PrimFloat.nan); ("conversion", PrimFloat.nan);
      ("expansion", PrimFloat.nan); ("economics", PrimFloat.nan);
      ("function Object() { [native code] }", PrimFloat.nan) ] /\
  adjust_weights (num := Exact.num) "constructor" =
    [ ("pipeline", None); ("conversion", None);
      ("expansion", None); ("economics", None);
      ("function Object() { [native code] }", None) ].
Proof. split; vm_compute; reflexivity. Qed.

(** Every property name of [Object.prototype] has this effect. *)
Lemma weights_of_inherited_challenges :
  Forall
    (fun topChallenge =>
       four_weights (num := Binary64.num) topChallenge
       = [ PrimFloat.nan; PrimFloat.nan; PrimFloat.nan; PrimFloat.nan ])
    (map fst Object_prototype).
Proof. repeat constructor. Qed.

(** C2 at the challenge "constructor": [challengeWeightMap["constructor"]] is
    the inherited function [Object], which is truthy; the weights object gets
    a fifth property whose value is NaN, the total is NaN and every weight is
    divided by it.  No weight is a number and their sum is not 1. *)
Theorem weights_of_inherited_challenge :
  adjust_weights (num := Binary64.num) "constructor" =
    [ ("pipeline", PrimFloat.nan); ("conversion", PrimFloat.nan);
      ("expansion", PrimFloat.nan); ("economics", PrimFloat.nan);
      ("function Object() { [native code] }", PrimFloat.nan) ] /\
  four_weights (num := Binary64.num) "constructor" =
    [ PrimFloat.nan; PrimFloat.nan; PrimFloat.nan; PrimFloat.nan ] /\
  sum_Q (four_weights (num := Binary64.num) "constructor") = None /\
  four_weights (num := Exact.num) "constructor" = [ None; None; None; None ].
Proof. repeat split; vm_compute; reflexivity. Qed.

(** C8.  A challenge that [challengeWeightMap] does not know ("other", say)
    leaves the base weights as they are, with 0.30 for the pipeline; the
    challenge "pipeline" gives the pipeline the weight 0.345/1.045, which is
    strictly greater, both as doubles and as rationals.  The weights do not
    depend on the ratings. *)
Theorem pipeline_challenge_raises_pipeline_weight (topChallenge : string) :
  get challengeWeightMap topChallenge = Undefined ->
  adjust_weights (num := Binary64.num) topChallenge = base_weights /\
  PrimFloat.ltb (weight topChallenge "pipeline") (weight "pipeline" "pipeline")
    = true /\
  weight (num := Exact.num) topChallenge "pipeline" = Some 0.30%Q /\
  exists w,
    weight (num := Exact.num) "pipeline" "pipeline" = Some w /\
    (w == 0.345 / 1.045)%Q /\ (0.30 < w)%Q.
Proof.
  intros Hg. unfold weight.
  rewrite !(unrecognised_keeps_base_weights topChallenge Hg).
  split; [reflexivity |]. split; [vm_compute; reflexivity |].
  split; [reflexivity |].
  eexists. split; [vm_compute; reflexivity |].
  split; vm_compute; reflexivity.
Qed.

Lemma pipeline_challenge_raises_pipeline_weight_witness :
  adjust_weights (num := Binary64.num) "other" = base_weights /\
  PrimFloat.ltb (weight "other" "pipeline") (weight "pipeline" "pipeline")
    = true /\
  weight (num := Exact.num) "other" "pipeline" = Some 0.30%Q /\
  exists w,
    weight (num := Exact.num) "pipeline" "pipeline" = Some w /\
    (w == 0.345 / 1.045)%Q /\ (0.30 < w)%Q.
Proof.
  apply (pipeline_challenge_raises_pipeline_weight "other"). reflexivity.
Defined.

(** ** NaN in binary64 *)

Lemma mul_nan_r (x : float) : PrimFloat.mul x PrimFloat.nan = PrimFloat.nan.
Proof.
  apply Prim2SF_inj. rewrite mul_spec.
  change (Prim2SF PrimFloat.nan) with S754_nan.
  unfold SF64mul, SFmul. destruct (Prim2SF x); reflexivity.
Qed.

Lemma clamp_nan : clamp (num := Binary64.num) PrimFloat.nan = PrimFloat.nan.
Proof. reflexivity. Qed.

Lemma nan_outside_unit : ~ within_unit PrimFloat.nan.
Proof. unfold within_unit. intros [H0 _]. vm_compute in H0. discriminate. Qed.

Lemma overallSSI_inherited_challenge (s1 s2 s3 s4 : Binary64.num) :
  overallSSI (adjust_weights "constructor") s1 s2 s3 s4 = PrimFloat.nan.
Proof.
  destruct weights_of_inherited_challenge_aux as [-> _].
  unfold overallSSI, get_number. cbn [own String.eqb Ascii.eqb Bool.eqb].
  cbn [nadd nmul Binary64Number]. rewrite !mul_nan_r. reflexivity.
Qed.

(** ** Clamping in binary64 *)

Lemma SFcompare_antisym (x y : spec_float) :
  SFcompare y x =
  match SFcompare x y with Some c => Some (CompOpp c) | None => None end.
Proof.
  destruct x as [sx | sx | | sx mx ex], y as [sy | sy | | sy my ey];
    try reflexivity;
    try (destruct sx; reflexivity); try (destruct sy; reflexivity);
    try (destruct sx, sy; reflexivity).
  unfold SFcompare.
  assert (Hm : Pos.compare_cont Eq my mx = CompOpp (Pos.compare_cont Eq mx my))
    by (rewrite Pos.compare_cont_antisym; reflexivity).
  rewrite (Z.compare_antisym ex ey), Hm.
  destruct sx, sy, (ex ?= ey)%Z; cbn; try reflexivity;
    destruct (Pos.compare_cont Eq mx my); reflexivity.
Qed.

Lemma not_nan_spec (x : float) :
  PrimFloat.is_nan x = false -> Prim2SF x <> S754_nan.
Proof.
  unfold PrimFloat.is_nan. rewrite eqb_spec. intros Hx Hn.
  rewrite Hn in Hx. discriminate Hx.
Qed.

Lemma SFcompare_defined (x y : spec_float) :
  x <> S754_nan -> y <> S754_nan -> exists c, SFcompare x y = Some c.
Proof.
  intros Hx Hy.
  destruct x as [sx | sx | | sx mx ex], y as [sy | sy | | sy my ey];
    try congruence; cbn; eexists; reflexivity.
Qed.

Lemma ltb_leb (a b : float) :
  PrimFloat.ltb a b = true -> PrimFloat.leb a b = true.
Proof.
  rewrite ltb_spec, leb_spec. unfold SFltb, SFleb.
  destruct (SFcompare (Prim2SF a) (Prim2SF b)) as [[ | | ] | ]; congruence.
Qed.

Lemma not_ltb_leb (a b : float) :
  PrimFloat.is_nan a = false -> PrimFloat.is_nan b = false ->
  PrimFloat.ltb b a = false -> PrimFloat.leb a b = true.
Proof.
  intros Ha Hb. rewrite ltb_spec, leb_spec. unfold SFltb, SFleb.
  rewrite (SFcompare_antisym (Prim2SF a) (Prim2SF b)).
  destruct (SFcompare_defined _ _ (not_nan_spec a Ha) (not_nan_spec b Hb))
    as [c ->].
  destruct c; cbn; congruence.
Qed.

Lemma clamp_within_unit (x : float) :
  PrimFloat.is_nan x = false -> within_unit (clamp (num := Binary64.num) x).
Proof.
  intros Hx. unfold clamp, within_unit.
  cbn [Math_max Math_min Binary64Number].
  change (lit (num := Binary64.num) 0) with 0%float.
  change (lit (num := Binary64.num) 1) with 1%float.
  unfold Binary64.min.
  change (PrimFloat.is_nan 1) with false. rewrite Hx. cbn [orb].
  change (Binary64.is_neg_zero 1) with false.
  destruct (PrimFloat.ltb 1 x) eqn:H1x.
  - vm_compute. split; reflexivity.
  - assert (Hle1 : PrimFloat.leb x 1 = true)
      by (apply not_ltb_leb; trivial).
    assert (Hm : (if PrimFloat.ltb x 1 then x else x) = x)
      by (destruct (PrimFloat.ltb x 1); reflexivity).
    rewrite Hm. unfold Binary64.max.
    change (PrimFloat.is_nan 0) with false. rewrite Hx. cbn [orb].
    change (Binary64.is_neg_zero 0) with false.
    destruct (PrimFloat.ltb 0 x) eqn:H0x.
    + split; [apply ltb_leb, H0x | exact Hle1].
    + assert (Hz : (if PrimFloat.ltb x 0 then 0%float else 0%float) = 0%float)
        by (destruct (PrimFloat.ltb x 0); reflexivity).
      rewrite Hz. vm_compute. split; reflexivity.
Qed.

Lemma clamp_of_nan (x : float) :
  PrimFloat.is_nan x = true -> clamp (num := Binary64.num) x = PrimFloat.nan.
Proof.
  intros Hx. unfold clamp. cbn [Math_max Math_min Binary64Number].
  unfold Binary64.min. rewrite Hx, orb_true_r. reflexivity.
Qed.

(** What the clamp gives: each returned score is NaN or lies in [0, 1], and
    a loop score is NaN only when the score it is clamped from is. *)
Lemma returned_scores_clamped (questions : @Questions Binary64.num)
    (p c e ec : Z) (topChallenge : option string) :
  complete questions ->
  valid_rating p -> valid_rating c -> valid_rating e -> valid_rating ec ->
  exists r,
    calculateScores questions (answers_of p c e ec topChallenge) = Return r /\
    Forall (fun s => s = PrimFloat.nan \/ within_unit s)
      [ overall_ssi r; Pipeline (loop_scores r); Conversion (loop_scores r);
        Expansion (loop_scores r) ].
Proof.
  intros Hq Vp Vc Ve Vec.
  destruct (calculateScores_complete questions p c e ec topChallenge
              Hq Vp Vc Ve Vec)
    as (pm & cm & em & ecm & _ & _ & _ & _ & Hr).
  eexists. split; [exact Hr |].
  cbn [overall_ssi loop_scores Pipeline Conversion Expansion].
  repeat (apply Forall_cons;
          [ match goal with
            | |- clamp ?x = _ \/ _ =>
                destruct (PrimFloat.is_nan x) eqn:Hx;
                  [ left; apply clamp_of_nan, Hx
                  | right; apply clamp_within_unit, Hx ]
            end | ]).
  apply Forall_nil.
Qed.

(** C1 at the challenge "constructor".  The weights are NaN, so is the
    weighted sum, and [Math.max(0, Math.min(1, NaN))] is NaN: the call
    returns an overall score that is not in [0, 1], whatever the table and
    the ratings. *)
Theorem overall_ssi_of_inherited_challenge
    (questions : @Questions Binary64.num) (p c e ec : Z) :
  complete questions ->
  valid_rating p -> valid_rating c -> valid_rating e -> valid_rating ec ->
  exists r,
    calculateScores questions (answers_of p c e ec (Some "constructor"))
      = Return r /\
    overall_ssi r = PrimFloat.nan /\
    ~ within_unit (overall_ssi r).
Proof.
  intros Hq Vp Vc Ve Vec.
  destruct (calculateScores_complete questions p c e ec (Some "constructor")
              Hq Vp Vc Ve Vec)
    as (pm & cm & em & ecm & _ & _ & _ & _ & Hr).
  eexists. split; [exact Hr |].
  cbn [overall_ssi or_string String.eqb].
  rewrite overallSSI_inherited_challenge, clamp_nan.
  split; [reflexivity | exact nan_outside_unit].
Qed.

Lemma overall_ssi_of_inherited_challenge_witness :
  exists r,
    calculateScores (num := Binary64.num) sampleQuestions
      (answers_of 3 3 3 3 (Some "constructor")) = Return r /\
    overall_ssi r = PrimFloat.nan /\
    ~ within_unit (overall_ssi r).
Proof.
  apply (overall_ssi_of_inherited_challenge sampleQuestions 3 3 3 3).
  - apply sample_complete.
  - unfold valid_rating; lia.
  - unfold valid_rating; lia.
  - unfold valid_rating; lia.
  - unfold valid_rating; lia.
Defined.

(** ** The order of doubles

    [Prim2SF] reads a double as sign, mantissa and exponent.  The comparison
    of the specification is the comparison of the integer keys, and the sign
    of a rounded difference is the sign of the difference of the keys: a
    nonzero difference of two doubles never rounds to zero. *)

Lemma fexp_eq k : fexp prec emax k = Z.max (k - 53) (-1074).
Proof. reflexivity. Qed.

Lemma digits2_bounds (m : positive) :
  2 ^ (Zpos (digits2_pos m) - 1) <= Zpos m < 2 ^ Zpos (digits2_pos m).
Proof.
  induction m as [p IH | p IH |]; cbn [digits2_pos].
  - rewrite Pos2Z.inj_succ. change (Zpos p~1) with (2 * Zpos p + 1).
    replace (Z.succ (Zpos (digits2_pos p)) - 1)
      with (Z.succ (Zpos (digits2_pos p) - 1)) by lia.
    rewrite !Z.pow_succ_r by lia.
    destruct IH as [IH1 IH2]. revert IH1 IH2.
    generalize (2 ^ (Zpos (digits2_pos p) - 1)) (2 ^ Zpos (digits2_pos p)).
    intros; lia.
  - rewrite Pos2Z.inj_succ. change (Zpos p~0) with (2 * Zpos p).
    replace (Z.succ (Zpos (digits2_pos p)) - 1)
      with (Z.succ (Zpos (digits2_pos p) - 1)) by lia.
    rewrite !Z.pow_succ_r by lia.
    destruct IH as [IH1 IH2]. revert IH1 IH2.
    generalize (2 ^ (Zpos (digits2_pos p) - 1)) (2 ^ Zpos (digits2_pos p)).
    intros; lia.
  - cbn. lia.
Qed.

Lemma shr_1_pos (m : positive) (r s : bool) :
  1 < Zpos (digits2_pos m) ->
  exists m' r' s',
    shr_1 (Build_shr_record (Zpos m) r s) = Build_shr_record (Zpos m') r' s' /\
    Zpos (digits2_pos m') = Zpos (digits2_pos m) - 1.
Proof.
  destruct m as [p | p |]; cbn [shr_1 digits2_pos]; intros Hd.
  - do 3 eexists. split; [reflexivity | lia].
  - do 3 eexists. split; [reflexivity | lia].
  - lia.
Qed.

Lemma iter_shr_1_pos (p m : positive) (r s : bool) :
  Zpos p < Zpos (digits2_pos m) ->
  exists m' r' s',
    iter_pos shr_1 p (Build_shr_record (Zpos m) r s)
    = Build_shr_record (Zpos m') r' s' /\
    Zpos (digits2_pos m') = Zpos (digits2_pos m) - Zpos p.
Proof.
  revert m r s. induction p as [p IH | p IH |]; intros m r s Hd;
    cbn [iter_pos].
  - destruct (shr_1_pos m r s) as (m0 & r0 & s0 & -> & Hd0); [lia |].
    destruct (IH m0 r0 s0) as (m1 & r1 & s1 & -> & Hd1); [lia |].
    destruct (IH m1 r1 s1) as (m2 & r2 & s2 & -> & Hd2); [lia |].
    do 3 eexists. split; [reflexivity | lia].
  - destruct (IH m r s) as (m1 & r1 & s1 & -> & Hd1); [lia |].
    destruct (IH m1 r1 s1) as (m2 & r2 & s2 & -> & Hd2); [lia |].
    do 3 eexists. split; [reflexivity | lia].
  - apply shr_1_pos. lia.
Qed.

Lemma shr_fexp_pos (m : positive) (e : Z) :
  -1074 <= e ->
  exists m' r' s' e',
    shr_fexp prec emax (Zpos m) e loc_Exact
    = (Build_shr_record (Zpos m') r' s', e') /\ -1074 <= e'.
Proof.
  intros He. unfold shr_fexp, shr. cbn [shr_record_of_loc Zdigits2].
  rewrite fexp_eq.
  destruct (Z.max (Zpos (digits2_pos m) + e - 53) (-1074) - e) as [| p | p]
    eqn:Hn.
  - do 4 eexists. split; [reflexivity | lia].
  - destruct (iter_shr_1_pos p m false false) as (m' & r' & s' & -> & _);
      [lia |].
    do 4 eexists. split; [reflexivity | lia].
  - do 4 eexists. split; [reflexivity | lia].
Qed.

Lemma round_nearest_even_pos (m : positive) (l : location) :
  exists m', round_nearest_even (Zpos m) l = Zpos m'.
Proof.
  destruct l as [| [ | | ]]; cbn [round_nearest_even];
    try destruct (Z.even (Zpos m)); eexists; reflexivity.
Qed.

Lemma binary_round_aux_signed (sx : bool) (m : positive) (e : Z) :
  -1074 <= e -> signed sx (binary_round_aux prec emax sx (Zpos m) e loc_Exact).
Proof.
  intros He. unfold binary_round_aux.
  destruct (shr_fexp_pos m e He) as (m1 & r1 & s1 & e1 & -> & He1).
  cbn [shr_m].
  destruct (round_nearest_even_pos m1
              (loc_of_shr_record (Build_shr_record (Zpos m1) r1 s1)))
    as [m2 ->].
  destruct (shr_fexp_pos m2 e1 He1) as (m3 & r3 & s3 & e3 & -> & He3).
  cbn [shr_m].
  destruct (e3 <=? emax - prec); [left; do 2 eexists; reflexivity | right; reflexivity].
Qed.

Lemma binary_round_signed (sx : bool) (m : positive) (e : Z) :
  -1074 <= e -> signed sx (binary_round prec emax sx m e).
Proof.
  intros He. unfold binary_round, shl_align. rewrite fexp_eq.
  destruct (Z.max (Zpos (digits2_pos m) + e - 53) (-1074) - e) eqn:Hn;
    apply binary_round_aux_signed; lia.
Qed.

Lemma signed_ltb_zero (s : bool) (X : spec_float) :
  signed s X -> SFltb X (S754_zero false) = s.
Proof.
  intros [(m & e & ->) | ->]; destruct s; reflexivity.
Qed.

Lemma binary_normalize_ltb_zero (m e : Z) :
  -1074 <= e ->
  SFltb (binary_normalize prec emax m e false) (S754_zero false) = (m <? 0).
Proof.
  intros He. destruct m as [| p | p]; cbn [binary_normalize].
  - reflexivity.
  - rewrite (signed_ltb_zero false); [reflexivity |].
    apply binary_round_signed, He.
  - rewrite (signed_ltb_zero true); [reflexivity |].
    apply binary_round_signed, He.
Qed.

(* a valid finite double: bounds on exponent and digits *)
Lemma valid_finite (s : bool) (m : positive) (e : Z) :
  valid_binary (S754_finite s m e) = true ->
  -1074 <= e <= 971 /\ Zpos (digits2_pos m) <= 53 /\
  (-1074 < e -> Zpos (digits2_pos m) = 53).
Proof.
  cbn [valid_binary]. unfold bounded, canonical_mantissa.
  rewrite fexp_eq. intros Hv. apply andb_prop in Hv.
  destruct Hv as [Hc He]. apply Z.eqb_eq in Hc. apply Z.leb_le in He.
  change (emax - prec) with 971 in He. lia.
Qed.

Lemma magnitude_bounds (s : bool) (m : positive) (e : Z) :
  valid_binary (S754_finite s m e) = true ->
  0 < magnitude m e < 2 ^ 2100.
Proof.
  intros Hv. destruct (valid_finite s m e Hv) as (He & Hd & _).
  pose proof (digits2_bounds m) as [_ Hm].
  assert (H53 : 2 ^ Zpos (digits2_pos m) <= 2 ^ 53)
    by (apply Z.pow_le_mono_r; lia).
  assert (He1 : 0 < 2 ^ (e + 1074)) by (apply Z.pow_pos_nonneg; lia).
  assert (He2 : 2 ^ (e + 1074) <= 2 ^ 2045) by (apply Z.pow_le_mono_r; lia).
  unfold magnitude. split; [apply Z.mul_pos_pos; lia |].
  apply Z.lt_le_trans with (2 ^ 53 * 2 ^ (e + 1074)).
  - apply Z.mul_lt_mono_pos_r; lia.
  - apply Z.le_trans with (2 ^ 53 * 2 ^ 2045).
    + apply Z.mul_le_mono_nonneg_l; [apply Z.pow_nonneg; lia | exact He2].
    + rewrite <- Z.pow_add_r by lia. apply Z.pow_le_mono_r; lia.
Qed.

Lemma magnitude_lt (s1 s2 : bool) (m1 m2 : positive) (e1 e2 : Z) :
  valid_binary (S754_finite s1 m1 e1) = true ->
  valid_binary (S754_finite s2 m2 e2) = true ->
  e1 < e2 -> magnitude m1 e1 < magnitude m2 e2.
Proof.
  intros H1 H2 He.
  destruct (valid_finite s1 m1 e1 H1) as (He1 & Hd1 & _).
  destruct (valid_finite s2 m2 e2 H2) as (He2 & _ & Hd2).
  specialize (Hd2 ltac:(lia)).
  pose proof (digits2_bounds m1) as [_ Hm1].
  pose proof (digits2_bounds m2) as [Hm2 _]. rewrite Hd2 in Hm2.
  assert (H53 : 2 ^ Zpos (digits2_pos m1) <= 2 ^ 53)
    by (apply Z.pow_le_mono_r; lia).
  unfold magnitude.
  replace (e2 + 1074) with ((e1 + 1074) + (e2 - e1)) by lia.
  rewrite (Z.pow_add_r 2 (e1 + 1074) (e2 - e1)) by lia.
  assert (HA : 0 < 2 ^ (e1 + 1074)) by (apply Z.pow_pos_nonneg; lia).
  assert (HB : 2 ^ 1 <= 2 ^ (e2 - e1)) by (apply Z.pow_le_mono_r; lia).
  change (2 ^ 1) with 2 in HB.
  change (2 ^ (53 - 1)) with 4503599627370496 in Hm2.
  change (2 ^ 53) with 9007199254740992 in H53.
  revert HA HB. generalize (2 ^ (e1 + 1074)) (2 ^ (e2 - e1)). intros A B HA HB.
  assert (Zpos m1 < Zpos m2 * B) by nia.
  nia.
Qed.

Lemma magnitude_compare (m1 m2 : positive) (e : Z) :
  -1074 <= e ->
  (magnitude m1 e ?= magnitude m2 e) = Pos.compare_cont Eq m1 m2.
Proof.
  intros He. unfold magnitude.
  assert (HA : 0 < 2 ^ (e + 1074)) by (apply Z.pow_pos_nonneg; lia).
  rewrite <- Zmult_compare_compat_r by lia. reflexivity.
Qed.

Lemma compare_Lt (a b : Z) : a < b -> (a ?= b) = Lt.
Proof. intros; apply Z.compare_lt_iff; assumption. Qed.

Lemma compare_Gt (a b : Z) : b < a -> (a ?= b) = Gt.
Proof. intros; apply Z.compare_gt_iff; assumption. Qed.

Lemma compare_opp (a b : Z) : (- a ?= - b) = CompOpp (a ?= b).
Proof. rewrite Z.compare_opp. apply Z.compare_antisym. Qed.

(** The order of the specification is the order of the keys. *)
Lemma SFcompare_key (X Y : spec_float) :
  valid_binary X = true -> valid_binary Y = true ->
  X <> S754_nan -> Y <> S754_nan ->
  SFcompare X Y = Some (key X ?= key Y).
Proof.
  intros HX HY NX NY.
  destruct X as [sx | sx | | sx mx ex]; try congruence;
    destruct Y as [sy | sy | | sy my ey]; try congruence;
    try pose proof (magnitude_bounds sx mx ex HX) as Bx;
    try pose proof (magnitude_bounds sy my ey HY) as By;
    cbn [SFcompare key].
  - reflexivity.
  - destruct sy; reflexivity.
  - destruct sy; cbn [cond_Zopp]; f_equal; symmetry;
      [apply compare_Gt | apply compare_Lt]; lia.
  - destruct sx; reflexivity.
  - destruct sx, sy; reflexivity.
  - destruct sx; cbn [cond_Zopp]; f_equal; symmetry;
      [apply compare_Lt | apply compare_Gt];
      destruct sy; cbn [cond_Zopp]; lia.
  - destruct sx; cbn [cond_Zopp]; f_equal; symmetry;
      [apply compare_Lt | apply compare_Gt]; lia.
  - destruct sy; cbn [cond_Zopp]; f_equal; symmetry;
      [apply compare_Gt | apply compare_Lt];
      destruct sx; cbn [cond_Zopp]; lia.
  - f_equal.
    destruct sx, sy; cbn [cond_Zopp].
    + rewrite compare_opp.
      destruct (Z.compare_spec ex ey) as [-> | Hlt | Hgt].
      * rewrite magnitude_compare; [reflexivity |].
        destruct (valid_finite _ _ _ HY); lia.
      * rewrite (compare_Lt _ _ (magnitude_lt _ _ _ _ _ _ HX HY Hlt)).
        reflexivity.
      * rewrite (compare_Gt _ _ (magnitude_lt _ _ _ _ _ _ HY HX Hgt)).
        reflexivity.
    + symmetry. apply compare_Lt. lia.
    + symmetry. apply compare_Gt. lia.
    + destruct (Z.compare_spec ex ey) as [-> | Hlt | Hgt].
      * rewrite magnitude_compare; [reflexivity |].
        destruct (valid_finite _ _ _ HY); lia.
      * rewrite (compare_Lt _ _ (magnitude_lt _ _ _ _ _ _ HX HY Hlt)).
        reflexivity.
      * rewrite (compare_Gt _ _ (magnitude_lt _ _ _ _ _ _ HY HX Hgt)).
        reflexivity.
Qed.

Lemma shl_align_fst (m : positive) (e e' : Z) :
  e' <= e -> Zpos (fst (shl_align m e e')) = Zpos m * 2 ^ (e - e').
Proof.
  intros He. unfold shl_align.
  destruct (e' - e) as [| d | d] eqn:Hd; cbn [fst].
  - replace (e - e') with 0 by lia. lia.
  - lia.
  - replace (e - e') with (Zpos d) by lia.
    rewrite <- Z.shiftl_mul_pow2 by lia. cbn [Z.shiftl].
    apply (Pos.iter_swap_gen _ _ Zpos xO (Z.mul 2)). reflexivity.
Qed.

Lemma cond_Zopp_mul (s : bool) (a b : Z) :
  cond_Zopp s (a * b) = cond_Zopp s a * b.
Proof. destruct s; cbn [cond_Zopp]; lia. Qed.

Lemma magnitude_split (m : positive) (e ez : Z) :
  -1074 <= ez <= e ->
  magnitude m e = Zpos (fst (shl_align m e ez)) * 2 ^ (ez + 1074).
Proof.
  intros He. rewrite shl_align_fst by lia. unfold magnitude.
  rewrite <- Z.mul_assoc, <- Z.pow_add_r by lia.
  f_equal. f_equal. lia.
Qed.

(** The sign of a difference is the order of the keys. *)
Lemma SFsub_key (X Y : spec_float) :
  valid_binary X = true -> valid_binary Y = true ->
  X <> S754_nan -> Y <> S754_nan ->
  SFltb (SF64sub X Y) (S754_zero false) = (key X <? key Y).
Proof.
  intros HX HY NX NY. unfold SF64sub.
  destruct X as [sx | sx | | sx mx ex]; try congruence;
    destruct Y as [sy | sy | | sy my ey]; try congruence;
    try pose proof (magnitude_bounds sx mx ex HX) as Bx;
    try pose proof (magnitude_bounds sy my ey HY) as By;
    cbn [SFsub key].
  - destruct sx, sy; reflexivity.
  - destruct sy; reflexivity.
  - destruct sy; cbn [cond_Zopp negb]; symmetry;
      [apply Z.ltb_ge | apply Z.ltb_lt]; cbn [key cond_Zopp]; lia.
  - destruct sx; reflexivity.
  - destruct sx, sy; reflexivity.
  - destruct sx; cbn [cond_Zopp]; symmetry;
      [apply Z.ltb_lt | apply Z.ltb_ge];
      destruct sy; cbn [cond_Zopp]; lia.
  - destruct sx; cbn [cond_Zopp]; symmetry;
      [apply Z.ltb_lt | apply Z.ltb_ge]; cbn [key cond_Zopp]; lia.
  - destruct sy; cbn [cond_Zopp negb]; symmetry;
      [apply Z.ltb_ge | apply Z.ltb_lt];
      destruct sx; cbn [cond_Zopp]; lia.
  - destruct (valid_finite _ _ _ HX) as (Hex & _).
    destruct (valid_finite _ _ _ HY) as (Hey & _).
    cbv zeta. rewrite binary_normalize_ltb_zero by lia.
    rewrite (magnitude_split mx ex (Z.min ex ey)) by lia.
    rewrite (magnitude_split my ey (Z.min ex ey)) by lia.
    rewrite !cond_Zopp_mul.
    assert (HC : 0 < 2 ^ (Z.min ex ey + 1074))
      by (apply Z.pow_pos_nonneg; lia).
    revert HC. generalize (2 ^ (Z.min ex ey + 1074)).
    generalize (cond_Zopp sx (Zpos (fst (shl_align mx ex (Z.min ex ey))))).
    generalize (cond_Zopp sy (Zpos (fst (shl_align my ey (Z.min ex ey))))).
    intros b a C HC.
    destruct (Z.ltb_spec (a - b) 0) as [Hlt | Hge]; symmetry;
      [apply Z.ltb_lt | apply Z.ltb_ge]; nia.
Qed.

Lemma SFltb_key (X Y : spec_float) :
  valid_binary X = true -> valid_binary Y = true ->
  X <> S754_nan -> Y <> S754_nan ->
  SFltb X Y = (key X <? key Y).
Proof.
  intros HX HY NX NY. unfold SFltb.
  rewrite (SFcompare_key X Y HX HY NX NY). reflexivity.
Qed.

Lemma ltb_key (x y : float) :
  PrimFloat.is_nan x = false -> PrimFloat.is_nan y = false ->
  PrimFloat.ltb x y = (float_key x <? float_key y).
Proof.
  intros Hx Hy. rewrite FloatAxioms.ltb_spec.
  apply SFltb_key; auto using Prim2SF_valid, not_nan_spec.
Qed.

(** For doubles that are not NaN, [x - y < 0] says [x < y]. *)
Lemma sub_negative_key (x y : float) :
  PrimFloat.is_nan x = false -> PrimFloat.is_nan y = false ->
  PrimFloat.ltb (PrimFloat.sub x y) 0 = (float_key x <? float_key y).
Proof.
  intros Hx Hy. rewrite FloatAxioms.ltb_spec, FloatAxioms.sub_spec.
  change (Prim2SF 0) with (S754_zero false).
  apply SFsub_key; auto using Prim2SF_valid, not_nan_spec.
Qed.

Lemma leb_key (x y : float) :
  not_NaN x -> not_NaN y ->
  PrimFloat.leb x y = (float_key x <=? float_key y).
Proof.
  intros Hx Hy. rewrite FloatAxioms.leb_spec. unfold SFleb, float_key.
  rewrite SFcompare_key by auto using Prim2SF_valid, not_nan_spec.
  unfold Z.leb. destruct (key (Prim2SF x) ?= key (Prim2SF y)); reflexivity.
Qed.

Lemma eqb_key (x y : float) :
  not_NaN x -> not_NaN y ->
  PrimFloat.eqb x y = (float_key x =? float_key y).
Proof.
  intros Hx Hy. rewrite FloatAxioms.eqb_spec. unfold SFeqb, float_key.
  rewrite SFcompare_key by auto using Prim2SF_valid, not_nan_spec.
  rewrite Z.eqb_compare.
  destruct (key (Prim2SF x) ?= key (Prim2SF y)); reflexivity.
Qed.

Lemma eqb_nan_r (x q : float) :
  PrimFloat.is_nan q = true -> PrimFloat.eqb x q = false.
Proof.
  unfold PrimFloat.is_nan. rewrite !FloatAxioms.eqb_spec. unfold SFeqb.
  intros Hq. destruct (Prim2SF q) as [s | s | | s m e] eqn:HQ.
  - discriminate Hq.
  - destruct s; discriminate Hq.
  - destruct (Prim2SF x); reflexivity.
  - exfalso. revert Hq. cbn [SFcompare].
    destruct s; rewrite Z.compare_refl, Pos.compare_cont_refl; discriminate.
Qed.

Lemma spec_not_nan (x : float) : Prim2SF x <> S754_nan -> not_NaN x.
Proof.
  intros Hx. unfold not_NaN, PrimFloat.is_nan.
  rewrite FloatAxioms.eqb_spec. unfold SFeqb.
  rewrite SFcompare_key by auto using Prim2SF_valid.
  rewrite Z.compare_refl. reflexivity.
Qed.

(** *** Quotients and differences that are not NaN *)

Lemma shr_1_nonneg (mrs : shr_record) :
  0 <= shr_m mrs -> 0 <= shr_m (shr_1 mrs).
Proof.
  destruct mrs as [m r s]. cbn [shr_m shr_1].
  destruct m as [| p | p]; [| destruct p | destruct p]; cbn [shr_m]; lia.
Qed.

Lemma iter_shr_1_nonneg (p : positive) (mrs : shr_record) :
  0 <= shr_m mrs -> 0 <= shr_m (iter_pos shr_1 p mrs).
Proof.
  revert mrs. induction p as [p IH | p IH |]; intros mrs Hm; cbn [iter_pos].
  - apply IH, IH, shr_1_nonneg, Hm.
  - apply IH, IH, Hm.
  - apply shr_1_nonneg, Hm.
Qed.

Lemma shr_fexp_nonneg (m e : Z) (l : location) :
  0 <= m -> 0 <= shr_m (fst (shr_fexp prec emax m e l)).
Proof.
  intros Hm. unfold shr_fexp, shr.
  assert (Hr : 0 <= shr_m (shr_record_of_loc m l))
    by (destruct l as [| [ | | ]]; exact Hm).
  destruct (fexp prec emax (Zdigits2 m + e) - e); cbn [fst];
    [exact Hr | apply iter_shr_1_nonneg, Hr | exact Hr].
Qed.

Lemma round_nearest_even_nonneg (m : Z) (l : location) :
  0 <= m -> 0 <= round_nearest_even m l.
Proof.
  intros Hm. destruct l as [| [ | | ]]; cbn [round_nearest_even];
    try destruct (Z.even m); lia.
Qed.

Lemma binary_round_aux_not_nan (s : bool) (m e : Z) (l : location) :
  0 <= m -> binary_round_aux prec emax s m e l <> S754_nan.
Proof.
  intros Hm. unfold binary_round_aux.
  pose proof (shr_fexp_nonneg m e l Hm) as H1.
  destruct (shr_fexp prec emax m e l) as [mrs1 e1]. cbn [fst] in H1.
  pose proof (shr_fexp_nonneg _ e1 loc_Exact
                (round_nearest_even_nonneg _ (loc_of_shr_record mrs1) H1))
    as H2.
  destruct (shr_fexp prec emax
              (round_nearest_even (shr_m mrs1) (loc_of_shr_record mrs1))
              e1 loc_Exact) as [mrs2 e2].
  cbn [fst] in H2.
  destruct (shr_m mrs2); [discriminate | | lia].
  destruct (e2 <=? emax - prec); discriminate.
Qed.

Lemma SFdiv_not_nan (X : spec_float) (s : bool) (m : positive) (e : Z) :
  X <> S754_nan -> SF64div X (S754_finite s m e) <> S754_nan.
Proof.
  intros HX. unfold SF64div.
  destruct X as [sx | sx | | sx mx ex]; cbn [SFdiv]; try discriminate;
    [congruence |].
  unfold SFdiv_core_binary.
  set (m' := match ex - e - _ with Zpos _ => _ | Z0 => _ | Zneg _ => _ end).
  assert (Hm' : 0 <= m').
  { subst m'. destruct (ex - e - _) eqn:Hs; try lia.
    apply Z.shiftl_nonneg. lia. }
  pose proof (Z.div_pos m' (Zpos m) Hm' ltac:(lia)) as Hq.
  unfold Z.div in Hq. destruct (Z.div_eucl m' (Zpos m)) as [q r].
  apply binary_round_aux_not_nan, Hq.
Qed.

Lemma signed_not_nan (s : bool) (X : spec_float) :
  signed s X -> X <> S754_nan.
Proof. intros [(m & e & ->) | ->]; discriminate. Qed.

Lemma SFsub_not_nan (s : bool) (m : positive) (e : Z) (Y : spec_float) :
  valid_binary (S754_finite s m e) = true -> valid_binary Y = true ->
  Y <> S754_nan -> SF64sub (S754_finite s m e) Y <> S754_nan.
Proof.
  intros HX HY NY. unfold SF64sub.
  destruct Y as [sy | sy | | sy my ey]; cbn [SFsub]; try discriminate;
    [congruence |].
  destruct (valid_finite _ _ _ HX) as (Hex & _).
  destruct (valid_finite _ _ _ HY) as (Hey & _).
  cbv zeta.
  destruct (cond_Zopp s (Zpos (fst (shl_align m e (Z.min e ey))))
            - cond_Zopp sy (Zpos (fst (shl_align my ey (Z.min e ey)))))
    as [| d | d]; cbn [binary_normalize]; [discriminate | |];
    eapply signed_not_nan, binary_round_signed; lia.
Qed.

Lemma div_not_nan (x c : float) :
  not_NaN x -> finite_nonzero c -> not_NaN (PrimFloat.div x c).
Proof.
  intros Hx Hc. apply spec_not_nan. rewrite FloatAxioms.div_spec.
  unfold finite_nonzero in Hc.
  destruct (Prim2SF c) as [| | | s m e]; try contradiction.
  apply SFdiv_not_nan, not_nan_spec, Hx.
Qed.

Lemma sub_not_nan (c y : float) :
  finite_nonzero c -> not_NaN y -> not_NaN (PrimFloat.sub c y).
Proof.
  intros Hc Hy. apply spec_not_nan. rewrite FloatAxioms.sub_spec.
  unfold finite_nonzero in Hc. pose proof (Prim2SF_valid c) as Hv.
  destruct (Prim2SF c) as [| | | s m e]; try contradiction.
  apply SFsub_not_nan; auto using Prim2SF_valid, not_nan_spec.
Qed.

(** ** Ranking the metrics *)

Lemma insert_perm {num : Type} `{Number num} {A : Type}
    (comparefn : A -> A -> num) (x : A) (l : list A) :
  Permutation (insert comparefn x l) (x :: l).
Proof.
  induction l as [| y l IH]; cbn [insert].
  - apply Permutation_refl.
  - destruct (nlt (comparefn x y) (lit 0)).
    + apply Permutation_refl.
    + apply Permutation_trans with (y :: x :: l).
      * apply perm_skip, IH.
      * apply perm_swap.
Qed.

Lemma fold_insert_perm {num : Type} `{Number num} {A : Type}
    (comparefn : A -> A -> num) (l acc : list A) :
  Permutation (fold_left (fun sorted x => insert comparefn x sorted) l acc)
    (acc ++ l)%list.
Proof.
  revert acc. induction l as [| x l IH]; intros acc; cbn [fold_left].
  - rewrite app_nil_r. apply Permutation_refl.
  - eapply Permutation_trans; [apply IH |].
    apply Permutation_trans with ((x :: acc) ++ l)%list.
    + apply Permutation_app_tail, insert_perm.
    + apply Permutation_middle.
Qed.

Lemma sort_perm {num : Type} `{Number num} {A : Type}
    (comparefn : A -> A -> num) (l : list A) :
  Permutation (sort comparefn l) l.
Proof. apply (fold_insert_perm comparefn l []). Qed.

Lemma sort_length {num : Type} `{Number num} {A : Type}
    (comparefn : A -> A -> num) (l : list A) :
  length (sort comparefn l) = length l.
Proof. apply Permutation_length, sort_perm. Qed.

(** The list of recommendations has five entries, in every arithmetic. *)
Lemma priorityRecommendations_length {num : Type} `{Number num}
    pm cm em ecm :
  length (priorityRecommendations (allMetrics pm cm em ecm)) = 5%nat.
Proof.
  unfold priorityRecommendations, slice.
  rewrite length_map, length_firstn, length_skipn, sort_length.
  reflexivity.
Qed.

(** *** A comparator that follows an order ranks the metrics

    [comparable] singles out the numbers that the comparator orders, [rank]
    places them on the rational line and [before_rank] says that
    [a - b < 0] holds exactly when [a] ranks below [b]. *)

Section Ranked.

Context {num : Type} `{Number num}.
Variable comparable : num -> Prop.
Variable rank : num -> Q.
Hypothesis before_rank :
  forall a b, comparable a -> comparable b ->
              (nlt (nsub a b) (lit 0) = true <-> (rank a < rank b)%Q).

Lemma before_true (x y : Metric) :
  scored comparable x -> scored comparable y ->
  nlt (byScore x y) (lit 0) = true -> (rank (score x) < rank (score y))%Q.
Proof. intros Hx Hy Hc. apply (before_rank _ _ Hx Hy), Hc. Qed.

Lemma before_false (x y : Metric) :
  scored comparable x -> scored comparable y ->
  nlt (byScore x y) (lit 0) = false -> (rank (score y) <= rank (score x))%Q.
Proof.
  intros Hx Hy Hc.
  destruct (Qlt_le_dec (rank (score x)) (rank (score y))) as [Hlt | Hge];
    [| exact Hge].
  apply (before_rank _ _ Hx Hy) in Hlt. unfold byScore in Hc. congruence.
Qed.

Lemma score_le_trans (a b c : Metric) :
  score_le rank a b -> score_le rank b c -> score_le rank a c.
Proof. unfold score_le. intros; lra. Qed.

Lemma insert_sorted (x : Metric) (l : list Metric) :
  scored comparable x -> Forall (scored comparable) l ->
  StronglySorted (score_le rank) l ->
  StronglySorted (score_le rank) (insert byScore x l).
Proof.
  intros Hx Hl Hs. induction l as [| y l IH]; cbn [insert].
  - repeat constructor.
  - apply StronglySorted_inv in Hs. destruct Hs as [Hs Hy].
    inversion Hl as [| y' l' Hb Hl']; subst.
    destruct (nlt (byScore x y) (lit 0)) eqn:Hc.
    + assert (Hxy : score_le rank x y)
        by (apply Qlt_le_weak, (before_true x y Hx Hb Hc)).
      constructor; [constructor; assumption |].
      constructor; [exact Hxy |].
      eapply Forall_impl; [| exact Hy].
      intros z Hz. exact (score_le_trans x y z Hxy Hz).
    + assert (Hyx : score_le rank y x)
        by exact (before_false x y Hx Hb Hc).
      constructor; [apply IH; assumption |].
      apply (Permutation_Forall (Permutation_sym (insert_perm byScore x l))).
      constructor; assumption.
Qed.

(** Stability: among the metrics of one score, insertion puts [x] last. *)
Lemma insert_stable (q : Q) (x : Metric) (l : list Metric) :
  scored comparable x -> Forall (scored comparable) l ->
  StronglySorted (score_le rank) l ->
  filter (has_score rank q) (insert byScore x l)
  = filter (has_score rank q) (l ++ [x])%list.
Proof.
  intros Hx Hl Hs. induction l as [| y l IH]; cbn [insert].
  - reflexivity.
  - apply StronglySorted_inv in Hs. destruct Hs as [Hs Hy].
    inversion Hl as [| y' l' Hb Hl']; subst.
    destruct (nlt (byScore x y) (lit 0)) eqn:Hc.
    + pose proof (before_true x y Hx Hb Hc) as Hab.
      rewrite filter_app. cbn [filter].
      destruct (has_score rank q x) eqn:Hq;
        [| rewrite app_nil_r; reflexivity].
      assert (Hnone : forall z, In z (y :: l) -> has_score rank q z = false).
      { unfold has_score in Hq. apply Qeq_bool_iff in Hq.
        intros z Hz. unfold has_score.
        apply not_true_is_false. intros Hqb. apply Qeq_bool_iff in Hqb.
        destruct Hz as [<- | Hz]; [lra |].
        rewrite Forall_forall in Hy. specialize (Hy z Hz).
        unfold score_le in Hy. lra. }
      assert (Hnil : filter (has_score rank q) (y :: l) = []).
      { clear - Hnone. induction (y :: l) as [| z t IHt]; [reflexivity |].
        cbn [filter]. rewrite (Hnone z (or_introl eq_refl)).
        apply IHt. intros w Hw. apply Hnone. right; exact Hw. }
      change (filter (has_score rank q) (y :: l)) with
        (if has_score rank q y then y :: filter (has_score rank q) l
         else filter (has_score rank q) l) in Hnil.
      rewrite Hnil. reflexivity.
    + cbn [filter app]. rewrite (IH Hl' Hs). reflexivity.
Qed.

Lemma fold_insert_sorted (q : Q) (l acc : list Metric) :
  Forall (scored comparable) acc -> Forall (scored comparable) l ->
  StronglySorted (score_le rank) acc ->
  let ranked :=
    fold_left (fun sorted x => insert byScore x sorted) l acc in
  StronglySorted (score_le rank) ranked /\
  filter (has_score rank q) ranked
  = filter (has_score rank q) (acc ++ l)%list.
Proof.
  revert acc. induction l as [| x l IH]; intros acc Hacc Hl Hs;
    cbn [fold_left].
  - rewrite app_nil_r. split; [exact Hs | reflexivity].
  - inversion Hl as [| x' l' Hx Hl']; subst.
    destruct (IH (insert byScore x acc)) as [Hsorted Hstable].
    + apply (Permutation_Forall (Permutation_sym (insert_perm byScore x acc))).
      constructor; assumption.
    + exact Hl'.
    + apply insert_sorted; assumption.
    + split; [exact Hsorted |].
      rewrite Hstable, filter_app, (insert_stable q x acc Hx Hacc Hs).
      change (acc ++ x :: l)%list with (acc ++ ([x] ++ l))%list.
      rewrite !filter_app, app_assoc. reflexivity.
Qed.

Lemma sort_sorted (l : list Metric) :
  Forall (scored comparable) l ->
  StronglySorted (score_le rank) (sort byScore l).
Proof.
  intros Hl.
  apply (fold_insert_sorted 0 l []); [constructor | exact Hl | constructor].
Qed.

Lemma sort_stable (q : Q) (l : list Metric) :
  Forall (scored comparable) l ->
  filter (has_score rank q) (sort byScore l) = filter (has_score rank q) l.
Proof.
  intros Hl.
  apply (fold_insert_sorted q l []); [constructor | exact Hl | constructor].
Qed.

End Ranked.

(** *** The two arithmetics follow their order *)

Lemma exact_before_rank (a b : Exact.num) :
  is_number a -> is_number b ->
  nlt (nsub a b) (lit 0) = true <-> (exact_rank a < exact_rank b)%Q.
Proof.
  intros [x ->] [y ->]. cbn.
  destruct (Qle_bool 0 (x - y)) eqn:Hle; cbn [negb].
  - apply Qle_bool_iff in Hle. split; [discriminate | intros; lra].
  - split; [intros _ | reflexivity].
    destruct (Qlt_le_dec x y) as [Hlt | Hge]; [exact Hlt |].
    assert (Hc : Qle_bool 0 (x - y) = true) by (apply Qle_bool_iff; lra).
    congruence.
Qed.

Lemma binary64_before_rank (a b : Binary64.num) :
  not_NaN a -> not_NaN b ->
  nlt (nsub a b) (lit 0) = true <-> (binary64_rank a < binary64_rank b)%Q.
Proof.
  intros Ha Hb. cbn [nlt nsub Binary64Number].
  change (lit (num := Binary64.num) 0) with 0%float.
  rewrite (sub_negative_key a b Ha Hb). unfold binary64_rank.
  rewrite <- Zlt_Qlt. apply Z.ltb_lt.
Qed.

Lemma float_le_rank (a b : @Metric Binary64.num) :
  scored not_NaN a -> scored not_NaN b ->
  score_le binary64_rank a b -> float_le a b.
Proof.
  unfold scored, score_le, float_le, binary64_rank. intros Ha Hb Hle.
  rewrite (leb_key _ _ Ha Hb). apply Z.leb_le. rewrite Zle_Qle. exact Hle.
Qed.

Lemma float_same_rank (q : Binary64.num) (m : @Metric Binary64.num) :
  not_NaN q -> scored not_NaN m ->
  float_same q m = has_score binary64_rank (binary64_rank q) m.
Proof.
  unfold scored, float_same, has_score, binary64_rank. intros Hq Hm.
  rewrite (eqb_key _ _ Hm Hq).
  destruct (Z.eqb_spec (float_key (score m)) (float_key q)) as [-> | Hne].
  - symmetry. apply Qeq_bool_iff. reflexivity.
  - symmetry. apply not_true_is_false. intros Heq.
    apply Qeq_bool_iff in Heq. apply Hne.
    unfold Qeq in Heq. cbn [inject_Z Qnum Qden] in Heq. lia.
Qed.

(** *** Tables of numbers *)

Ltac numbers :=
  repeat match goal with
    | H : _ /\ _ |- _ => destruct H
    | H : is_number _ |- _ => destruct H as [? H]; cbn in H; subst
    end.

Ltac not_nan :=
  repeat first
    [ assumption
    | apply div_not_nan
    | apply sub_not_nan
    | (vm_compute; exact I) ].

Lemma allMetrics_numbers pm cm em ecm :
  numeric_pipeline is_number pm -> numeric_conversion is_number cm ->
  numeric_expansion is_number em -> numeric_economics is_number ecm ->
  Forall (scored is_number) (allMetrics pm cm em ecm).
Proof.
  unfold numeric_pipeline, numeric_conversion, numeric_expansion,
    numeric_economics.
  destruct pm, cm, em, ecm. intros Hp Hc He Hec. numbers.
  unfold allMetrics.
  repeat (apply Forall_cons; [eexists; cbn; reflexivity |]).
  apply Forall_nil.
Qed.

Lemma allMetrics_not_NaN pm cm em ecm :
  numeric_pipeline not_NaN pm -> numeric_conversion not_NaN cm ->
  numeric_expansion not_NaN em -> numeric_economics not_NaN ecm ->
  Forall (scored not_NaN) (allMetrics pm cm em ecm).
Proof.
  unfold numeric_pipeline, numeric_conversion, numeric_expansion,
    numeric_economics.
  intros Hp Hc He Hec.
  repeat match goal with H : _ /\ _ |- _ => destruct H end.
  unfold allMetrics.
  repeat (apply Forall_cons;
          [unfold scored; cbn [score ndiv nsub Binary64Number]; not_nan |]).
  apply Forall_nil.
Qed.

Lemma pipelineScore_number pm :
  numeric_pipeline is_number pm -> is_number (pipelineScore pm).
Proof.
  unfold numeric_pipeline. destruct pm. intros Hp. numbers.
  eexists. cbn. reflexivity.
Qed.

Lemma conversionScore_number cm :
  numeric_conversion is_number cm -> is_number (conversionScore cm).
Proof.
  unfold numeric_conversion. destruct cm. intros Hc. numbers.
  eexists. cbn. reflexivity.
Qed.

Lemma expansionScore_number em :
  numeric_expansion is_number em -> is_number (expansionScore em).
Proof.
  unfold numeric_expansion. destruct em. intros He. numbers.
  eexists. cbn. reflexivity.
Qed.

Lemma economicsScore_number ecm :
  numeric_economics is_number ecm -> is_number (economicsScore ecm).
Proof.
  unfold numeric_economics. destruct ecm. intros Hec. numbers.
  eexists. cbn. reflexivity.
Qed.

Ltac sample_entries Hk tac :=
  cbn [own sampleQuestions
    pipeline_health_maps_to_metrics sales_conversion_maps_to_metrics
    customer_success_maps_to_metrics
    economics_and_efficiency_maps_to_metrics] in Hk;
  repeat match type of Hk with
    | (if ?b then _ else _) = Some _ =>
        destruct b; [injection Hk as <-; repeat split; tac |]
    end;
  discriminate Hk.

Lemma sample_numeric : numeric is_number sampleQuestions.
Proof.
  unfold numeric. split; [| split; [| split]]; intros k m Hk;
    sample_entries Hk ltac:(eexists; reflexivity).
Defined.

Lemma sample_not_NaN : numeric not_NaN sampleQuestions.
Proof.
  unfold numeric. split; [| split; [| split]]; intros k m Hk;
    sample_entries Hk ltac:(vm_compute; reflexivity).
Defined.

Lemma StronglySorted_weaken {A : Type} (P : A -> Prop) (R R' : A -> A -> Prop)
    (l : list A) :
  (forall a b, P a -> P b -> R a b -> R' a b) ->
  Forall P l -> StronglySorted R l -> StronglySorted R' l.
Proof.
  intros HR Hl Hs. induction Hs as [| a l Hs IH Ha]; [constructor |].
  inversion Hl as [| a' l' Pa Pl]; subst.
  constructor; [apply IH, Pl |].
  rewrite Forall_forall in *. intros b Hb. apply HR; auto.
Qed.

Lemma filter_none {A : Type} (f : A -> bool) (l : list A) :
  (forall a, f a = false) -> filter f l = [].
Proof.
  intros Hf. induction l as [| a l IH]; [reflexivity |].
  cbn [filter]. rewrite Hf. exact IH.
Qed.

(** In exact arithmetic: ascending order of the rational scores. *)
Lemma ranked_exact pm cm em ecm :
  numeric_pipeline is_number pm -> numeric_conversion is_number cm ->
  numeric_expansion is_number em -> numeric_economics is_number ecm ->
  let metrics := allMetrics pm cm em ecm in
  let ranked := sort byScore metrics in
  Permutation ranked metrics /\
  StronglySorted (score_le exact_rank) ranked /\
  forall q,
    filter (has_score exact_rank q) ranked
    = filter (has_score exact_rank q) metrics.
Proof.
  intros Hp Hc He Hec metrics ranked.
  pose proof (allMetrics_numbers pm cm em ecm Hp Hc He Hec) as Hscored.
  split; [apply sort_perm |].
  split; [apply (sort_sorted is_number exact_rank exact_before_rank), Hscored |].
  intros q.
  apply (sort_stable is_number exact_rank exact_before_rank), Hscored.
Qed.

(** As doubles: ascending in the order [<=] of doubles, and stable for the
    equality [==] of doubles. *)
Lemma ranked_binary64 pm cm em ecm :
  numeric_pipeline not_NaN pm -> numeric_conversion not_NaN cm ->
  numeric_expansion not_NaN em -> numeric_economics not_NaN ecm ->
  let metrics := allMetrics pm cm em ecm in
  let ranked := sort byScore metrics in
  Permutation ranked metrics /\
  StronglySorted float_le ranked /\
  forall q, filter (float_same q) ranked = filter (float_same q) metrics.
Proof.
  intros Hp Hc He Hec metrics ranked.
  pose proof (allMetrics_not_NaN pm cm em ecm Hp Hc He Hec) as Hscored.
  fold metrics in Hscored.
  assert (Hperm : Permutation ranked metrics) by apply sort_perm.
  assert (Hranked : Forall (scored not_NaN) ranked)
    by exact (Permutation_Forall (Permutation_sym Hperm) Hscored).
  split; [exact Hperm |]. split.
  - apply (StronglySorted_weaken (scored not_NaN) (score_le binary64_rank));
      [exact float_le_rank | exact Hranked |].
    apply (sort_sorted not_NaN binary64_rank binary64_before_rank), Hscored.
  - intros q. destruct (PrimFloat.is_nan q) eqn:Hq.
    + rewrite !filter_none; [reflexivity | |];
        intros m; apply eqb_nan_r, Hq.
    + rewrite Forall_forall in Hscored, Hranked.
      rewrite (filter_ext_in (float_same q)
                 (has_score binary64_rank (binary64_rank q)) ranked)
        by (intros m Hm; apply float_same_rank; [exact Hq | auto]).
      rewrite (filter_ext_in (float_same q)
                 (has_score binary64_rank (binary64_rank q)) metrics)
        by (intros m Hm; apply float_same_rank; [exact Hq | auto]).
      apply (sort_stable not_NaN binary64_rank binary64_before_rank).
      rewrite Forall_forall. exact Hscored.
Qed.

(** C3.  For ratings from 1 to 5 (and a table without NaN), the call returns
    exactly five recommendations.  They are the first five of [ranked], which
    is the list of the nine metrics rearranged in ascending order of score;
    metrics of equal score keep the order they have in the list of nine.
    This holds of the doubles the server computes, and of the rational scores
    of exact arithmetic as well. *)
Theorem priority_recommendations_ranked
    (questions : @Questions Binary64.num) (p c e ec : Z)
    (topChallenge : option string) :
  complete questions -> numeric not_NaN questions ->
  valid_rating p -> valid_rating c -> valid_rating e -> valid_rating ec ->
  exists r pm cm em ecm ranked,
    calculateScores questions (answers_of p c e ec topChallenge) = Return r /\
    own (pipeline_health_maps_to_metrics questions) (toString p) = Some pm /\
    own (sales_conversion_maps_to_metrics questions) (toString c) = Some cm /\
    own (customer_success_maps_to_metrics questions) (toString e) = Some em /\
    own (economics_and_efficiency_maps_to_metrics questions) (toString ec)
      = Some ecm /\
    length (allMetrics pm cm em ecm) = 9%nat /\
    Permutation ranked (allMetrics pm cm em ecm) /\
    StronglySorted float_le ranked /\
    (forall q,
       filter (float_same q) ranked
       = filter (float_same q) (allMetrics pm cm em ecm)) /\
    priority_recommendations r = map recommend (firstn 5 ranked) /\
    length (priority_recommendations r) = 5%nat.
Proof.
  intros Hq (Np & Nc & Ne & Nec) Vp Vc Ve Vec.
  destruct (calculateScores_complete questions p c e ec topChallenge
              Hq Vp Vc Ve Vec)
    as (pm & cm & em & ecm & Hpm & Hcm & Hem & Hecm & Hr).
  destruct (ranked_binary64 pm cm em ecm (Np _ _ Hpm) (Nc _ _ Hcm)
              (Ne _ _ Hem) (Nec _ _ Hecm)) as (Hperm & Hsorted & Hstable).
  eexists. exists pm, cm, em, ecm, (sort byScore (allMetrics pm cm em ecm)).
  split; [exact Hr |]. repeat (split; [assumption |]).
  split; [reflexivity |].
  split; [exact Hperm |]. split; [exact Hsorted |]. split; [exact Hstable |].
  split; [reflexivity |].
  apply priorityRecommendations_length.
Qed.

Lemma priority_recommendations_ranked_witness :
  exists r pm cm em ecm ranked,
    calculateScores (num := Binary64.num) sampleQuestions
      (answers_of 1 2 3 4 (Some "other")) = Return r /\
    own (pipeline_health_maps_to_metrics sampleQuestions) (toString 1)
      = Some pm /\
    own (sales_conversion_maps_to_metrics sampleQuestions) (toString 2)
      = Some cm /\
    own (customer_success_maps_to_metrics sampleQuestions) (toString 3)
      = Some em /\
    own (economics_and_efficiency_maps_to_metrics sampleQuestions)
      (toString 4) = Some ecm /\
    length (allMetrics pm cm em ecm) = 9%nat /\
    Permutation ranked (allMetrics pm cm em ecm) /\
    StronglySorted float_le ranked /\
    (forall q,
       filter (float_same q) ranked
       = filter (float_same q) (allMetrics pm cm em ecm)) /\
    priority_recommendations r = map recommend (firstn 5 ranked) /\
    length (priority_recommendations r) = 5%nat.
Proof.
  apply (priority_recommendations_ranked sampleQuestions 1 2 3 4
           (Some "other")).
  - apply sample_complete.
  - apply sample_not_NaN.
  - unfold valid_rating; lia.
  - unfold valid_rating; lia.
  - unfold valid_rating; lia.
  - unfold valid_rating; lia.
Defined.

(** ** Rounding to an integer

    [Math.round] of a finite double is the integer [floor(x + 1/2)] as a
    double.  On the integer keys, where a double [x] has the key
    [x * 2^1074], it takes the key [k] to [((k + 2^1073) / 2^1074) * 2^1074]. *)

Lemma digits2_unique (m : positive) (k : Z) :
  2 ^ (k - 1) <= Zpos m < 2 ^ k -> 0 < k -> Zpos (digits2_pos m) = k.
Proof.
  intros [Hlo Hhi] Hk. pose proof (digits2_bounds m) as [Dlo Dhi].
  set (d := Zpos (digits2_pos m)) in *.
  assert (Hd : 0 < d) by (unfold d; lia).
  destruct (Z.lt_trichotomy d k) as [Hlt | [Heq | Hgt]]; [| exact Heq |].
  - exfalso.
    assert (2 ^ d <= 2 ^ (k - 1)) by (apply Z.pow_le_mono_r; lia). lia.
  - exfalso.
    assert (2 ^ k <= 2 ^ (d - 1)) by (apply Z.pow_le_mono_r; lia). lia.
Qed.

Lemma binary_round_aux_exact (s : bool) (m : positive) (e : Z) :
  Zpos (digits2_pos m) = 53 -> -1074 <= e <= 971 ->
  binary_round_aux prec emax s (Zpos m) e loc_Exact = S754_finite s m e.
Proof.
  intros Hd He.
  assert (Hshr : shr_fexp prec emax (Zpos m) e loc_Exact
                 = (Build_shr_record (Zpos m) false false, e)).
  { unfold shr_fexp, shr. cbn [shr_record_of_loc Zdigits2].
    rewrite fexp_eq, Hd.
    replace (Z.max (53 + e - 53) (-1074) - e) with 0 by lia.
    reflexivity. }
  unfold binary_round_aux. rewrite Hshr.
  cbn [shr_m loc_of_shr_record round_nearest_even]. rewrite Hshr.
  cbn [shr_m].
  replace (e <=? emax - prec) with true; [reflexivity |].
  symmetry. apply Z.leb_le. unfold emax, prec. lia.
Qed.

Lemma shl_align_snd (m : positive) (e e' : Z) :
  e' <= e -> snd (shl_align m e e') = e'.
Proof.
  intros He. unfold shl_align.
  destruct (e' - e) as [| p | p] eqn:Hn; cbn [snd]; lia.
Qed.

(** An integer below [2^53] is a double, and [of_uint63] returns it. *)
Lemma of_uint63_exact (n : Z) :
  0 < n < 2 ^ 53 ->
  exists m e,
    Prim2SF (PrimFloat.of_uint63 (Uint63.of_Z n)) = S754_finite false m e /\
    magnitude m e = n * 2 ^ 1074.
Proof.
  intros Hn. rewrite FloatAxioms.of_uint63_spec, Uint63.of_Z_spec.
  rewrite Z.mod_small
    by (split; [lia |];
        apply Z.lt_trans with (2 ^ 53); [lia | reflexivity]).
  destruct n as [| p | p]; try lia.
  cbn [binary_normalize]. unfold binary_round.
  pose proof (digits2_bounds p) as [Dlo Dhi].
  set (d := Zpos (digits2_pos p)) in *.
  assert (Hd : 0 < d <= 53).
  { split; [unfold d; lia |].
    destruct (Z.le_gt_cases d 53) as [H | H]; [exact H |]. exfalso.
    assert (2 ^ 53 <= 2 ^ (d - 1)) by (apply Z.pow_le_mono_r; lia). lia. }
  rewrite fexp_eq. replace (Z.max (d + 0 - 53) (-1074)) with (d - 53) by lia.
  pose proof (shl_align_fst p 0 (d - 53) ltac:(lia)) as Hfst.
  pose proof (shl_align_snd p 0 (d - 53) ltac:(lia)) as Hsnd.
  destruct (shl_align p 0 (d - 53)) as [mz ez]. cbn [fst snd] in Hfst, Hsnd.
  subst ez. replace (0 - (d - 53)) with (53 - d) in Hfst by lia.
  assert (Hmz : 2 ^ 52 <= Zpos mz < 2 ^ 53).
  { assert (E52 : 2 ^ 52 = 2 ^ (d - 1) * 2 ^ (53 - d))
      by (rewrite <- Z.pow_add_r by lia; f_equal; lia).
    assert (E53 : 2 ^ 53 = 2 ^ d * 2 ^ (53 - d))
      by (rewrite <- Z.pow_add_r by lia; f_equal; lia).
    assert (HA : 0 < 2 ^ (53 - d)) by (apply Z.pow_pos_nonneg; lia).
    rewrite Hfst, E52, E53.
    split; [apply Z.mul_le_mono_nonneg_r; lia
           | apply Z.mul_lt_mono_pos_r; lia]. }
  rewrite binary_round_aux_exact;
    [| apply digits2_unique; [exact Hmz | lia] | lia].
  exists mz, (d - 53). split; [reflexivity |].
  unfold magnitude. rewrite Hfst, <- Z.mul_assoc, <- Z.pow_add_r by lia.
  f_equal. f_equal. lia.
Qed.

Lemma Qfloor_half (q : Q) (k h : Z) :
  0 < h -> (q * inject_Z (2 * h) == inject_Z k)%Q ->
  Qfloor (q + (1 # 2))%Q = (k + h) / (2 * h).
Proof.
  intros Hh Hq. rewrite Zdiv_Qdiv. apply Qfloor_comp.
  rewrite inject_Z_plus, <- Hq, inject_Z_mult.
  assert (Ha : ~ (inject_Z h == 0)%Q).
  { intros H0. unfold Qeq in H0. cbn in H0. lia. }
  change (inject_Z 2) with 2%Q. field. exact Ha.
Qed.

Lemma finite_scaled (s : bool) (m : positive) (e : Z) :
  -1074 <= e ->
  ((if s then -1 else 1) * inject_Z (Zpos m) * Qpower 2 e
   * inject_Z (2 * 2 ^ 1073)
   == inject_Z (cond_Zopp s (magnitude m e)))%Q.
Proof.
  intros He.
  assert (Hmag : (inject_Z (magnitude m e)
                  == inject_Z (Zpos m) * Qpower 2 e
                     * inject_Z (2 * 2 ^ 1073))%Q).
  { unfold magnitude. rewrite inject_Z_mult.
    replace (2 * 2 ^ 1073) with (2 ^ 1074) by reflexivity.
    rewrite (Zpower_Qpower 2 (e + 1074)) by lia.
    rewrite (Zpower_Qpower 2 1074) by lia.
    change (inject_Z 2) with 2%Q.
    rewrite (Qpower_plus 2 e 1074) by discriminate.
    ring. }
  destruct s; cbn [cond_Zopp].
  - rewrite inject_Z_opp, Hmag. ring.
  - rewrite Hmag. ring.
Qed.

Lemma finite_Qfloor (s : bool) (m : positive) (e : Z) :
  -1074 <= e ->
  Qfloor ((if s then -1 else 1) * inject_Z (Zpos m) * Qpower 2 e + (1 # 2))%Q
  = (cond_Zopp s (magnitude m e) + 2 ^ 1073) / (2 * 2 ^ 1073).
Proof.
  intros He. apply Qfloor_half.
  - apply Z.pow_pos_nonneg; lia.
  - apply finite_scaled, He.
Qed.

Lemma of_Z_finite (z : Z) :
  z <> 0 -> Z.abs z < 2 ^ 53 ->
  exists m e,
    Prim2SF (Binary64.of_Z z) = S754_finite (z <? 0) m e /\
    magnitude m e = Z.abs z * 2 ^ 1074.
Proof.
  intros Hz Hlt. unfold Binary64.of_Z.
  destruct (Z.ltb_spec z 0) as [Hneg | Hpos].
  - destruct (of_uint63_exact (- z)) as (m & e & Hm & Hmag); [lia |].
    exists m, e. rewrite FloatAxioms.opp_spec, Hm. cbn [SFopp negb].
    split; [reflexivity |]. rewrite Hmag. f_equal. lia.
  - destruct (of_uint63_exact z) as (m & e & Hm & Hmag); [lia |].
    exists m, e. split; [exact Hm |]. rewrite Hmag. f_equal. lia.
Qed.

Lemma half_floor_multiple (a h : Z) :
  0 < h -> (a * (2 * h) + h) / (2 * h) = a.
Proof.
  intros Hh. rewrite Z.div_add_l by lia.
  rewrite Z.div_small by lia. lia.
Qed.

Lemma half_floor_small (k h b : Z) :
  0 < h -> 0 < b -> Z.abs k < 2 * b * h ->
  Z.abs ((k + h) / (2 * h)) <= b.
Proof.
  intros Hh Hb Hk.
  pose proof (Z.mul_div_le (k + h) (2 * h) ltac:(lia)) as Hlo.
  pose proof (Z.mul_succ_div_gt (k + h) (2 * h) ltac:(lia)) as Hhi.
  revert Hlo Hhi. generalize ((k + h) / (2 * h)). intros z Hlo Hhi. nia.
Qed.

(** The key of a rounded double. *)
Lemma round_key (x : float) (s : bool) (m : positive) (e : Z) :
  Prim2SF x = S754_finite s m e ->
  Binary64.to_Q (Binary64.round x) <> None /\
  float_key (Binary64.round x)
  = (float_key x + 2 ^ 1073) / (2 * 2 ^ 1073) * (2 * 2 ^ 1073).
Proof.
  intros Hx. pose proof (Prim2SF_valid x) as Hv. rewrite Hx in Hv.
  destruct (valid_finite s m e Hv) as (He & Hd & _).
  assert (Hkey : float_key x = cond_Zopp s (magnitude m e))
    by (unfold float_key; rewrite Hx; reflexivity).
  unfold Binary64.round. rewrite Hx, (finite_Qfloor s m e) by lia.
  rewrite Hkey. set (k := cond_Zopp s (magnitude m e)).
  assert (Hh : 0 < 2 ^ 1073) by (apply Z.pow_pos_nonneg; lia).
  set (h := 2 ^ 1073) in *. set (z := (k + h) / (2 * h)).
  destruct (Z.eqb_spec z 0) as [Hz0 | Hz0].
  - rewrite Hz0. unfold float_key, Binary64.to_Q.
    destruct s;
      [change (Prim2SF PrimFloat.neg_zero) with (S754_zero true)
      | change (Prim2SF PrimFloat.zero) with (S754_zero false)];
      split; [discriminate | reflexivity | discriminate | reflexivity].
  - destruct (Z.ltb_spec (Z.abs z) (2 ^ 53)) as [Hsmall | Hbig].
    + destruct (of_Z_finite z Hz0 Hsmall) as (m' & e' & Hm' & Hmag').
      unfold float_key, Binary64.to_Q. rewrite Hm'. split; [discriminate |].
      cbn [key]. rewrite Hmag'.
      change (2 ^ 1074) with (2 * 2 ^ 1073). fold h.
      destruct (Z.ltb_spec z 0); cbn [cond_Zopp]; lia.
    + unfold Binary64.to_Q. rewrite Hx. split; [discriminate |].
      rewrite Hkey. fold k.
      assert (Hm53 : Zpos m < 2 ^ 53).
      { pose proof (digits2_bounds m) as [_ Dhi].
        assert (2 ^ Zpos (digits2_pos m) <= 2 ^ 53)
          by (apply Z.pow_le_mono_r; lia).
        lia. }
      assert (He0 : 0 <= e).
      { destruct (Z.le_gt_cases 0 e) as [H | H]; [exact H |]. exfalso.
        assert (Hp : 2 ^ (e + 1074) <= h)
          by (unfold h; apply Z.pow_le_mono_r; lia).
        assert (Hp0 : 0 < 2 ^ (e + 1074)) by (apply Z.pow_pos_nonneg; lia).
        assert (Hk : Z.abs k < 2 * 2 ^ 52 * h).
        { unfold k, magnitude. change (2 * 2 ^ 52) with (2 ^ 53).
          revert Hp Hp0. generalize (2 ^ (e + 1074)). intros t Hp Hp0.
          destruct s; cbn [cond_Zopp]; nia. }
        pose proof (half_floor_small k h (2 ^ 52) Hh ltac:(lia) Hk) as Hz.
        fold z in Hz. change (2 ^ 53) with (2 * 2 ^ 52) in Hbig. lia. }
      assert (Hk : k = cond_Zopp s (Zpos m * 2 ^ e) * (2 * h)).
      { unfold k, magnitude, h. rewrite Z.pow_add_r by lia.
        change (2 ^ 1074) with (2 * 2 ^ 1073).
        destruct s; cbn [cond_Zopp]; ring. }
      assert (Hz : z = cond_Zopp s (Zpos m * 2 ^ e))
        by (unfold z; rewrite Hk; apply half_floor_multiple, Hh).
      rewrite Hz. exact Hk.
Qed.

Lemma finite_not_NaN (x : float) : Binary64.to_Q x <> None -> not_NaN x.
Proof.
  unfold Binary64.to_Q. intros Hx. apply spec_not_nan. intros Hn.
  rewrite Hn in Hx. apply Hx. reflexivity.
Qed.

(** [Math.round(x)] lies in [0, 100] exactly when [-0.5 <= x < 100.5], for
    every double [x]. *)
Lemma round_within_percent (x : float) :
  within_percent (Binary64.round x) <->
  PrimFloat.leb (-0.5) x = true /\ PrimFloat.ltb x 100.5 = true.
Proof.
  unfold within_percent.
  destruct (Prim2SF x) as [s | s | | s m e] eqn:Hx.
  1-3: replace (Binary64.round x) with x
         by (unfold Binary64.round; rewrite Hx; reflexivity);
       rewrite !FloatAxioms.leb_spec, FloatAxioms.ltb_spec, Hx;
       try destruct s; vm_compute; intuition discriminate.
  destruct (round_key x s m e Hx) as [Hfin Hkey].
  assert (Hr : not_NaN (Binary64.round x)) by apply finite_not_NaN, Hfin.
  assert (Hn : not_NaN x)
    by (apply spec_not_nan; rewrite Hx; discriminate).
  rewrite (leb_key 0%float _ eq_refl Hr), (leb_key _ 100%float Hr eq_refl),
    (leb_key (-0.5)%float x eq_refl Hn), (ltb_key x 100.5%float Hn eq_refl).
  rewrite Hkey.
  change (float_key 0%float) with 0.
  replace (float_key 100%float) with (100 * (2 * 2 ^ 1073))
    by (vm_compute; reflexivity).
  replace (float_key (-0.5)%float) with (- 2 ^ 1073)
    by (vm_compute; reflexivity).
  replace (float_key 100.5%float) with (201 * 2 ^ 1073)
    by (vm_compute; reflexivity).
  assert (Hh : 0 < 2 ^ 1073) by (apply Z.pow_pos_nonneg; lia).
  revert Hh. generalize (2 ^ 1073) (float_key x). intros h k Hh.
  rewrite !Z.leb_le, Z.ltb_lt.
  pose proof (Z.mul_div_le (k + h) (2 * h) ltac:(lia)) as Hlo.
  pose proof (Z.mul_succ_div_gt (k + h) (2 * h) ltac:(lia)) as Hhi.
  revert Hlo Hhi. generalize ((k + h) / (2 * h)). intros z Hlo Hhi.
  split; intros [H1 H2].
  - assert (Hz0 : 0 <= z) by nia. assert (Hz100 : z <= 100) by nia.
    assert (0 <= 2 * h * z) by nia.
    assert (2 * h * Z.succ z <= 2 * h * 101) by nia.
    split; lia.
  - assert (Hz0 : 0 <= z) by nia. assert (Hz100 : z <= 100) by nia.
    split; nia.
Qed.

(** [Math.round(x)] of a finite double is an integer. *)
Lemma round_integer (x : float) :
  Binary64.to_Q x <> None -> integer_valued (Binary64.round x).
Proof.
  intros Hx. unfold integer_valued.
  destruct (Prim2SF x) as [s | s | | s m e] eqn:HX;
    try (exfalso; apply Hx; unfold Binary64.to_Q; rewrite HX; reflexivity).
  - replace (Binary64.round x) with x
      by (unfold Binary64.round; rewrite HX; reflexivity).
    unfold Binary64.to_Q. rewrite HX. exists 0%Z. reflexivity.
  - destruct (round_key x s m e HX) as [Hfin Hkey].
    set (z := (float_key x + 2 ^ 1073) / (2 * 2 ^ 1073)) in *.
    exists z. revert Hfin Hkey. unfold Binary64.to_Q, float_key.
    pose proof (Prim2SF_valid (Binary64.round x)) as Hv.
    destruct (Prim2SF (Binary64.round x)) as [s' | s' | | s' m' e'];
      intros Hfin Hkey; try (exfalso; apply Hfin; reflexivity).
    + cbn [key] in Hkey.
      assert (Hz : z = 0).
      { assert (0 < 2 ^ 1073) by (apply Z.pow_pos_nonneg; lia). nia. }
      rewrite Hz. reflexivity.
    + destruct (valid_finite s' m' e' Hv) as (He' & _).
      pose proof (finite_scaled s' m' e' ltac:(lia)) as Hq.
      cbn [key] in Hkey. rewrite Hkey, inject_Z_mult in Hq.
      assert (Ha : ~ (inject_Z (2 * 2 ^ 1073) == 0)%Q).
      { intros H0. unfold Qeq in H0. cbn [inject_Z Qnum Qden] in H0.
        assert (0 < 2 ^ 1073) by (apply Z.pow_pos_nonneg; lia). lia. }
      apply (Qmult_inj_r _ _ _ Ha). exact Hq.
Qed.

(** ** The score of a recommendation *)

Lemma In_firstn {A : Type} (n : nat) (l : list A) (x : A) :
  In x (firstn n l) -> In x l.
Proof.
  revert l. induction n as [| n IH]; intros l Hx.
  - destruct Hx.
  - destruct l as [| y l]; [destruct Hx |].
    destruct Hx as [<- | Hx]; [left; reflexivity | right; apply IH, Hx].
Qed.

(** C4, as the code has it.  The score of a recommendation is the raw score
    of its metric times 100, rounded by [Math.round], in the doubles of the
    server.  It is an integer whenever that product is finite.  It is not
    clamped: it lies in [0, 100] exactly when the product lies in
    [-0.5, 100.5). *)
Theorem recommendation_score_rounded
    (questions : @Questions Binary64.num) (p c e ec : Z)
    (topChallenge : option string) :
  complete questions ->
  valid_rating p -> valid_rating c -> valid_rating e -> valid_rating ec ->
  exists r pm cm em ecm,
    calculateScores questions (answers_of p c e ec topChallenge) = Return r /\
    own (pipeline_health_maps_to_metrics questions) (toString p) = Some pm /\
    own (sales_conversion_maps_to_metrics questions) (toString c) = Some cm /\
    own (customer_success_maps_to_metrics questions) (toString e) = Some em /\
    own (economics_and_efficiency_maps_to_metrics questions) (toString ec)
      = Some ecm /\
    forall rec, In rec (priority_recommendations r) ->
      exists m,
        In m (allMetrics pm cm em ecm) /\ rec_name rec = name m /\
        rec_score rec = Math_round (score m * lit 100)%js /\
        (Binary64.to_Q (score m * lit 100)%js <> None ->
         integer_valued (rec_score rec)) /\
        (within_percent (rec_score rec) <->
         PrimFloat.leb (-0.5) (score m * lit 100)%js = true /\
         PrimFloat.ltb (score m * lit 100)%js 100.5 = true).
Proof.
  intros Hq Vp Vc Ve Vec.
  destruct (calculateScores_complete questions p c e ec topChallenge
              Hq Vp Vc Ve Vec)
    as (pm & cm & em & ecm & Hpm & Hcm & Hem & Hecm & Hr).
  eexists. exists pm, cm, em, ecm.
  split; [exact Hr |]. repeat (split; [assumption |]).
  cbn [priority_recommendations]. unfold priorityRecommendations, slice.
  intros rec Hrec. apply in_map_iff in Hrec.
  destruct Hrec as (m & <- & Hm).
  apply In_firstn in Hm. cbn [skipn] in Hm.
  apply (Permutation_in _ (sort_perm _ _)) in Hm.
  exists m. split; [exact Hm |]. split; [reflexivity |].
  unfold recommend. cbn [rec_score Math_round Binary64Number].
  split; [reflexivity |]. split.
  - apply round_integer.
  - apply round_within_percent.
Qed.

Lemma recommendation_score_rounded_witness :
  exists r pm cm em ecm,
    calculateScores (num := Binary64.num) sampleQuestions
      (answers_of 1 1 1 1 (Some "other")) = Return r /\
    own (pipeline_health_maps_to_metrics sampleQuestions) (toString 1)
      = Some pm /\
    own (sales_conversion_maps_to_metrics sampleQuestions) (toString 1)
      = Some cm /\
    own (customer_success_maps_to_metrics sampleQuestions) (toString 1)
      = Some em /\
    own (economics_and_efficiency_maps_to_metrics sampleQuestions)
      (toString 1) = Some ecm /\
    forall rec, In rec (priority_recommendations r) ->
      exists m,
        In m (allMetrics pm cm em ecm) /\ rec_name rec = name m /\
        rec_score rec = Math_round (score m * lit 100)%js /\
        (Binary64.to_Q (score m * lit 100)%js <> None ->
         integer_valued (rec_score rec)) /\
        (within_percent (rec_score rec) <->
         PrimFloat.leb (-0.5) (score m * lit 100)%js = true /\
         PrimFloat.ltb (score m * lit 100)%js 100.5 = true).
Proof.
  apply (recommendation_score_rounded sampleQuestions 1 1 1 1
           (Some "other")).
  - apply sample_complete.
  - unfold valid_rating; lia.
  - unfold valid_rating; lia.
  - unfold valid_rating; lia.
  - unfold valid_rating; lia.
Defined.

(** C4, as stated, fails.  With the sample table and all ratings 1, the first
    recommendation is "Lead Response Time" (48 hours, raw score 1 - 48/24)
    with the score -100; with all ratings 5 the fifth one has the score
    107. *)
Lemma recommendation_score_out_of_range :
  (exists r rec,
     calculateScores (num := Binary64.num) sampleQuestions
       (answers_of 1 1 1 1 (Some "other")) = Return r /\
     nth_error (priority_recommendations r) 0 = Some rec /\
     rec_name rec = "Lead Response Time" /\
     rec_score rec = (-100)%float /\
     ~ within_percent (rec_score rec)) /\
  (exists r rec,
     calculateScores (num := Binary64.num) sampleQuestions
       (answers_of 5 5 5 5 (Some "other")) = Return r /\
     nth_error (priority_recommendations r) 4 = Some rec /\
     rec_name rec = "MQL to SQL Conversion" /\
     rec_score rec = 107%float /\
     ~ within_percent (rec_score rec)).
Proof.
  split; do 2 eexists;
    (split; [vm_compute; reflexivity |]);
    (split; [reflexivity |]);
    (split; [reflexivity |]);
    (split; [reflexivity |]);
    unfold within_percent; cbn [rec_score]; intros [H0 H100];
    vm_compute in H0, H100; discriminate.
Qed.

(** ** A missing challenge *)

Lemma missing_challenge_is_pipeline {num : Type} `{Number num}
    (questions : Questions) (answers : Answers) :
  question_5_top_challenge answers = None \/
  question_5_top_challenge answers = Some "" ->
  calculateScores questions answers
  = calculateScores questions (with_challenge answers (Some "pipeline")).
Proof.
  intros Hc. unfold calculateScores, detectPatterns.
  destruct answers as [q1 q2 q3 q4 q5]. cbn in Hc |- *.
  destruct Hc as [-> | ->]; reflexivity.
Qed.

Lemma overallSSI_other (P C E Ec : Q) :
  overallSSI (num := Exact.num) (adjust_weights "other")
    (Some P) (Some C) (Some E) (Some Ec)
  = Some (P * 0.30 + C * 0.30 + E * 0.25 + Ec * 0.15)%Q.
Proof. reflexivity. Qed.

Lemma overallSSI_pipeline (P C E Ec : Q) :
  overallSSI (num := Exact.num) (adjust_weights "pipeline")
    (Some P) (Some C) (Some E) (Some Ec)
  = Some (P * (34500000000000 # 104500000000000)
          + C * (300000000000 # 1045000000000)
          + E * (250000000000 # 1045000000000)
          + Ec * (150000000000 # 1045000000000))%Q.
Proof.
  unfold overallSSI.
  replace (get_number (adjust_weights (num := Exact.num) "pipeline")
             "pipeline") with (Some (34500000000000 # 104500000000000))
    by (vm_compute; reflexivity).
  replace (get_number (adjust_weights (num := Exact.num) "pipeline")
             "conversion") with (Some (300000000000 # 1045000000000))
    by (vm_compute; reflexivity).
  replace (get_number (adjust_weights (num := Exact.num) "pipeline")
             "expansion") with (Some (250000000000 # 1045000000000))
    by (vm_compute; reflexivity).
  replace (get_number (adjust_weights (num := Exact.num) "pipeline")
             "economics") with (Some (150000000000 # 1045000000000))
    by (vm_compute; reflexivity).
  reflexivity.
Qed.

(** In exact arithmetic the boost moves the weighted sum towards the
    pipeline score, by 0.045/1.045 of their distance: the two sums differ
    exactly when the pipeline score is not itself the sum for "other".  The
    doubles of the server follow this up to rounding, and both sums are
    clamped afterwards. *)
Lemma boosted_sum_exact (P C E Ec : Q) :
  exists boosted plain,
    overallSSI (num := Exact.num) (adjust_weights "pipeline")
      (Some P) (Some C) (Some E) (Some Ec) = Some boosted /\
    overallSSI (num := Exact.num) (adjust_weights "other")
      (Some P) (Some C) (Some E) (Some Ec) = Some plain /\
    (boosted - plain == (45 # 1045) * (P - plain))%Q.
Proof.
  do 2 eexists. split; [apply overallSSI_pipeline |].
  split; [apply overallSSI_other |]. field.
Qed.

(** C9, as the code has it.  An absent or empty challenge is replaced by
    "pipeline": the call is the call with the challenge "pipeline".  Its
    overall score is the clamped sum of the four category scores under the
    boosted weights, in which, as doubles, the pipeline weight lies above its
    base value and the other three below theirs, while the challenge "other"
    leaves the base weights.  That the two overall scores differ is not part
    of what holds: the clamp can make them equal. *)
Theorem missing_challenge_defaults_to_pipeline
    (questions : @Questions Binary64.num) (p c e ec : Z)
    (topChallenge : option string) :
  complete questions ->
  valid_rating p -> valid_rating c -> valid_rating e -> valid_rating ec ->
  topChallenge = None \/ topChallenge = Some "" ->
  calculateScores questions (answers_of p c e ec topChallenge)
  = calculateScores questions (answers_of p c e ec (Some "pipeline")) /\
  exists r1 r2 pm cm em ecm,
    calculateScores questions (answers_of p c e ec topChallenge)
      = Return r1 /\
    calculateScores questions (answers_of p c e ec (Some "other"))
      = Return r2 /\
    own (pipeline_health_maps_to_metrics questions) (toString p) = Some pm /\
    own (sales_conversion_maps_to_metrics questions) (toString c) = Some cm /\
    own (customer_success_maps_to_metrics questions) (toString e) = Some em /\
    own (economics_and_efficiency_maps_to_metrics questions) (toString ec)
      = Some ecm /\
    overall_ssi r1
    = clamp
        (overallSSI (adjust_weights "pipeline") (pipelineScore pm)
           (conversionScore cm) (expansionScore em) (economicsScore ecm)) /\
    overall_ssi r2
    = clamp
        (overallSSI base_weights (pipelineScore pm) (conversionScore cm)
           (expansionScore em) (economicsScore ecm)) /\
    PrimFloat.ltb (weight "other" "pipeline") (weight "pipeline" "pipeline")
      = true /\
    PrimFloat.ltb (weight "pipeline" "conversion")
      (weight "other" "conversion") = true /\
    PrimFloat.ltb (weight "pipeline" "expansion")
      (weight "other" "expansion") = true /\
    PrimFloat.ltb (weight "pipeline" "economics")
      (weight "other" "economics") = true.
Proof.
  intros Hq Vp Vc Ve Vec Hc.
  assert (Hsame :
    calculateScores questions (answers_of p c e ec topChallenge)
    = calculateScores questions (answers_of p c e ec (Some "pipeline")))
    by (apply (missing_challenge_is_pipeline questions
                 (answers_of p c e ec topChallenge)), Hc).
  split; [exact Hsame |]. rewrite Hsame.
  destruct (calculateScores_complete questions p c e ec (Some "pipeline")
              Hq Vp Vc Ve Vec)
    as (pm & cm & em & ecm & Hpm & Hcm & Hem & Hecm & Hr1).
  destruct (calculateScores_complete questions p c e ec (Some "other")
              Hq Vp Vc Ve Vec)
    as (pm' & cm' & em' & ecm' & Hpm' & Hcm' & Hem' & Hecm' & Hr2).
  assert (pm' = pm) by congruence. assert (cm' = cm) by congruence.
  assert (em' = em) by congruence. assert (ecm' = ecm) by congruence.
  subst pm' cm' em' ecm'.
  do 2 eexists. exists pm, cm, em, ecm.
  split; [exact Hr1 |]. split; [exact Hr2 |].
  repeat (split; [assumption |]).
  cbn [overall_ssi]. split; [reflexivity |]. split; [reflexivity |].
  repeat split; vm_compute; reflexivity.
Qed.

Lemma missing_challenge_defaults_to_pipeline_witness :
  calculateScores (num := Binary64.num) sampleQuestions
    (answers_of 5 1 1 1 None)
  = calculateScores sampleQuestions (answers_of 5 1 1 1 (Some "pipeline")) /\
  exists r1 r2 pm cm em ecm,
    calculateScores (num := Binary64.num) sampleQuestions
      (answers_of 5 1 1 1 None) = Return r1 /\
    calculateScores (num := Binary64.num) sampleQuestions
      (answers_of 5 1 1 1 (Some "other")) = Return r2 /\
    own (pipeline_health_maps_to_metrics sampleQuestions) (toString 5)
      = Some pm /\
    own (sales_conversion_maps_to_metrics sampleQuestions) (toString 1)
      = Some cm /\
    own (customer_success_maps_to_metrics sampleQuestions) (toString 1)
      = Some em /\
    own (economics_and_efficiency_maps_to_metrics sampleQuestions)
      (toString 1) = Some ecm /\
    overall_ssi r1
    = clamp
        (overallSSI (adjust_weights "pipeline") (pipelineScore pm)
           (conversionScore cm) (expansionScore em) (economicsScore ecm)) /\
    overall_ssi r2
    = clamp
        (overallSSI base_weights (pipelineScore pm) (conversionScore cm)
           (expansionScore em) (economicsScore ecm)) /\
    PrimFloat.ltb (weight "other" "pipeline") (weight "pipeline" "pipeline")
      = true /\
    PrimFloat.ltb (weight "pipeline" "conversion")
      (weight "other" "conversion") = true /\
    PrimFloat.ltb (weight "pipeline" "expansion")
      (weight "other" "expansion") = true /\
    PrimFloat.ltb (weight "pipeline" "economics")
      (weight "other" "economics") = true.
Proof.
  apply (missing_challenge_defaults_to_pipeline sampleQuestions 5 1 1 1 None).
  - apply sample_complete.
  - unfold valid_rating; lia.
  - unfold valid_rating; lia.
  - unfold valid_rating; lia.
  - unfold valid_rating; lia.
  - left; reflexivity.
Defined.

(** On the sample table with all ratings 3 the default does show: the
    overall score is lower than with the challenge "other". *)
Example missing_challenge_sample :
  exists r1 r2,
    calculateScores (num := Binary64.num) sampleQuestions
      (answers_of 3 3 3 3 None) = Return r1 /\
    calculateScores (num := Binary64.num) sampleQuestions
      (answers_of 3 3 3 3 (Some "other")) = Return r2 /\
    PrimFloat.ltb (overall_ssi r1) (overall_ssi r2) = true.
Proof.
  do 2 eexists. split; [vm_compute; reflexivity |].
  split; [vm_compute; reflexivity |]. vm_compute. reflexivity.
Qed.

(** On the sample table with all ratings 5 the weighted sum exceeds 1 under
    both sets of weights. *)
Example sample_saturates :
  exists pm cm em ecm,
    own (pipeline_health_maps_to_metrics
           (sampleQuestions (num := Binary64.num))) "5" = Some pm /\
    own (sales_conversion_maps_to_metrics sampleQuestions) "5" = Some cm /\
    own (customer_success_maps_to_metrics sampleQuestions) "5" = Some em /\
    own (economics_and_efficiency_maps_to_metrics sampleQuestions) "5"
      = Some ecm /\
    PrimFloat.ltb 1
      (overallSSI (adjust_weights "pipeline") (pipelineScore pm)
         (conversionScore cm) (expansionScore em) (economicsScore ecm))
      = true /\
    PrimFloat.ltb 1
      (overallSSI (adjust_weights "other") (pipelineScore pm)
         (conversionScore cm) (expansionScore em) (economicsScore ecm))
      = true.
Proof.
  do 4 eexists. repeat (split; [reflexivity |]).
  split; vm_compute; reflexivity.
Qed.

(** C9, as stated, fails.  With the sample table and all ratings 5 every
    category score exceeds 1, both weighted sums are clamped, and the call
    without challenge returns the same overall score, 1, as the call with
    "other" (as doubles and as rationals). *)
Lemma missing_challenge_same_overall :
  (exists r1 r2,
     calculateScores (num := Binary64.num) sampleQuestions
       (answers_of 5 5 5 5 None) = Return r1 /\
     calculateScores (num := Binary64.num) sampleQuestions
       (answers_of 5 5 5 5 (Some "other")) = Return r2 /\
     overall_ssi r1 = 1%float /\ overall_ssi r2 = 1%float) /\
  (exists r1 r2,
     calculateScores (num := Exact.num) sampleQuestions
       (answers_of 5 5 5 5 None) = Return r1 /\
     calculateScores (num := Exact.num) sampleQuestions
       (answers_of 5 5 5 5 (Some "other")) = Return r2 /\
     overall_ssi r1 = Some 1%Q /\ overall_ssi r2 = Some 1%Q).
Proof.
  split; do 2 eexists;
    (split; [vm_compute; reflexivity |]);
    (split; [vm_compute; reflexivity |]);
    split; reflexivity.
Qed.

(** On the sample table the two overall scores coincide for three of the
    625 rating vectors, where both are clamped to 1, and differ for the other
    622, those with a clamped pipeline loop score included. *)
Example missing_challenge_on_sample :
  filter same_overall rating_vectors = [(5, 5, 4, 5); (5, 5, 5, 4); (5, 5, 5, 5)]
  /\ Forall
       (fun v =>
          overall_missing v = Some 1%float /\
          overall_other v = Some 1%float)
       (filter same_overall rating_vectors)
  /\ same_overall (5, 1, 1, 1) = false
  /\ exists r,
       calculateScores (num := Binary64.num) sampleQuestions
         (answers_of 5 1 1 1 (Some "other")) = Return r /\
       Pipeline (loop_scores r) = 1%float.
Proof.
  split; [vm_compute; reflexivity |].
  split.
  - replace (filter same_overall rating_vectors)
      with [(5, 5, 4, 5); (5, 5, 5, 4); (5, 5, 5, 5)]
      by (vm_compute; reflexivity).
    repeat (apply Forall_cons; [split; vm_compute; reflexivity |]).
    apply Forall_nil.
  - split; [vm_compute; reflexivity |].
    eexists. split; [vm_compute; reflexivity | reflexivity].
Qed.

(** ** What the clamp gives in exact arithmetic *)

Lemma clamp_unit (s : Q) :
  exists v, clamp (num := Exact.num) (Some s) = Some v /\ (0 <= v <= 1)%Q.
Proof.
  unfold clamp. cbn.
  destruct (Qle_bool 1 s) eqn:H1; cbn.
  - eexists. split; [reflexivity | lra].
  - assert (Hs : (s < 1)%Q).
    { destruct (Qlt_le_dec s 1) as [Hlt | Hge]; [exact Hlt |].
      apply Qle_bool_iff in Hge. congruence. }
    destruct (Qle_bool 0 s) eqn:H0.
    + apply Qle_bool_iff in H0. eexists. split; [reflexivity | lra].
    + eexists. split; [reflexivity | lra].
Qed.

Lemma overallSSI_number (topChallenge : string) (P C E Ec : Q) :
  own Object_prototype topChallenge = None ->
  is_number
    (overallSSI (num := Exact.num) (adjust_weights topChallenge)
       (Some P) (Some C) (Some E) (Some Ec)).
Proof.
  intros Hp.
  destruct (challenge_cases topChallenge Hp) as [-> | [-> | [-> | Hg]]].
  4: rewrite (unrecognised_keeps_base_weights topChallenge Hg).
  all: eexists; vm_compute; reflexivity.
Qed.

(** Unless the challenge names an inherited property, the four returned
    scores are numbers of the interval [0, 1]. *)
Lemma returned_scores_within_unit (questions : @Questions Exact.num)
    (p c e ec : Z) (topChallenge : option string) :
  complete questions -> numeric is_number questions ->
  valid_rating p -> valid_rating c -> valid_rating e -> valid_rating ec ->
  own Object_prototype (or_string topChallenge "pipeline") = None ->
  exists r,
    calculateScores questions (answers_of p c e ec topChallenge) = Return r /\
    Forall (fun s => exists v, s = Some v /\ (0 <= v <= 1)%Q)
      [ overall_ssi r; Pipeline (loop_scores r); Conversion (loop_scores r);
        Expansion (loop_scores r) ].
Proof.
  intros Hq (Np & Nc & Ne & Nec) Vp Vc Ve Vec Hown.
  destruct (calculateScores_complete questions p c e ec topChallenge
              Hq Vp Vc Ve Vec)
    as (pm & cm & em & ecm & Hpm & Hcm & Hem & Hecm & Hr).
  destruct (pipelineScore_number pm (Np _ _ Hpm)) as [P HP].
  destruct (conversionScore_number cm (Nc _ _ Hcm)) as [C HC].
  destruct (expansionScore_number em (Ne _ _ Hem)) as [E HE].
  destruct (economicsScore_number ecm (Nec _ _ Hecm)) as [Ec HEc].
  rewrite HP, HC, HE, HEc in Hr.
  destruct (overallSSI_number _ P C E Ec Hown) as [S HS].
  rewrite HS in Hr.
  eexists. split; [exact Hr |].
  cbn [overall_ssi loop_scores Pipeline Conversion Expansion].
  repeat (apply Forall_cons; [apply clamp_unit |]). apply Forall_nil.
Qed.

(** * Further properties of the scoring engine *)

(** ** When [calculateScores] returns *)

Lemma calculateScores_inv {num : Type} `{Number num}
    (questions : Questions) (answers : Answers) (r : ScoreResult) :
  calculateScores questions answers = Return r ->
  exists pm cm em ecm,
    pipeline_lookup questions answers = Some pm /\
    conversion_lookup questions answers = Some cm /\
    expansion_lookup questions answers = Some em /\
    economics_lookup questions answers = Some ecm /\
    r = {| overall_ssi :=
             clamp
               (overallSSI
                  (adjust_weights
                     (or_string (question_5_top_challenge answers)
                        "pipeline"))
                  (pipelineScore pm) (conversionScore cm) (expansionScore em)
                  (economicsScore ecm));
           loop_scores :=
             {| Pipeline := clamp (pipelineScore pm);
                Conversion := clamp (conversionScore cm);
                Expansion := clamp (expansionScore em) |};
           priority_recommendations :=
             priorityRecommendations (allMetrics pm cm em ecm);
           detected_patterns :=
             detectPatterns answers (pipelineScore pm) (conversionScore cm)
               (expansionScore em) |}.
Proof.
  unfold calculateScores, pipeline_lookup, conversion_lookup,
    expansion_lookup, economics_lookup.
  destruct (own (pipeline_health_maps_to_metrics questions) _) as [pm |];
    [| discriminate].
  destruct (own (sales_conversion_maps_to_metrics questions) _) as [cm |];
    [| discriminate].
  destruct (own (customer_success_maps_to_metrics questions) _) as [em |];
    [| discriminate].
  destruct (own (economics_and_efficiency_maps_to_metrics questions) _)
    as [ecm |]; [| discriminate].
  cbn [defined bind]. intros [= <-].
  exists pm, cm, em, ecm. repeat (split; [reflexivity |]). reflexivity.
Qed.

(** ** Defaults *)

Lemma rating_idempotent (x : json_number) : rating (Num (rating x)) = rating x.
Proof.
  unfold rating, or_default, parseInt. destruct x as [| n]; [reflexivity |].
  destruct (Z.eqb_spec n 0) as [-> | Hn]; [reflexivity |].
  destruct (Z.eqb_spec n 0); [contradiction | reflexivity].
Qed.

Lemma or_string_idempotent (s : option string) :
  or_string (Some (or_string s "pipeline")) "pipeline"
  = or_string s "pipeline".
Proof.
  unfold or_string. destruct s as [s |]; [| reflexivity].
  destruct (String.eqb s "") eqn:Hs; [reflexivity |]. rewrite Hs. reflexivity.
Qed.

(** X3.  The result depends on the request only through the defaulted
    values: a rating that is absent or 0 is scored exactly as the rating 3,
    a missing or empty challenge exactly as 'pipeline', and this holds for
    the whole outcome, thrown errors and detected patterns included. *)
Theorem calculateScores_with_defaults {num : Type} `{Number num}
    (questions : Questions) (answers : Answers) :
  calculateScores questions (with_defaults answers)
  = calculateScores questions answers.
Proof.
  unfold calculateScores, detectPatterns, with_defaults.
  cbn [question_1_pipeline_health question_2_sales_conversion
       question_3_customer_success question_4_economics_and_efficiency
       question_5_top_challenge].
  rewrite !rating_idempotent, or_string_idempotent. reflexivity.
Qed.

(** ** The recommendations *)

Lemma map_recommend_name {num : Type} `{Number num} (l : list Metric) :
  map rec_name (map recommend l) = map name l.
Proof. rewrite map_map. reflexivity. Qed.

Lemma NoDup_firstn {A : Type} (n : nat) (l : list A) :
  NoDup l -> NoDup (firstn n l).
Proof.
  intros Hl. rewrite <- (firstn_skipn n l) in Hl.
  exact (NoDup_app_remove_r _ _ Hl).
Qed.

Lemma allMetrics_labels {num : Type} `{Number num} pm cm em ecm :
  map (fun m => (name m, loop m)) (allMetrics pm cm em ecm) = metric_labels.
Proof. reflexivity. Qed.

Lemma metric_names_distinct : NoDup (map fst metric_labels).
Proof.
  repeat (apply NoDup_cons;
          [cbn; intros Hin;
           repeat (destruct Hin as [Hin | Hin]; [discriminate Hin |]);
           exact Hin |]).
  apply NoDup_nil.
Qed.

Lemma recommended_metric {num : Type} `{Number num}
    (metrics : list Metric) (rec : Recommendation) :
  In rec (priorityRecommendations metrics) ->
  exists m, In m metrics /\ rec = recommend m.
Proof.
  unfold priorityRecommendations, slice. intros Hin.
  apply in_map_iff in Hin. destruct Hin as (m & <- & Hm).
  exists m. split; [| reflexivity].
  apply In_firstn in Hm. cbn [skipn] in Hm.
  exact (Permutation_in m (sort_perm _ metrics) Hm).
Qed.

(** X4.  The recommendations of a returned result are distinct metrics: no
    metric name occurs twice, and each recommendation carries the name and
    the loop of one of the nine metrics of the source, whatever the table
    holds. *)
Theorem recommendations_distinct {num : Type} `{Number num}
    (questions : Questions) (answers : Answers) (r : ScoreResult) :
  calculateScores questions answers = Return r ->
  NoDup (map rec_name (priority_recommendations r)) /\
  incl (map label (priority_recommendations r)) metric_labels.
Proof.
  intros Hr.
  destruct (calculateScores_inv questions answers r Hr)
    as (pm & cm & em & ecm & _ & _ & _ & _ & ->).
  cbn [priority_recommendations]. split.
  - unfold priorityRecommendations, slice.
    rewrite map_recommend_name, <- firstn_map. apply NoDup_firstn.
    cbn [skipn].
    apply (Permutation_NoDup
             (l := map name (allMetrics pm cm em ecm))).
    + apply Permutation_map, Permutation_sym, sort_perm.
    + exact metric_names_distinct.
  - intros lb Hlb. apply in_map_iff in Hlb.
    destruct Hlb as (rec & <- & Hrec).
    destruct (recommended_metric _ rec Hrec) as (m & Hm & ->).
    rewrite <- (allMetrics_labels pm cm em ecm).
    apply in_map_iff. exists m. split; [reflexivity | exact Hm].
Qed.

Lemma recommendations_distinct_witness :
  exists r,
    calculateScores (num := Binary64.num) sampleQuestions
      (answers_of 3 1 4 2 None) = Return r /\
    NoDup (map rec_name (priority_recommendations r)) /\
    incl (map label (priority_recommendations r)) metric_labels.
Proof.
  eexists. split; [reflexivity |].
  apply (recommendations_distinct (num := Binary64.num) sampleQuestions
           (answers_of 3 1 4 2 None) _ eq_refl).
Defined.

Lemma metric_formats {num : Type} `{Number num} pm cm em ecm (m : Metric) :
  In m (allMetrics pm cm em ecm) ->
  In (name m, unit_of (formatMetricValue (name m) (value_of m))) metric_units.
Proof.
  intros Hm. unfold allMetrics in Hm.
  repeat (destruct Hm as [<- | Hm];
          [cbn [name value_of]; unfold metric_units;
           repeat first [left; reflexivity | right] |]).
  destruct Hm.
Qed.

(** X5.  Every recommendation of a returned result is described with a unit:
    the five rates in percent, the three durations in days and the LTV:CAC
    ratio as a ratio to one.  The bare two-decimal fallback of
    [formatMetricValue] is never used for them. *)
Theorem recommendations_have_units {num : Type} `{Number num}
    (questions : Questions) (answers : Answers) (r : ScoreResult) :
  calculateScores questions answers = Return r ->
  Forall
    (fun rec =>
       In (rec_name rec, unit_of (rec_description rec)) metric_units /\
       unitless (rec_description rec) = false)
    (priority_recommendations r).
Proof.
  intros Hr.
  destruct (calculateScores_inv questions answers r Hr)
    as (pm & cm & em & ecm & _ & _ & _ & _ & ->).
  cbn [priority_recommendations]. apply Forall_forall. intros rec Hrec.
  destruct (recommended_metric _ rec Hrec) as (m & Hm & ->).
  cbn [recommend rec_name rec_description].
  pose proof (metric_formats pm cm em ecm m Hm) as Hu.
  split; [exact Hu |].
  destruct (formatMetricValue (name m) (value_of m)); try reflexivity.
  exfalso. cbn [unit_of] in Hu. unfold metric_units in Hu.
  repeat (destruct Hu as [Hu | Hu]; [discriminate Hu |]). exact Hu.
Qed.

Lemma recommendations_have_units_witness :
  exists r,
    calculateScores (num := Binary64.num) sampleQuestions
      (answers_of 5 5 1 1 None) = Return r /\
    Forall
      (fun rec =>
         In (rec_name rec, unit_of (rec_description rec)) metric_units /\
         unitless (rec_description rec) = false)
      (priority_recommendations r).
Proof.
  eexists. split; [reflexivity |].
  apply (recommendations_have_units (num := Binary64.num) sampleQuestions
           (answers_of 5 5 1 1 None) _ eq_refl).
Defined.

(** ** The loop scores *)

(** X6.  Each returned loop score is a function of its own rating alone: two
    requests with the same (defaulted) pipeline rating get the same Pipeline
    score whatever their other answers are, and likewise for Conversion and
    Expansion.  The economics rating enters none of the three. *)
Theorem loop_scores_local {num : Type} `{Number num}
    (questions : Questions) (a1 a2 : Answers) (r1 r2 : ScoreResult) :
  calculateScores questions a1 = Return r1 ->
  calculateScores questions a2 = Return r2 ->
  (rating (question_1_pipeline_health a1)
   = rating (question_1_pipeline_health a2) ->
   Pipeline (loop_scores r1) = Pipeline (loop_scores r2)) /\
  (rating (question_2_sales_conversion a1)
   = rating (question_2_sales_conversion a2) ->
   Conversion (loop_scores r1) = Conversion (loop_scores r2)) /\
  (rating (question_3_customer_success a1)
   = rating (question_3_customer_success a2) ->
   Expansion (loop_scores r1) = Expansion (loop_scores r2)).
Proof.
  intros H1 H2.
  destruct (calculateScores_inv questions a1 r1 H1)
    as (pm1 & cm1 & em1 & ecm1 & Hp1 & Hc1 & He1 & _ & ->).
  destruct (calculateScores_inv questions a2 r2 H2)
    as (pm2 & cm2 & em2 & ecm2 & Hp2 & Hc2 & He2 & _ & ->).
  cbn [loop_scores Pipeline Conversion Expansion].
  unfold pipeline_lookup, conversion_lookup, expansion_lookup in *.
  repeat split; intros Heq; rewrite Heq in *; congruence.
Qed.

Lemma loop_scores_local_witness :
  exists r1 r2,
    calculateScores (num := Binary64.num) sampleQuestions
      (answers_of 4 2 5 1 (Some "retention")) = Return r1 /\
    calculateScores (num := Binary64.num) sampleQuestions
      (answers_of 4 3 1 5 None) = Return r2 /\
    Pipeline (loop_scores r1) = Pipeline (loop_scores r2).
Proof.
  assert (H1 : exists r1,
             calculateScores (num := Binary64.num) sampleQuestions
               (answers_of 4 2 5 1 (Some "retention")) = Return r1)
    by (vm_compute; eexists; reflexivity).
  assert (H2 : exists r2,
             calculateScores (num := Binary64.num) sampleQuestions
               (answers_of 4 3 1 5 None) = Return r2)
    by (vm_compute; eexists; reflexivity).
  destruct H1 as [r1 H1]. destruct H2 as [r2 H2]. exists r1, r2.
  split; [exact H1 |]. split; [exact H2 |].
  apply (loop_scores_local (num := Binary64.num) sampleQuestions
           _ _ r1 r2 H1 H2).
  reflexivity.
Defined.

(** ** Patterns *)

Ltac no_member Hin :=
  repeat (destruct Hin as [Hin | Hin]; [discriminate Hin |]); exact Hin.

Ltac distinct_strings :=
  repeat (apply NoDup_cons; [cbn; intros Hin; no_member Hin |]);
  apply NoDup_nil.

(** X7.  For all ratings, [detectPatterns] reports at most two patterns and
    none twice; [systematic_issues] is only ever reported alone, and
    [pipeline_conversion_gap] never together with [leaky_bucket]. *)
Theorem patterns_exclusive {num : Type} `{Number num}
    (answers : Answers) (pipelineScore conversionScore expansionScore : num) :
  let names :=
    map pattern
      (detectPatterns answers pipelineScore conversionScore expansionScore) in
  (length names <= 2)%nat /\ NoDup names /\
  (In "systematic_issues" names -> names = ["systematic_issues"]) /\
  (In "pipeline_conversion_gap" names -> ~ In "leaky_bucket" names).
Proof.
  unfold detectPatterns.
  generalize (rating (question_1_pipeline_health answers)) as p.
  generalize (rating (question_2_sales_conversion answers)) as c.
  generalize (rating (question_3_customer_success answers)) as e.
  generalize (rating (question_4_economics_and_efficiency answers)) as ec.
  intros ec e c p.
  set (gap := (p >=? 4) && (c <=? 2)).
  set (leaky := (c >=? 4) && (e <=? 2)).
  set (systematic := (p <=? 2) && (c <=? 2) && (e <=? 2)).
  set (economics := (ec <=? 2) && ((p >=? 3) || (c >=? 3))).
  assert (Hgl : gap = true -> leaky = true -> False).
  { unfold gap, leaky. rewrite !andb_true_iff, !Z.geb_le, !Z.leb_le. lia. }
  assert (Hsg : systematic = true -> gap = true -> False).
  { unfold gap, systematic.
    rewrite !andb_true_iff, !Z.geb_le, !Z.leb_le. lia. }
  assert (Hsl : systematic = true -> leaky = true -> False).
  { unfold leaky, systematic.
    rewrite !andb_true_iff, !Z.geb_le, !Z.leb_le. lia. }
  assert (Hse : systematic = true -> economics = true -> False).
  { unfold economics, systematic.
    rewrite !andb_true_iff, orb_true_iff, !Z.geb_le, !Z.leb_le. lia. }
  clearbody gap leaky systematic economics.
  destruct gap, leaky, systematic, economics;
    try (exfalso; auto; fail);
    cbn; (split; [lia |]); (split; [distinct_strings |]);
    (split;
     [intros Hin; first [reflexivity | exfalso; no_member Hin]
     | intros Hg Hin; first [no_member Hin | no_member Hg]]).
Qed.

(** ** Weights *)

(** X8.  In the doubles of the server, each recognised challenge raises
    exactly the weight of its focus category and lowers the other three:
    'retention' raises expansion, and no challenge raises economics. *)
Theorem challenge_shifts_weights (topChallenge focus category : string)
    (b : Binary64.num) :
  In (topChallenge, focus) recognised ->
  In (category, b) (base_weights (num := Binary64.num)) ->
  if String.eqb category focus
  then PrimFloat.ltb b (weight topChallenge category) = true
  else PrimFloat.ltb (weight topChallenge category) b = true.
Proof.
  unfold recognised, base_weights. intros Hc Hb.
  repeat (destruct Hc as [[= <- <-] | Hc]); [| | | destruct Hc].
  all: repeat (destruct Hb as [[= <- <-] | Hb]); [| | | | destruct Hb].
  all: vm_compute; reflexivity.
Qed.

Lemma challenge_shifts_weights_witness :
  PrimFloat.ltb (lit 0.25)
    (weight (num := Binary64.num) "retention" "expansion") = true.
Proof.
  apply (challenge_shifts_weights "retention" "expansion" "expansion"
           (lit 0.25)).
  - right. right. left. reflexivity.
  - right. right. left. reflexivity.
Defined.

(** * Properties of the submission store and its handlers *)

(** X11.  The reply to a submission depends neither on the data file, nor
    on the outcome of the write, nor on the clock: whether the submission
    could be stored is never visible to the client. *)
Theorem reply_ignores_store (questions : @Questions Binary64.num)
    (now1 now2 : string) (write1 write2 : write) (body : Request.body)
    (file1 file2 : file) :
  fst (wizard_submit questions now1 write1 body file1)
  = fst (wizard_submit questions now2 write2 body file2).
Proof.
  unfold wizard_submit.
  destruct (Request.answers body) as [[answers profile] |]; [| reflexivity].
  destruct (logs body profile); [| reflexivity].
  destruct (Request.read answers) as [answers' |]; [| reflexivity].
  destruct (calculateScores questions answers'); reflexivity.
Qed.

(** X12.  When the data file is missing or holds an array and the write
    succeeds, a submission answered with 200 adds exactly one record at the
    end of the file and keeps the records that were there.  The record
    carries the arrival time, the client id of the reply, the detected
    patterns of the reply and the JSON text of its four scores, in which a
    score that is not finite is [null]. *)
Theorem accepted_submission_stored (questions : @Questions Binary64.num)
    (now : string) (body : Request.body) (dataFile dataFile' : file)
    (client_id : option json) (results : ScoreResult) :
  takes_submissions dataFile ->
  wizard_submit questions now Written body dataFile
  = (Respond 200 (Success client_id results), dataFile') ->
  exists data,
    dataFile' = Submissions (contents dataFile ++ [data]) /\
    Submission.timestamp data = now /\
    Submission.client_id data = client_id /\
    Submission.patterns data = detected_patterns results /\
    Submission.scores data =
      {| Submission.overall_ssi := JSON_number (overall_ssi results);
         Submission.pipeline := JSON_number (Pipeline (loop_scores results));
         Submission.conversion :=
           JSON_number (Conversion (loop_scores results));
         Submission.expansion :=
           JSON_number (Expansion (loop_scores results)) |}.
Proof.
  intros Htakes. unfold wizard_submit.
  destruct (Request.answers body) as [[ratings profile] |]; [| discriminate].
  destruct (logs body profile); cbn [negb]; [| discriminate].
  destruct (Request.read ratings) as [answers |]; [| discriminate].
  destruct (calculateScores questions answers) as [r | e]; [| discriminate].
  intros [= <- <- <-].
  exists (stringify (submissionData now body answers profile r)).
  split; [| repeat split].
  destruct Htakes as [-> | [l ->]]; reflexivity.
Qed.

Lemma sample_body_accepted :
  exists results,
    wizard_submit sampleQuestions "2025-02-01T09:00:00.000Z" Written
      (sample_body (Some (answers_of 4 2 3 3 (Some "conversion"))))
      (Submissions [sample_stored])
    = (Respond 200 (Success (Some (JString "c-1")) results),
       snd (wizard_submit sampleQuestions "2025-02-01T09:00:00.000Z" Written
              (sample_body (Some (answers_of 4 2 3 3 (Some "conversion"))))
              (Submissions [sample_stored]))).
Proof.
  assert (Hr : exists r,
            calculateScores sampleQuestions
              (answers_of 4 2 3 3 (Some "conversion")) = Return r)
    by (vm_compute; eexists; reflexivity).
  destruct Hr as [r Hr]. exists r.
  unfold wizard_submit.
  cbn [sample_body Request.answers Request.client_id].
  change (logs _ sample_profile) with true. cbn [negb].
  change (Request.read (Request.readable ?a)) with (Some a).
  cbv beta iota. rewrite Hr. reflexivity.
Defined.

Lemma accepted_submission_stored_witness :
  exists results data,
    wizard_submit sampleQuestions "2025-02-01T09:00:00.000Z" Written
      (sample_body (Some (answers_of 4 2 3 3 (Some "conversion"))))
      (Submissions [sample_stored])
    = (Respond 200 (Success (Some (JString "c-1")) results),
       Submissions ([sample_stored] ++ [data])) /\
    Submission.timestamp data = "2025-02-01T09:00:00.000Z" /\
    Submission.patterns data = detected_patterns results.
Proof.
  destruct sample_body_accepted as [results Hr].
  destruct (accepted_submission_stored _ _ _ (Submissions [sample_stored])
              _ _ results
              (or_intror (ex_intro _ [sample_stored] eq_refl)) Hr)
    as (data & Hd & Ht & _ & Hp & _).
  exists results, data. rewrite Hd in Hr.
  split; [exact Hr |]. split; assumption.
Defined.

(** ** What the store records of the answers *)

Lemma rating_replayed (x : json_number) :
  rating
    match or_null (parseInt x) with
    | Some n => Num n
    | None => Absent
    end
  = rating x.
Proof.
  destruct x as [| n]; [reflexivity |].
  unfold or_null, parseInt. destruct (Z.eqb_spec n 0) as [-> | Hn];
    reflexivity.
Qed.

Lemma challenge_replayed (s : option string) :
  or_string (string_or_null s) "pipeline" = or_string s "pipeline".
Proof.
  unfold or_string, string_or_null. destruct s as [s |]; [| reflexivity].
  destruct (String.eqb s "") eqn:Hs; [reflexivity |]. rewrite Hs.
  reflexivity.
Qed.

(** X13.  The stored answers determine the reply: scoring the stored
    answers again, with a stored [null] read as a missing field, gives the
    outcome of the original request.  A rating stored as [null] was scored
    as 3 and a challenge stored as [null] as 'pipeline'. *)
Theorem stored_answers_replay (questions : @Questions Binary64.num)
    (now : string) (body : Request.body) (answers : Answers)
    (profile : Request.profile) (results : ScoreResult) :
  calculateScores questions
    (replay
       (Submission.answers
          (stringify (submissionData now body answers profile results))))
  = calculateScores questions answers.
Proof.
  unfold calculateScores, detectPatterns, replay.
  cbn [stringify submissionData Submission.answers
       Submission.pipeline_health Submission.sales_conversion
       Submission.customer_success Submission.economics_efficiency
       Submission.top_challenge
       question_1_pipeline_health question_2_sales_conversion
       question_3_customer_success question_4_economics_and_efficiency
       question_5_top_challenge].
  rewrite !rating_replayed, challenge_replayed. reflexivity.
Qed.

(** ** A data file that cannot be parsed *)

(** X14.  A data file that cannot be read or that [JSON.parse] rejects is
    never repaired: whatever submissions arrive, the file stays as it is,
    every accepted submission is lost, and the listing keeps failing with
    status 500. *)
Theorem invalid_store_stays (Date_parse : string -> option Z)
    (questions : @Questions Binary64.num)
    (requests : list request) (message : string)
    (query : Query.t) :
  after questions requests (Invalid message) = Invalid message /\
  status
    (api_submissions Date_parse query
       (after questions requests (Invalid message))) = 500.
Proof.
  assert (Hafter : after questions requests (Invalid message)
                   = Invalid message).
  { induction requests as [| [[now w] body] requests IH]; [reflexivity |].
    cbn [after]. unfold wizard_submit.
    destruct (Request.answers body) as [[answers profile] |];
      [| exact IH].
    destruct (logs body profile); cbn [negb]; [| exact IH].
    destruct (Request.read answers) as [answers' |]; [| exact IH].
    destruct (calculateScores questions answers'); exact IH. }
  split; [exact Hafter |]. rewrite Hafter. reflexivity.
Qed.

(** ** Series of submissions *)

Lemma wizard_submit_step (questions : @Questions Binary64.num)
    (now : string) (body : Request.body) (dataFile : file) :
  takes_submissions dataFile ->
  let dataFile' := snd (wizard_submit questions now Written body dataFile) in
  takes_submissions dataFile' /\
  exists new,
    contents dataFile' = (contents dataFile ++ new)%list /\
    length new
    = (if (status (fst (wizard_submit questions now Written body Missing))
           =? 200)%Z
       then 1 else 0)%nat.
Proof.
  intros Htakes. unfold wizard_submit.
  assert (Hkeep :
    takes_submissions dataFile /\
    exists new : list stored,
      contents dataFile = (contents dataFile ++ new)%list /\
      length new = 0%nat).
  { split; [exact Htakes |]. exists [].
    split; [symmetry; apply app_nil_r | reflexivity]. }
  destruct (Request.answers body) as [[answers profile] |];
    [| exact Hkeep].
  destruct (logs body profile); cbn [negb]; [| exact Hkeep].
  destruct (Request.read answers) as [answers' |]; [| exact Hkeep].
  destruct (calculateScores questions answers') as [r | e]; [| exact Hkeep].
  cbn [fst snd status Z.eqb Pos.eqb].
  destruct Htakes as [-> | [l ->]]; cbn [saveSubmissionData contents];
    (split; [right; eexists; reflexivity |]);
    eexists; split; reflexivity.
Qed.

Lemma after_takes_submissions (questions : @Questions Binary64.num)
    (requests : list request) (dataFile : file) :
  all_written requests -> takes_submissions dataFile ->
  takes_submissions (after questions requests dataFile).
Proof.
  intros Hw. revert dataFile.
  induction Hw as [| [[now w] body] requests Hreq _ IH]; intros dataFile Hf;
    [exact Hf |].
  cbn in Hreq. subst w. cbn [after]. apply IH.
  apply (wizard_submit_step questions now body dataFile Hf).
Qed.

(** X15.  Over a series of submissions whose writes succeed, to a data file
    that is missing or holds an array, the file only grows at its end, by
    one record for each submission answered with 200 and by nothing for the
    others; so the unfiltered listing then reports the old records first and
    a total raised by the number of accepted submissions. *)
Theorem submissions_accumulate (Date_parse : string -> option Z)
    (questions : @Questions Binary64.num)
    (requests : list request) (dataFile : file) :
  all_written requests -> takes_submissions dataFile ->
  exists new,
    contents (after questions requests dataFile)
      = (contents dataFile ++ new)%list /\
    length new = accepted questions requests /\
    (accepted questions requests <> 0%nat ->
     api_submissions Date_parse no_filter
       (after questions requests dataFile)
     = Respond 200
         (Listing (contents dataFile ++ new)
            (length (contents dataFile) + accepted questions requests)
            (Some
               (length (contents dataFile)
                + accepted questions requests)%nat))).
Proof.
  intros Hw. revert dataFile.
  induction Hw as [| [[now w] body] requests Hreq Hw IH];
    intros dataFile Htakes.
  - exists []. cbn [after accepted filter length].
    split; [symmetry; apply app_nil_r |]. split; [reflexivity |].
    intros Hne. contradiction.
  - cbn in Hreq. subst w. cbn [after].
    destruct (wizard_submit_step questions now body dataFile Htakes)
      as (Htakes' & new1 & Hc1 & Hl1).
    destruct (IH _ Htakes') as (new2 & Hc2 & Hl2 & _).
    exists (new1 ++ new2)%list.
    assert (Hacc : accepted questions ((now, Written, body) :: requests)
                   = (length new1 + accepted questions requests)%nat).
    { unfold accepted. cbn [filter fst snd]. rewrite Hl1.
      destruct (status
                  (fst (wizard_submit questions now Written body Missing))
                =? 200)%Z; reflexivity. }
    assert (Hcont :
      contents
        (after questions requests
           (snd (wizard_submit questions now Written body dataFile)))
      = (contents dataFile ++ new1 ++ new2)%list).
    { rewrite Hc2, Hc1, <- app_assoc. reflexivity. }
    split; [exact Hcont |].
    split; [rewrite length_app, Hl2; symmetry; exact Hacc |].
    intros Hne.
    destruct (after_takes_submissions questions requests _ Hw Htakes')
      as [Hfile | [l Hfile]]; rewrite Hfile in Hcont |- *;
      cbn [contents] in Hcont.
    + exfalso. apply Hne.
      transitivity (length new1 + accepted questions requests)%nat;
        [exact Hacc |].
      rewrite <- Hl2.
      destruct (contents dataFile); [| discriminate Hcont].
      destruct new1; [| discriminate Hcont].
      destruct new2; [reflexivity | discriminate Hcont].
    + cbn [api_submissions no_filter filter_by Query.cohort Query.sector
           Query.start_date Query.end_date].
      rewrite Hcont.
      assert (Hlen :
        length (contents dataFile ++ new1 ++ new2)
        = (length (contents dataFile)
           + accepted questions ((now, Written, body) :: requests))%nat).
      { rewrite !length_app, Hl2.
        transitivity
          (length (contents dataFile)
           + (length new1 + accepted questions requests))%nat;
          [reflexivity |].
        f_equal. symmetry. exact Hacc. }
      exact (f_equal
               (fun n =>
                  Respond 200
                    (Listing (contents dataFile ++ new1 ++ new2) n (Some n)))
               Hlen).
Qed.

Lemma sample_requests_accepted :
  accepted sampleQuestions
    [ ("2025-02-01T09:00:00.000Z", Written,
       sample_body (Some (answers_of 4 2 3 3 (Some "conversion"))));
      ("2025-02-01T09:05:00.000Z", Written, sample_body None);
      ("2025-02-01T09:10:00.000Z", Written,
       sample_body (Some (answers_of 5 5 7 1 None)));
      ("2025-02-01T09:15:00.000Z", Written, unreadable_body) ] = 1%nat.
Proof. vm_compute. reflexivity. Defined.

Lemma submissions_accumulate_witness :
  exists new,
    contents
      (after sampleQuestions
         [ ("2025-02-01T09:00:00.000Z", Written,
            sample_body (Some (answers_of 4 2 3 3 (Some "conversion"))));
           ("2025-02-01T09:05:00.000Z", Written, sample_body None);
           ("2025-02-01T09:10:00.000Z", Written,
            sample_body (Some (answers_of 5 5 7 1 None)));
           ("2025-02-01T09:15:00.000Z", Written, unreadable_body) ]
         (Submissions [sample_stored]))
      = ([sample_stored] ++ new)%list /\
    length new = 1%nat /\
    api_submissions sample_Date_parse no_filter
      (after sampleQuestions
         [ ("2025-02-01T09:00:00.000Z", Written,
            sample_body (Some (answers_of 4 2 3 3 (Some "conversion"))));
           ("2025-02-01T09:05:00.000Z", Written, sample_body None);
           ("2025-02-01T09:10:00.000Z", Written,
            sample_body (Some (answers_of 5 5 7 1 None)));
           ("2025-02-01T09:15:00.000Z", Written, unreadable_body) ]
         (Submissions [sample_stored]))
    = Respond 200 (Listing ([sample_stored] ++ new) 2 (Some 2%nat)).
Proof.
  destruct (submissions_accumulate sample_Date_parse sampleQuestions
              [ ("2025-02-01T09:00:00.000Z", Written,
                 sample_body (Some (answers_of 4 2 3 3 (Some "conversion"))));
                ("2025-02-01T09:05:00.000Z", Written, sample_body None);
                ("2025-02-01T09:10:00.000Z", Written,
                 sample_body (Some (answers_of 5 5 7 1 None)));
                ("2025-02-01T09:15:00.000Z", Written, unreadable_body) ]
              (Submissions [sample_stored]))
    as (new & Hc & Hl & Hlist).
  - repeat (apply Forall_cons; [reflexivity |]). apply Forall_nil.
  - right. eexists. reflexivity.
  - rewrite sample_requests_accepted in Hl, Hlist.
    exists new. split; [exact Hc |]. split; [exact Hl |].
    apply Hlist. discriminate.
Defined.

(** ** The listing *)

Lemma filter_by_filter {A : Type} (param : option string)
    (keep : string -> A -> bool) (l : list A) :
  filter_by param keep l
  = filter
      (fun s =>
         match string_or_null param with
         | Some p => keep p s
         | None => true
         end) l.
Proof.
  assert (Hall : filter (fun _ : A => true) l = l).
  { induction l as [| x l IH]; [reflexivity |]. cbn. rewrite IH.
    reflexivity. }
  unfold filter_by, string_or_null. destruct param as [p |];
    [| symmetry; exact Hall].
  destruct (String.eqb p ""); [symmetry; exact Hall | reflexivity].
Qed.

Lemma filter_filter {A : Type} (f g : A -> bool) (l : list A) :
  filter g (filter f l) = filter (fun x => f x && g x) l.
Proof.
  induction l as [| x l IH]; [reflexivity |]. cbn [filter].
  destruct (f x); cbn [filter andb]; [| exact IH].
  destruct (g x); rewrite IH; reflexivity.
Qed.

Lemma filter_length_le {A : Type} (f : A -> bool) (l : list A) :
  (length (filter f l) <= length l)%nat.
Proof.
  induction l as [| x l IH]; [apply le_n |]. cbn [filter].
  destruct (f x); cbn [length]; lia.
Qed.

Lemma api_submissions_filter (Date_parse : string -> option Z)
    (query : Query.t) (l : list stored) :
  api_submissions Date_parse query (Submissions l)
  = Respond 200
      (Listing (filter (selected Date_parse query) l)
         (length (filter (selected Date_parse query) l))
         (Some (length l))).
Proof.
  cbn [api_submissions]. rewrite !filter_by_filter, !filter_filter.
  rewrite (filter_ext _ (selected Date_parse query)); [reflexivity |].
  intros s. unfold selected. rewrite !andb_assoc. reflexivity.
Qed.

(** X16.  The listing of a readable data file returns, in stored order,
    exactly the submissions that pass every filter whose parameter is
    given and not empty; [total] counts them, [total_all] counts the file,
    and [total] never exceeds [total_all]. *)
Theorem api_submissions_selects (Date_parse : string -> option Z)
    (query : Query.t) (l : list stored) :
  exists total,
    api_submissions Date_parse query (Submissions l)
    = Respond 200
        (Listing (filter (selected Date_parse query) l) total
           (Some (length l))) /\
    total = length (filter (selected Date_parse query) l) /\
    (total <= length l)%nat.
Proof.
  exists (length (filter (selected Date_parse query) l)).
  split; [apply api_submissions_filter |].
  split; [reflexivity | apply filter_length_le].
Qed.

(** X17.  A start or end date that is given but does not parse is no error:
    every date comparison is then false and the listing is empty, while
    [total_all] still counts the file. *)
Theorem api_submissions_invalid_date (Date_parse : string -> option Z)
    (query : Query.t) (l : list stored) (d : string) :
  d <> "" -> Date_parse d = None ->
  Query.start_date query = Some d \/ Query.end_date query = Some d ->
  api_submissions Date_parse query (Submissions l)
  = Respond 200 (Listing [] 0 (Some (length l))).
Proof.
  intros Hd Hparse Hq.
  rewrite api_submissions_filter.
  assert (Hnone : filter (selected Date_parse query) l = []).
  { induction l as [| s l IH]; [reflexivity |]. cbn [filter].
    rewrite IH.
    assert (Hs : selected Date_parse query s = false).
    { unfold selected.
      assert (Hnull : string_or_null (Some d) = Some d).
      { unfold string_or_null.
        destruct (String.eqb_spec d ""); [contradiction | reflexivity]. }
      destruct Hq as [-> | ->]; rewrite Hnull, Hparse.
      - unfold date_ge.
        destruct (Date_parse (Submission.timestamp s));
          rewrite ?andb_false_r; reflexivity.
      - unfold date_le.
        destruct (Date_parse (Submission.timestamp s));
          rewrite ?andb_false_r; reflexivity. }
    rewrite Hs. reflexivity. }
  rewrite Hnone. reflexivity.
Qed.

Lemma api_submissions_invalid_date_witness :
  api_submissions sample_Date_parse
    {| Query.cohort := None; Query.sector := None;
       Query.start_date := Some "yesterday"; Query.end_date := None |}
    (Submissions [sample_stored])
  = Respond 200 (Listing [] 0 (Some 1%nat)) /\
  api_submissions sample_Date_parse
    {| Query.cohort := None; Query.sector := None;
       Query.start_date := Some "2025-01-01T00:00:00.000Z";
       Query.end_date := None |}
    (Submissions [sample_stored])
  = Respond 200 (Listing [sample_stored] 1 (Some 1%nat)).
Proof.
  split; [| reflexivity].
  apply (api_submissions_invalid_date sample_Date_parse _ [sample_stored]
           "yesterday").
  - discriminate.
  - reflexivity.
  - left. reflexivity.
Defined.

(** * Properties of the report page *)

(** ** Sorting by a comparator that follows an integer key

    [ok] singles out the elements that the comparator orders; on them
    [comparefn x y < 0] holds exactly when the key of [x] is below the key
    of [y]. *)

Section KeySort.

Context {A : Type}.
Variable comparefn : A -> A -> Binary64.num.
Variable ok : A -> Prop.
Variable k : A -> Z.
Hypothesis before_key :
  forall x y, ok x -> ok y ->
              nlt (comparefn x y) (lit 0) = (k x <? k y).

Lemma insert_by_key (q : Z) (x : A) (l : list A) :
  ok x -> Forall ok l ->
  StronglySorted (fun a b => k a <= k b) l ->
  StronglySorted (fun a b => k a <= k b) (insert comparefn x l) /\
  filter (fun a => k a =? q) (insert comparefn x l)
  = filter (fun a => k a =? q) (l ++ [x])%list.
Proof.
  intros Hx Hl Hs. induction l as [| y l IH]; cbn [insert].
  - split; [repeat constructor | reflexivity].
  - apply StronglySorted_inv in Hs. destruct Hs as [Hs Hy].
    inversion Hl as [| y' l' Hb Hl']; subst.
    rewrite (before_key x y Hx Hb).
    destruct (Z.ltb_spec (k x) (k y)) as [Hlt | Hge].
    + split.
      * constructor; [constructor; assumption |].
        constructor; [lia |].
        eapply Forall_impl; [| exact Hy]. cbn. intros z Hz. lia.
      * assert (Hnil : k x = q -> filter (fun a => k a =? q) (y :: l) = []).
        { intros Hq.
          assert (Hall : Forall (fun z => k x < k z) (y :: l)).
          { constructor; [exact Hlt |].
            eapply Forall_impl; [| exact Hy]. cbn. intros z Hz. lia. }
          clear - Hall Hq. induction Hall as [| z t Hz _ IHt];
            [reflexivity |].
          cbn [filter]. destruct (Z.eqb_spec (k z) q); [lia | exact IHt]. }
        rewrite filter_app.
        change (filter (fun a => k a =? q) (x :: y :: l)) with
          (if k x =? q then x :: filter (fun a => k a =? q) (y :: l)
           else filter (fun a => k a =? q) (y :: l)).
        change (filter (fun a => k a =? q) [x]) with
          (if k x =? q then [x] else []).
        destruct (Z.eqb_spec (k x) q) as [Hq | Hq];
          [| rewrite app_nil_r; reflexivity].
        rewrite (Hnil Hq). reflexivity.
    + destruct (IH Hl' Hs) as [IHs IHf]. split.
      * constructor; [exact IHs |].
        apply (Permutation_Forall
                 (Permutation_sym (insert_perm comparefn x l))).
        constructor; [lia | exact Hy].
      * cbn [filter app]. rewrite IHf. reflexivity.
Qed.

Lemma fold_insert_by_key (q : Z) (l acc : list A) :
  Forall ok acc -> Forall ok l ->
  StronglySorted (fun a b => k a <= k b) acc ->
  let sorted := fold_left (fun sorted x => insert comparefn x sorted) l acc in
  StronglySorted (fun a b => k a <= k b) sorted /\
  filter (fun a => k a =? q) sorted
  = filter (fun a => k a =? q) (acc ++ l)%list.
Proof.
  revert acc. induction l as [| x l IH]; intros acc Hacc Hl Hs;
    cbn [fold_left].
  - rewrite app_nil_r. split; [exact Hs | reflexivity].
  - inversion Hl as [| x' l' Hx Hl']; subst.
    destruct (insert_by_key q x acc Hx Hacc Hs) as [Hins Hfil].
    destruct (IH (insert comparefn x acc)) as [Hsorted Hstable].
    + apply (Permutation_Forall
               (Permutation_sym (insert_perm comparefn x acc))).
      constructor; assumption.
    + exact Hl'.
    + exact Hins.
    + split; [exact Hsorted |].
      rewrite Hstable, filter_app, Hfil.
      change (acc ++ x :: l)%list with (acc ++ ([x] ++ l))%list.
      rewrite !filter_app, app_assoc. reflexivity.
Qed.

Lemma sort_by_key (l : list A) :
  Forall ok l ->
  StronglySorted (fun a b => k a <= k b) (sort comparefn l) /\
  forall q,
    filter (fun a => k a =? q) (sort comparefn l)
    = filter (fun a => k a =? q) l.
Proof.
  intros Hl. split.
  - apply (fold_insert_by_key 0 l []); [constructor | exact Hl | constructor].
  - intros q.
    apply (fold_insert_by_key q l []);
      [constructor | exact Hl | constructor].
Qed.

End KeySort.

Lemma ascending_key (a b : Loop.t) :
  loop_scored a -> loop_scored b ->
  nlt (ascending a b) (lit 0)
  = (float_key (Loop.score a) <? float_key (Loop.score b)).
Proof.
  intros Ha Hb. unfold ascending. cbn [nlt nsub Binary64Number].
  change (lit (num := Binary64.num) 0) with 0%float.
  apply sub_negative_key; assumption.
Qed.

Lemma descending_key (a b : Loop.t) :
  loop_scored a -> loop_scored b ->
  nlt (descending a b) (lit 0)
  = (- float_key (Loop.score a) <? - float_key (Loop.score b)).
Proof.
  intros Ha Hb. unfold descending. cbn [nlt nsub Binary64Number].
  change (lit (num := Binary64.num) 0) with 0%float.
  rewrite (sub_negative_key _ _ Hb Ha).
  destruct (Z.ltb_spec (float_key (Loop.score b)) (float_key (Loop.score a)));
    destruct (Z.ltb_spec (- float_key (Loop.score a))
                (- float_key (Loop.score b))); lia || reflexivity.
Qed.

Lemma sorted_by_key_loop_le (l : list Loop.t) :
  Forall loop_scored l ->
  StronglySorted
    (fun a b => float_key (Loop.score a) <= float_key (Loop.score b)) l ->
  StronglySorted loop_le l.
Proof.
  intros Hl Hs. induction Hs as [| a l Hs IH Ha]; [constructor |].
  inversion Hl as [| a' l' Hna Hl']; subst.
  constructor; [apply IH, Hl' |].
  rewrite Forall_forall in *. intros b Hb. unfold loop_le.
  rewrite (leb_key _ _ Hna (Hl' b Hb)). apply Z.leb_le, Ha, Hb.
Qed.

(** ** [generatePriorityRecommendations] *)

Lemma forEach_loops {B : Type} (f : Loop.t -> nat -> B) (g : B -> string)
    (h : Loop.t -> string) (index : nat) (l : list Loop.t) :
  (forall loop i, g (f loop i) = h loop) ->
  map g (forEach f index l) = map h l.
Proof.
  intros Hf. revert index. induction l as [| x l IH]; intros index;
    [reflexivity |].
  cbn [forEach map]. rewrite Hf, IH. reflexivity.
Qed.

Lemma forEach_later {B : Type} (f : Loop.t -> nat -> B) (g : B -> string)
    (index : nat) (l : list Loop.t) :
  (forall loop i, g (f loop (S i)) = "Medium") ->
  map g (forEach f (S index) l) = repeat "Medium" (length l).
Proof.
  intros Hf. revert index. induction l as [| x l IH]; intros index;
    [reflexivity |].
  cbn [forEach map length repeat]. rewrite Hf, IH. reflexivity.
Qed.

(** X18.  For loops whose scores are numbers, the recommendations of the
    page are the loops in ascending order of score, one recommendation for
    each loop; only the first can have priority 'High', and it has it
    exactly when its score is below 60. *)
Theorem generatePriorityRecommendations_ranked (loops : list Loop.t) :
  Forall loop_scored loops ->
  exists sorted,
    Permutation sorted loops /\ StronglySorted loop_le sorted /\
    map for_loop (generatePriorityRecommendations loops)
    = map Loop.name sorted /\
    map with_priority (generatePriorityRecommendations loops)
    = priorities sorted.
Proof.
  intros Hl. exists (sort ascending loops).
  assert (Hperm : Permutation (sort ascending loops) loops)
    by apply sort_perm.
  split; [exact Hperm |]. split; [| split].
  - apply sorted_by_key_loop_le.
    + exact (Permutation_Forall (Permutation_sym Hperm) Hl).
    + apply (sort_by_key ascending loop_scored
               (fun a => float_key (Loop.score a)) ascending_key loops Hl).
  - unfold generatePriorityRecommendations. apply forEach_loops.
    reflexivity.
  - unfold generatePriorityRecommendations, priorities.
    destruct (sort ascending loops) as [| first rest]; [reflexivity |].
    cbn [forEach map with_priority Nat.eqb]. f_equal.
    apply forEach_later. reflexivity.
Qed.

Lemma generatePriorityRecommendations_ranked_witness :
  exists sorted,
    Permutation sorted
      [ {| Loop.name := "Pipeline"; Loop.score := 72%float |};
        {| Loop.name := "Conversion"; Loop.score := 41%float |};
        {| Loop.name := "Expansion"; Loop.score := 65%float |} ] /\
    StronglySorted loop_le sorted /\
    map for_loop
      (generatePriorityRecommendations
         [ {| Loop.name := "Pipeline"; Loop.score := 72%float |};
           {| Loop.name := "Conversion"; Loop.score := 41%float |};
           {| Loop.name := "Expansion"; Loop.score := 65%float |} ])
    = map Loop.name sorted /\
    map with_priority
      (generatePriorityRecommendations
         [ {| Loop.name := "Pipeline"; Loop.score := 72%float |};
           {| Loop.name := "Conversion"; Loop.score := 41%float |};
           {| Loop.name := "Expansion"; Loop.score := 65%float |} ])
    = priorities sorted.
Proof.
  apply generatePriorityRecommendations_ranked.
  repeat (apply Forall_cons; [reflexivity |]). apply Forall_nil.
Defined.

(** ** [renderReport] *)

Ltac loop_keys :=
  repeat match goal with
    | |- context [nlt (descending ?a ?b) (lit 0)] =>
        rewrite (descending_key a b) by assumption
    | |- context [nlt (ascending ?a ?b) (lit 0)] =>
        rewrite (ascending_key a b) by assumption
    end;
  cbn [Loop.score].

Ltac split_keys :=
  repeat match goal with
    | |- context [(?x <? ?y)%Z] => destruct (Z.ltb_spec x y); try lia
    end.

(* Runs the insertions of a sort of loops, one comparison at a time. *)
Ltac run_sort :=
  repeat first
    [ progress loop_keys
    | match goal with
      | |- context [if (?x <? ?y)%Z then _ else _] =>
          destruct (Z.ltb_spec x y); try lia
      end
    | progress cbn [sort fold_left insert] ].

Ltac float_order :=
  match goal with
  | |- PrimFloat.leb ?x ?y = true =>
      rewrite (leb_key x y) by assumption; apply Z.leb_le; lia
  end.

Lemma only_lowest_key (x y z : Binary64.num) :
  not_NaN x -> not_NaN y -> not_NaN z ->
  only_lowest x y z
  = (float_key x <? float_key y) && (float_key x <? float_key z).
Proof.
  intros Hx Hy Hz. unfold only_lowest.
  rewrite (ltb_key x y Hx Hy), (ltb_key x z Hx Hz). reflexivity.
Qed.

(** X19.  With three scores that are numbers, [renderReport] does not
    throw; the loop that its insight calls the weakest has the lowest score
    and the one it calls the strongest has the highest.  The first
    recommendation is for the loop that the insight calls the weakest
    exactly when one score lies strictly below the other two: when two loops
    tie for the lowest score, the insight names one of them and the
    recommendations start with the other. *)
Theorem first_recommendation_and_weakest_loop
    (Number_toString : Binary64.num -> string) (clientName : string)
    (results : @ScoreResult Binary64.num) :
  let p := percent (Pipeline (loop_scores results)) in
  let c := percent (Conversion (loop_scores results)) in
  let e := percent (Expansion (loop_scores results)) in
  not_NaN p -> not_NaN c -> not_NaN e ->
  exists report,
    renderReport Number_toString clientName results = Return report /\
    Forall
      (fun loop =>
         loop_le (weakestLoop report) loop /\
         loop_le loop (strongestLoop report))
      (loopScoresArray report) /\
    (first_loop (recommendations report)
     = Some (Loop.name (weakestLoop report))
     <-> one_lowest p c e = true).
Proof.
  unfold renderReport.
  generalize (percent (Pipeline (loop_scores results))) as p.
  generalize (percent (Conversion (loop_scores results))) as c.
  generalize (percent (Expansion (loop_scores results))) as e.
  intros e c p Hp Hc He. cbv zeta.
  assert (HP : loop_scored {| Loop.name := "Pipeline"; Loop.score := p |})
    by exact Hp.
  assert (HC : loop_scored {| Loop.name := "Conversion"; Loop.score := c |})
    by exact Hc.
  assert (HE : loop_scored {| Loop.name := "Expansion"; Loop.score := e |})
    by exact He.
  unfold one_lowest.
  rewrite (only_lowest_key p c e Hp Hc He), (only_lowest_key c p e Hc Hp He),
    (only_lowest_key e p c He Hp Hc).
  unfold loop_le.
  run_sort.
  all: cbn [nth_error defined bind]; eexists; (split; [reflexivity |]);
    cbn [loopScoresArray weakestLoop strongestLoop recommendations
         Loop.score Loop.name];
    (split; [repeat (apply Forall_cons;
                     [cbn beta; cbn [Loop.score]; split; float_order |]);
             apply Forall_nil |]).
  all: unfold generatePriorityRecommendations; run_sort;
    cbn [forEach first_loop for_loop Loop.name]; split_keys;
    cbn [andb orb]; split; intros Heq; solve [reflexivity | discriminate Heq].
Qed.

Lemma first_recommendation_and_weakest_loop_witness :
  exists report,
    renderReport (fun _ => "") "Acme"
      {| overall_ssi := 0.625%float;
         loop_scores :=
           {| Pipeline := 0.5%float; Conversion := 0.5%float;
              Expansion := 0.75%float |};
         priority_recommendations := [];
         detected_patterns := [] |} = Return report /\
    Forall
      (fun loop =>
         loop_le (weakestLoop report) loop /\
         loop_le loop (strongestLoop report))
      (loopScoresArray report) /\
    (first_loop (recommendations report)
     = Some (Loop.name (weakestLoop report))
     <-> one_lowest (percent 0.5%float) (percent 0.5%float)
           (percent 0.75%float) = true).
Proof.
  apply (first_recommendation_and_weakest_loop (fun _ => "") "Acme"
           {| overall_ssi := 0.625%float;
              loop_scores :=
                {| Pipeline := 0.5%float; Conversion := 0.5%float;
                   Expansion := 0.75%float |};
              priority_recommendations := [];
              detected_patterns := [] |});
    reflexivity.
Defined.

(** ** [selectFixesForPDF] *)

Lemma ltb_nan (x y : Binary64.num) :
  PrimFloat.is_nan x = true -> PrimFloat.ltb x y = false.
Proof.
  intros Hx. rewrite FloatAxioms.ltb_spec.
  destruct (Prim2SF x) as [s | s | | s m e] eqn:HX; [| | reflexivity |];
    exfalso;
    (assert (Hn : not_NaN x)
       by (apply spec_not_nan; rewrite HX; discriminate));
    unfold not_NaN in Hn; congruence.
Qed.

(** X20.  [selectFixesForPDF] returns three defined fixes for all scores
    exactly when the library lists at least five pipeline fixes, four
    conversion fixes and four expansion fixes; with a shorter list some
    score selects [undefined].  A score that is NaN selects the fixes of the
    top band, the ones for scores of 70 and more. *)
Theorem selectFixesForPDF_defined (Fix : Type) (fixLibrary : FixLibrary Fix) :
  ((forall pipelineScore conversionScore expansionScore,
      let fixes :=
        selectFixesForPDF Fix fixLibrary pipelineScore conversionScore
          expansionScore in
      pipeline_fix Fix fixes <> None /\ conversion_fix Fix fixes <> None /\
      expansion_fix Fix fixes <> None)
   <->
   (5 <= length (pipeline_fixes Fix fixLibrary))%nat /\
   (4 <= length (conversion_fixes Fix fixLibrary))%nat /\
   (4 <= length (expansion_fixes Fix fixLibrary))%nat) /\
  (forall x, PrimFloat.is_nan x = true ->
     selectFixesForPDF Fix fixLibrary x x x
     = selectFixesForPDF Fix fixLibrary 70%float 70%float 70%float).
Proof.
  split; [split |].
  - intros Hall. specialize (Hall 70%float 70%float 70%float).
    assert (H50 : lt 70%float (lit 50) = false) by (vm_compute; reflexivity).
    assert (H70 : lt 70%float (lit 70) = false) by (vm_compute; reflexivity).
    cbv zeta in Hall. unfold selectFixesForPDF in Hall.
    cbn [pipeline_fix conversion_fix expansion_fix] in Hall.
    rewrite H50, H70 in Hall. destruct Hall as (Hp & Hc & He).
    apply nth_error_Some in Hp, Hc, He. lia.
  - intros (Hp & Hc & He) p c e. cbn [selectFixesForPDF pipeline_fix
      conversion_fix expansion_fix].
    repeat split;
      repeat match goal with
        | |- context [if ?b then _ else _] => destruct b
        end;
      apply nth_error_Some; lia.
  - intros x Hx. unfold selectFixesForPDF, lt.
    rewrite !(ltb_nan x _ Hx). reflexivity.
Qed.

(** ** The urgency of the page *)

Lemma threshold_keys :
  float_key 50%float < float_key 60%float /\ float_key 60%float < float_key 70%float.
Proof. split; vm_compute; reflexivity. Qed.

(** X21.  The two statements of urgency on the page agree: for three scores
    that are numbers, the first recommendation has priority 'High' exactly
    when the insight calls the weakest loop the 'primary area of concern' or
    the 'critical priority', that is when the lowest score is below 60. *)
Theorem first_priority_matches_concern
    (Number_toString : Binary64.num -> string) (clientName : string)
    (results : @ScoreResult Binary64.num) :
  not_NaN (percent (Pipeline (loop_scores results))) ->
  not_NaN (percent (Conversion (loop_scores results))) ->
  not_NaN (percent (Expansion (loop_scores results))) ->
  exists report,
    renderReport Number_toString clientName results = Return report /\
    exists first,
      hd_error (recommendations report) = Some first /\
      (with_priority first = "High" <->
       concernLevel (weakestLoop report) = "primary area of concern" \/
       concernLevel (weakestLoop report) = "critical priority") /\
      (with_priority first = "High" <->
       PrimFloat.ltb (Loop.score (weakestLoop report)) 60 = true).
Proof.
  unfold renderReport.
  generalize (percent (Pipeline (loop_scores results))) as p.
  generalize (percent (Conversion (loop_scores results))) as c.
  generalize (percent (Expansion (loop_scores results))) as e.
  intros e c p Hp Hc He.
  assert (HP : loop_scored {| Loop.name := "Pipeline"; Loop.score := p |})
    by exact Hp.
  assert (HC : loop_scored {| Loop.name := "Conversion"; Loop.score := c |})
    by exact Hc.
  assert (HE : loop_scored {| Loop.name := "Expansion"; Loop.score := e |})
    by exact He.
  assert (H50 : not_NaN 50%float) by reflexivity.
  assert (H60 : not_NaN 60%float) by reflexivity.
  assert (H70 : not_NaN 70%float) by reflexivity.
  destruct threshold_keys as [K56 K67].
  run_sort.
  all: cbn [nth_error defined bind]; eexists;
    (split; [reflexivity |]);
    cbn [loopScoresArray weakestLoop strongestLoop recommendations];
    unfold generatePriorityRecommendations; run_sort;
    cbn [forEach hd_error Nat.eqb]; eexists; (split; [reflexivity |]);
    cbn [with_priority]; unfold concernLevel, lt, ge; cbn [Loop.score];
    change (lit (num := Binary64.num) 50) with 50%float;
    change (lit (num := Binary64.num) 60) with 60%float;
    change (lit (num := Binary64.num) 70) with 70%float;
    rewrite ?(ltb_key p 60%float Hp H60), ?(ltb_key c 60%float Hc H60),
      ?(ltb_key e 60%float He H60),
      ?(leb_key 50%float p H50 Hp), ?(leb_key 50%float c H50 Hc), ?(leb_key 50%float e H50 He),
      ?(leb_key 60%float p H60 Hp), ?(leb_key 60%float c H60 Hc), ?(leb_key 60%float e H60 He),
      ?(leb_key 70%float p H70 Hp), ?(leb_key 70%float c H70 Hc), ?(leb_key 70%float e H70 He);
    repeat match goal with
      | |- context [(?x <? ?y)%Z] => destruct (Z.ltb_spec x y); try lia
      | |- context [(?x <=? ?y)%Z] => destruct (Z.leb_spec x y); try lia
      end;
    split; split; intros Heq;
    solve [ reflexivity | discriminate Heq
          | left; reflexivity | right; reflexivity
          | destruct Heq as [Heq | Heq]; discriminate Heq ].
Qed.

Lemma first_priority_matches_concern_witness :
  exists report,
    renderReport (fun _ => "") "Acme"
      {| overall_ssi := 0.625%float;
         loop_scores :=
           {| Pipeline := 0.5%float; Conversion := 0.75%float;
              Expansion := 0.625%float |};
         priority_recommendations := [];
         detected_patterns := [] |} = Return report /\
    exists first,
      hd_error (recommendations report) = Some first /\
      (with_priority first = "High" <->
       concernLevel (weakestLoop report) = "primary area of concern" \/
       concernLevel (weakestLoop report) = "critical priority") /\
      (with_priority first = "High" <->
       PrimFloat.ltb (Loop.score (weakestLoop report)) 60 = true).
Proof.
  apply (first_priority_matches_concern (fun _ => "") "Acme"
           {| overall_ssi := 0.625%float;
              loop_scores :=
                {| Pipeline := 0.5%float; Conversion := 0.75%float;
                   Expansion := 0.625%float |};
              priority_recommendations := [];
              detected_patterns := [] |});
    reflexivity.
Defined.

Lemma leb_nan_r (x y : Binary64.num) :
  PrimFloat.is_nan y = true -> PrimFloat.leb x y = false.
Proof.
  intros Hy. rewrite FloatAxioms.leb_spec.
  destruct (Prim2SF y) as [s | s | | s m e] eqn:HY;
    [| | destruct (Prim2SF x); reflexivity |];
    exfalso;
    (assert (Hn : not_NaN y)
       by (apply spec_not_nan; rewrite HY; discriminate));
    unfold not_NaN in Hn; congruence.
Qed.

Lemma band_keys :
  float_key 40%float < float_key 50%float /\
  float_key 50%float < float_key 60%float /\
  float_key 60%float < float_key 70%float /\
  float_key 70%float < float_key 80%float.
Proof. repeat split; vm_compute; reflexivity. Qed.

(** X22.  The colour class of a score and the wording of the overall
    insight use the same bands: a score is 'score-high' exactly when its
    health is described as exceptional or strong (70 and more), and
    'score-low' exactly when it is described as critical (below 40 or NaN). *)
Theorem score_class_matches_health (score : Binary64.num) :
  (getScoreClass score = "score-high" <->
   healthDescription score
   = "indicating exceptional GTM infrastructure health with minimal optimization needs"
   \/
   healthDescription score
   = "indicating strong GTM infrastructure health with minor optimization opportunities")
  /\
  (getScoreClass score = "score-low" <->
   healthDescription score
   = "indicating critical GTM infrastructure challenges requiring urgent intervention").
Proof.
  unfold getScoreClass, healthDescription, ge.
  change (lit (num := Binary64.num) 40) with 40%float.
  change (lit (num := Binary64.num) 50) with 50%float.
  change (lit (num := Binary64.num) 60) with 60%float.
  change (lit (num := Binary64.num) 70) with 70%float.
  change (lit (num := Binary64.num) 80) with 80%float.
  destruct (PrimFloat.is_nan score) eqn:Hs.
  - rewrite !(leb_nan_r _ score Hs).
    split; split; intros Heq;
      solve [ reflexivity | discriminate Heq
            | destruct Heq as [Heq | Heq]; discriminate Heq ].
  - assert (H40 : not_NaN 40%float) by reflexivity.
    assert (H50 : not_NaN 50%float) by reflexivity.
    assert (H60 : not_NaN 60%float) by reflexivity.
    assert (H70 : not_NaN 70%float) by reflexivity.
    assert (H80 : not_NaN 80%float) by reflexivity.
    rewrite (leb_key _ _ H40 Hs), (leb_key _ _ H50 Hs), (leb_key _ _ H60 Hs),
      (leb_key _ _ H70 Hs), (leb_key _ _ H80 Hs).
    destruct band_keys as (K45 & K56 & K67 & K78).
    repeat match goal with
      | |- context [(?x <=? ?y)%Z] => destruct (Z.leb_spec x y); try lia
      end;
      split; split; intros Heq;
      solve [ reflexivity | discriminate Heq
            | left; reflexivity | right; reflexivity
            | destruct Heq as [Heq | Heq]; discriminate Heq ].
Qed.

(** ** A score that is not a number, from the request to the store *)


